(** * A shallow embedding of uproot's [newrootio.py]

    The reader of ROOT files: cursor and primitive codec, byte-count
    framing, the tagged-reference decoder, keys and directories, the
    bootstrap streamer classes and the class synthesizer.  Python
    functions become Rocq functions with the cursor threaded explicitly;
    a raised exception is the [Raise] case of [result].  The code is
    Python 2 era code: [str] is a byte string, and that is how strings
    are compared here. *)

From Stdlib Require Import ZArith Lia List String Ascii.
From Stdlib.Strings Require Import Byte.
From stdpp Require Import base gmap strings list pretty.
Import ListNotations.
Local Open Scope Z_scope.

#[local] Set Warnings "-register-all".

(** ** Exceptions and results *)

(** The Python exception classes the module raises.  [StructError] is
    [struct.error], [SourceError] a byte source asked for a range it does
    not hold, [RuntimeError] the interpreter's recursion limit. *)
Inductive exn :=
| ValueError
| KeyError
| IOError
| NotImplementedError
| TypeError
| AssertionError
| AttributeError
| RuntimeError
| StructError
| SourceError.

Inductive result (A : Type) :=
| Ok (a : A)
| Raise (e : exn).
Arguments Ok {A} a.
Arguments Raise {A} e.

#[global] Instance exn_eq_dec : EqDecision exn.
Proof. solve_decision. Defined.

(** ** Python values *)

(** The values a read can produce.  A float is kept as the IEEE-754 bit
    pattern it was decoded from, a class (a factory) by its name. *)
Inductive pyval :=
| PNone
| PInt (z : Z)
| PBool (b : bool)
| PFloat32 (bits : Z)
| PFloat64 (bits : Z)
| PStr (s : string)
| PList (l : list pyval)
| PClass (name : string)
| PInst (cls : string) (attrs : gmap string pyval).

(** ** Constants *)

(** Modelled from the spec: [uproot.const] is not among the sources; the
    values are the ones the specification quotes for the format. *)
Module const.
Definition kByteCountMask : Z := 0x40000000.
Definition kByteCountVMask : Z := 0x4000.
Definition kClassMask : Z := 0x80000000.
Definition kNewClassTag : Z := 0xFFFFFFFF.
Definition kMapOffset : Z := 2.
Definition kIsOnHeap : Z := 0x01000000.
Definition kIsReferenced : Z := 0x00000010.
Definition kOffsetL : Z := 20.
Definition kOffsetP : Z := 40.
Definition kChar : Z := 1.
Definition kShort : Z := 2.
Definition kInt : Z := 3.
Definition kLong : Z := 4.
Definition kFloat : Z := 5.
Definition kCounter : Z := 6.
Definition kCharStar : Z := 7.
Definition kDouble : Z := 8.
Definition kDouble32 : Z := 9.
Definition kLegacyChar : Z := 10.
Definition kUChar : Z := 11.
Definition kUShort : Z := 12.
Definition kUInt : Z := 13.
Definition kULong : Z := 14.
Definition kBits : Z := 15.
Definition kLong64 : Z := 16.
Definition kULong64 : Z := 17.
Definition kBool : Z := 18.
Definition kFloat16 : Z := 19.
Definition kObjectp : Z := 61.
Definition kObjectP : Z := 62.
End const.
Import const.

(** ** Big-endian decoding and [struct] formats *)

Definition byte_val (b : byte) : Z := Z.of_N (Byte.to_N b).

(** The unsigned big-endian number written in [bs]. *)
Definition be_uint (bs : list byte) : Z :=
  fold_left (fun acc b => acc * 256 + byte_val b) bs 0.

(** The same bytes read as a two's complement number of their width. *)
Definition be_sint (bs : list byte) : Z :=
  let u := be_uint bs in
  let w := 8 * Z.of_nat (length bs) in
  if u <? 2 ^ (w - 1) then u else u - 2 ^ w.

(** The format letters of Python's [struct] module that the reader uses. *)
Inductive fcode :=
| c_bool | c_b | c_B | c_h | c_H | c_i | c_I | c_l | c_L | c_q | c_Q
| c_f | c_d.

Definition letter_code (a : ascii) : option fcode :=
  match a with
  | "?"%char => Some c_bool
  | "b"%char => Some c_b
  | "B"%char => Some c_B
  | "h"%char => Some c_h
  | "H"%char => Some c_H
  | "i"%char => Some c_i
  | "I"%char => Some c_I
  | "l"%char => Some c_l
  | "L"%char => Some c_L
  | "q"%char => Some c_q
  | "Q"%char => Some c_Q
  | "f"%char => Some c_f
  | "d"%char => Some c_d
  | _ => None
  end.

(** Standard sizes: with the [!] prefix there is no padding and [l] and
    [L] are four bytes. *)
Definition code_size (c : fcode) : nat :=
  match c with
  | c_bool | c_b | c_B => 1
  | c_h | c_H => 2
  | c_i | c_I | c_l | c_L | c_f => 4
  | c_q | c_Q | c_d => 8
  end.

Definition decode (c : fcode) (bs : list byte) : pyval :=
  match c with
  | c_bool => PBool (negb (be_uint bs =? 0))
  | c_b | c_h | c_i | c_l | c_q => PInt (be_sint bs)
  | c_B | c_H | c_I | c_L | c_Q => PInt (be_uint bs)
  | c_f => PFloat32 (be_uint bs)
  | c_d => PFloat64 (be_uint bs)
  end.

Fixpoint letters_codes (l : list ascii) : option (list fcode) :=
  match l with
  | [] => Some []
  | a :: l' =>
      match letter_code a, letters_codes l' with
      | Some c, Some cs => Some (c :: cs)
      | _, _ => None
      end
  end.

(** [struct.Struct(fmt)] for the network-order formats of the module:
    a [!] followed by format letters. *)
Definition Struct (fmt : string) : option (list fcode) :=
  match fmt with
  | String "!"%char rest => letters_codes (list_ascii_of_string rest)
  | _ => None
  end.

Definition calcsize (fmt : list fcode) : nat :=
  fold_right (fun c n => (code_size c + n)%nat) 0%nat fmt.

(** [Struct.unpack]: the fields one after the other, without padding. *)
Fixpoint unpack (fmt : list fcode) (bs : list byte) : list pyval :=
  match fmt with
  | [] => []
  | c :: fmt' =>
      decode c (take (code_size c) bs) :: unpack fmt' (drop (code_size c) bs)
  end.

(** ** Cursor and byte source *)

(** Modelled from the spec: [uproot.source.cursor.Cursor] is not among
    the sources.  A position, the logical zero of the offsets recorded in
    the payload, and the reference table of the current read. *)
Record Cursor := mkCursor {
  index : Z;
  origin : Z;
  refs : gmap Z pyval
}.

Definition Cursor_new (i : Z) (o : Z) : Cursor := mkCursor i o ∅.

Definition set_index (c : Cursor) (i : Z) : Cursor :=
  mkCursor i (origin c) (refs c).

Definition set_refs (c : Cursor) (r : gmap Z pyval) : Cursor :=
  mkCursor (index c) (origin c) r.

(** A byte source is the file itself or a decompression window over a
    range of another source ([uproot.source.compressed.CompressedSource],
    built by [TKey._readinto]). *)
Inductive Source :=
| FileSource (content : list byte)
| CompressedSource (compression : Z) (source : Source) (cursor : Cursor)
    (compressedbytes uncompressedbytes : Z).

Definition slice (bs : list byte) (start stop : Z) : result (list byte) :=
  if (0 <=? start) && (start <=? stop) && (stop <=? Z.of_nat (length bs))
  then Ok (take (Z.to_nat (stop - start)) (drop (Z.to_nat start) bs))
  else Raise SourceError.

(** Readers thread the cursor; the source is read-only. *)
Definition reader (A : Type) : Type := Cursor -> result (A * Cursor).

#[global] Instance reader_ret : MRet reader :=
  fun A a c => Ok (a, c).
#[global] Instance reader_bind : MBind reader :=
  fun A B k m c =>
    match m c with
    | Ok (a, c') => k a c'
    | Raise e => Raise e
    end.

Definition raise {A} (e : exn) : reader A := fun _ => Raise e.

(** ** File context, keys and directories *)

(** [ROOTDirectory._FileContext].  [classes] maps a class name of the
    file to the class that reads it, a class being known by its own
    name; [compression] is the header's [fCompress]. *)
Record FileContext := mkFileContext {
  streamerinfos : option (list pyval);
  classes : gmap string string;
  compression : Z
}.

Module TKey.
Record t := mk {
  fNbytes : Z;
  fVersion : Z;
  fObjlen : Z;
  fDatime : Z;
  fKeylen : Z;
  fCycle : Z;
  fSeekKey : Z;
  fSeekPdir : Z;
  fClassName : string;
  fName : string;
  fTitle : string;
  _source : Source;
  _cursor : Cursor;
  _context : FileContext
}.

Definition set_cursor (k : t) (c : Cursor) : t :=
  mk (fNbytes k) (fVersion k) (fObjlen k) (fDatime k) (fKeylen k)
     (fCycle k) (fSeekKey k) (fSeekPdir k) (fClassName k) (fName k)
     (fTitle k) (_source k) c (_context k).
End TKey.

Module ROOTDirectory.
Record t := mk {
  name : string;
  _context : FileContext;
  _keys : list TKey.t
}.
End ROOTDirectory.

(** What [key.get()] hands back: a directory or an object read by a
    class of the context. *)
Inductive getobj :=
| GDir (d : ROOTDirectory.t)
| GObj (o : pyval).

(** ** Streamer elements *)

(** The subclasses of [TStreamerElement]; [ElementPlain] is an instance
    of the base class itself. *)
Inductive ElementClass :=
| ElementPlain
| StreamerArtificial
| StreamerBase
| StreamerBasicPointer
| StreamerBasicType
| StreamerLoop
| StreamerObject
| StreamerObjectAny
| StreamerObjectAnyPointer
| StreamerObjectPointer
| StreamerSTL
| StreamerSTLString
| StreamerString.

#[global] Instance ElementClass_eq_dec : EqDecision ElementClass.
Proof. solve_decision. Defined.

Module TStreamerElement.
Record t := mk {
  class : ElementClass;
  fOffset : Z;
  fName : string;
  fTitle : string;
  fType : Z;
  fSize : Z;
  fArrayLength : Z;
  fArrayDim : Z;
  fMaxIndex : list pyval;
  fTypeName : string;
  fXmin : pyval;
  fXmax : pyval;
  fFactor : pyval
}.

(** A blank instance of a class, before [_readinto] fills it. *)
Definition blank (c : ElementClass) : t :=
  mk c 0 "" "" 0 0 0 0 [] "" PNone PNone PNone.
End TStreamerElement.

(** ** Classes as factories *)

(** A class of the reader: [cls_new] is the blank instance of
    [cls.__new__(cls)], and [cls_readinto self source context] runs
    [cls._readinto(self, source, cursor, context)], giving the state of
    [self] afterwards and the value the call returned. *)
Record pyclass := mkClass {
  cls_new : pyval;
  cls_readinto : pyval -> Source -> FileContext -> reader (pyval * pyval)
}.

(** ** Byte strings as Python handles them *)

(** [ch in s]. *)
Fixpoint str_contains (ch : ascii) (s : string) : bool :=
  match s with
  | EmptyString => false
  | String c s' => if decide (c = ch) then true else str_contains ch s'
  end.

(** [s.split(ch)]: every occurrence separates, empty pieces are kept. *)
Fixpoint str_split (ch : ascii) (s : string) : list string :=
  match s with
  | EmptyString => [EmptyString]
  | String c s' =>
      if decide (c = ch) then EmptyString :: str_split ch s'
      else
        match str_split ch s' with
        | h :: t => String c h :: t
        | [] => [String c EmptyString]
        end
  end.

(** [s.rindex(ch)], [None] where Python raises. *)
Fixpoint str_rindex (ch : ascii) (s : string) : option nat :=
  match s with
  | EmptyString => None
  | String c s' =>
      match str_rindex ch s' with
      | Some i => Some (S i)
      | None => if decide (c = ch) then Some O else None
      end
  end.

(** [s[:n]] and [s[n:]]. *)
Fixpoint str_take (n : nat) (s : string) : string :=
  match n, s with
  | S n', String c s' => String c (str_take n' s')
  | _, _ => EmptyString
  end.

Fixpoint str_drop (n : nat) (s : string) : string :=
  match n, s with
  | S n', String _ s' => str_drop n' s'
  | _, _ => s
  end.

Definition digit_val (c : ascii) : option Z :=
  let n := Z.of_N (N_of_ascii c) in
  if (48 <=? n) && (n <=? 57) then Some (n - 48) else None.

Fixpoint digits_val (acc : Z) (s : string) : option Z :=
  match s with
  | EmptyString => Some acc
  | String c s' =>
      match digit_val c with
      | Some d => digits_val (acc * 10 + d) s'
      | None => None
      end
  end.

Definition is_space (c : ascii) : bool :=
  let n := N_of_ascii c in
  ((9 <=? n) && (n <=? 13))%N || (n =? 32)%N.

Fixpoint str_lstrip (s : string) : string :=
  match s with
  | String c s' => if is_space c then str_lstrip s' else s
  | EmptyString => EmptyString
  end.

Fixpoint str_rstrip (s : string) : string :=
  match s with
  | EmptyString => EmptyString
  | String c s' =>
      match str_rstrip s' with
      | EmptyString => if is_space c then EmptyString else String c EmptyString
      | r => String c r
      end
  end.

Definition unsigned_int (s : string) : result Z :=
  match s with
  | EmptyString => Raise ValueError
  | _ => match digits_val 0 s with
         | Some z => Ok z
         | None => Raise ValueError
         end
  end.

(** Python 2's [int(s)] on a byte string: surrounding white space, an
    optional sign, decimal digits; [ValueError] otherwise. *)
Definition py_int (s : string) : result Z :=
  match str_lstrip (str_rstrip s) with
  | String "-"%char d =>
      match unsigned_int d with
      | Ok z => Ok (- z)
      | Raise e => Raise e
      end
  | String "+"%char d => unsigned_int d
  | d => unsigned_int d
  end.

(** [s.rstrip(ch)]: every trailing [ch] goes. *)
Fixpoint str_rstrip_char (ch : ascii) (s : string) : string :=
  match s with
  | EmptyString => EmptyString
  | String c s' =>
      match str_rstrip_char ch s' with
      | EmptyString =>
          if decide (c = ch) then EmptyString else String c EmptyString
      | r => String c r
      end
  end.

(** [sep.join(l)]. *)
Fixpoint str_join (sep : string) (l : list string) : string :=
  match l with
  | [] => EmptyString
  | [x] => x
  | x :: l' => x +:+ sep +:+ str_join sep l'
  end.

(** ** What the synthesizer writes *)

(** The numpy dtypes of a [TStreamerBasicPointer]'s array. *)
Inductive dtype :=
| dt_bool | dt_i1 | dt_u1 | dt_i2 | dt_u2 | dt_i4 | dt_u4
| dt_long | dt_ulong | dt_i8 | dt_u8 | dt_f4 | dt_f8.

(** The source text of each dtype, as [_defineclasses] writes it. *)
Definition dtype_text (d : dtype) : string :=
  match d with
  | dt_bool => "numpy.dtype(numpy.bool_)"
  | dt_i1 => "numpy.dtype('i1')"
  | dt_u1 => "numpy.dtype('u1')"
  | dt_i2 => "numpy.dtype('>i2')"
  | dt_u2 => "numpy.dtype('>u2')"
  | dt_i4 => "numpy.dtype('>i4')"
  | dt_u4 => "numpy.dtype('>u4')"
  | dt_long => "numpy.dtype(numpy.long).newbyteorder('>')"
  | dt_ulong => "numpy.dtype(numpy.ulong).newbyteorder('>')"
  | dt_i8 => "numpy.dtype('>i8')"
  | dt_u8 => "numpy.dtype('>u8')"
  | dt_f4 => "numpy.dtype('>f4')"
  | dt_f8 => "numpy.dtype('>f8')"
  end.

(** How an element of each dtype is decoded; [numpy.long] is the
    platform's C long, eight bytes here. *)
Definition dtype_code (d : dtype) : fcode :=
  match d with
  | dt_bool => c_bool
  | dt_i1 => c_b
  | dt_u1 => c_B
  | dt_i2 => c_h
  | dt_u2 => c_H
  | dt_i4 => c_i
  | dt_u4 => c_I
  | dt_long => c_q
  | dt_ulong => c_Q
  | dt_i8 => c_q
  | dt_u8 => c_Q
  | dt_f4 => c_f
  | dt_f8 => c_d
  end.

(** The statements [_defineclasses] puts in a [_readinto] body.  Each is
    one line of generated Python, given by [stmt_text]; the file gives
    them the meaning Python gives that line when the names in it are
    identifiers. *)
Inductive stmt :=
| SStartcheck
| SBaseReadinto (base : string)
| SField (target classname : string) (formatnum : nat)
| SFields (targets : list string) (classname : string) (formatnum : nat)
| SArray (name counter dtypename : string)
| SRead (target typename : string)
| SReadAnyRef (target : string)
| SEndcheck.

Definition stmt_text (s : stmt) : string :=
  match s with
  | SStartcheck => "        start, cnt, vers = _startcheck(source, cursor)"
  | SBaseReadinto base =>
      "        " +:+ base +:+ "._readinto(self, source, cursor, context)"
  | SField target classname formatnum =>
      "        " +:+ target +:+ " = cursor.field(source, " +:+ classname
        +:+ "._format" +:+ pretty formatnum +:+ ")"
  | SFields targets classname formatnum =>
      "        " +:+ str_join ", " targets +:+ " = cursor.fields(source, "
        +:+ classname +:+ "._format" +:+ pretty formatnum +:+ ")"
  | SArray name counter dtypename =>
      "        self." +:+ name +:+ " = cursor.array(source, self." +:+ counter
        +:+ ", self." +:+ dtypename +:+ ")"
  | SRead target typename =>
      "        " +:+ target +:+ " = " +:+ typename
        +:+ ".read(source, cursor, context)"
  | SReadAnyRef target =>
      "        " +:+ target +:+ " = _readanyref(source, cursor, context)"
  | SEndcheck => "        _endcheck(start, cursor, cnt)"
  end.

(** The loop variables of [_defineclasses] for one streamer info. *)
Record synth := mkSynth {
  code : list stmt;
  bases : list string;
  formats : gmap string string;
  dtypes : gmap string dtype;
  basicnames : list string;
  basicletters : string
}.

(** The key ["_format{0}".format(formatnum)] and the value
    ["struct.Struct('{0}')"], kept as the format string itself. *)
Definition format_key (formatnum : nat) : string := "_format" +:+ pretty formatnum.
Definition dtype_key (n : nat) : string := "_dtype" +:+ pretty n.

(** A synthesized class: its name, bases, the body of [_readinto] and the
    class attributes that hold the formats and dtypes. *)
Record generated := mkGenerated {
  g_name : string;
  g_bases : list string;
  g_body : list stmt;
  g_formats : gmap string string;
  g_dtypes : gmap string dtype
}.

(** The text handed to [compile]: the class line, the method header, the
    body and one line per class attribute. *)
Definition class_text (g : generated) : list string :=
  ("class " +:+ g_name g +:+ "(" +:+ str_join ", " (g_bases g) +:+ "):")
    :: "    @staticmethod"
    :: "    def _readinto(self, source, cursor, context):"
    :: (stmt_text <$> g_body g)
    ++ ((fun kv => "    " +:+ kv.1 +:+ " = struct.Struct('" +:+ kv.2 +:+ "')")
          <$> map_to_list (g_formats g))
    ++ ((fun kv => "    " +:+ kv.1 +:+ " = " +:+ dtype_text kv.2)
          <$> map_to_list (g_dtypes g)).

(** ** The counter of a [TStreamerBasicPointer] *)

(** The text before the first closing bracket, if there is one. *)
Fixpoint until_close (s : string) : option string :=
  match s with
  | EmptyString => None
  | String c s' =>
      if decide (c = "]"%char) then Some EmptyString
      else match until_close s' with
           | Some g => Some (String c g)
           | None => None
           end
  end.

(** The [re.search] of the source on an element's title and the
    [group(1)] of the match.  The expression is an opening bracket, a
    group of any number of characters other than a closing bracket, and a
    closing bracket; the match is the leftmost one. *)
Fixpoint re_search_counter (title : string) : option string :=
  match title with
  | EmptyString => None
  | String c s' =>
      if decide (c = "["%char) then
        match until_close s' with
        | Some g => Some g
        | None => re_search_counter s'
        end
      else re_search_counter s'
  end.


(** The dtype of a basic-pointer array, by [fType - kOffsetP]. *)
Definition pointer_dtype (fType : Z) : option dtype :=
  if decide (fType = kBool) then Some dt_bool
  else if decide (fType = kChar) then Some dt_i1
  else if decide (fType = kUChar) then Some dt_u1
  else if decide (fType = kShort) then Some dt_i2
  else if decide (fType = kUShort) then Some dt_u2
  else if decide (fType = kInt) then Some dt_i4
  else if decide (fType = kBits ∨ fType = kUInt ∨ fType = kCounter) then Some dt_u4
  else if decide (fType = kLong) then Some dt_long
  else if decide (fType = kULong) then Some dt_ulong
  else if decide (fType = kLong64) then Some dt_i8
  else if decide (fType = kULong64) then Some dt_u8
  else if decide (fType = kFloat ∨ fType = kFloat16) then Some dt_f4
  else if decide (fType = kDouble ∨ fType = kDouble32) then Some dt_f8
  else None.

(** The format letter of a scalar basic type. *)
Definition basic_letter (fType : Z) : option string :=
  if decide (fType = kBool) then Some "?"%string
  else if decide (fType = kChar) then Some "b"%string
  else if decide (fType = kUChar) then Some "B"%string
  else if decide (fType = kShort) then Some "h"%string
  else if decide (fType = kUShort) then Some "H"%string
  else if decide (fType = kInt) then Some "i"%string
  else if decide (fType = kBits ∨ fType = kUInt ∨ fType = kCounter) then Some "I"%string
  else if decide (fType = kLong) then Some "l"%string
  else if decide (fType = kULong) then Some "L"%string
  else if decide (fType = kLong64) then Some "q"%string
  else if decide (fType = kULong64) then Some "Q"%string
  else if decide (fType = kFloat ∨ fType = kFloat16) then Some "f"%string
  else if decide (fType = kDouble ∨ fType = kDouble32) then Some "d"%string
  else None.

(** ** The class synthesizer *)

Import TStreamerElement.

Definition add_code (st : synth) (c : stmt) : synth :=
  mkSynth (code st ++ [c]) (bases st) (formats st) (dtypes st)
    (basicnames st) (basicletters st).

(** Whether the batch of scalars closes after element [elementi]. *)
Definition batch_closes (elements : list TStreamerElement.t) (elementi : nat) : bool :=
  bool_decide ((elementi + 1)%nat = length elements)
  || match elements !! (elementi + 1)%nat with
     | Some next =>
         negb (bool_decide (class next = StreamerBasicType))
         || negb (bool_decide (fArrayLength next = 0))
     | None => true
     end.

(** One turn of the loop over [streamerinfo.fElements]. *)
Definition synth_element (classname : string) (elements : list TStreamerElement.t)
    (elementi : nat) (element : TStreamerElement.t) (st : synth) : result synth :=
  match class element with
  | StreamerArtificial => Raise NotImplementedError
  | StreamerBase =>
      Ok (mkSynth (code st ++ [SBaseReadinto (fName element)])
            (bases st ++ [fName element]) (formats st) (dtypes st)
            (basicnames st) (basicletters st))
  | StreamerBasicPointer =>
      let name := fName element in
      let formatnum := (size (formats st) + 1)%nat in
      let formats' := <[format_key formatnum := "!B"%string]> (formats st) in
      let code' := code st ++ [SField ("_" +:+ name) classname formatnum] in
      match re_search_counter (fTitle element) with
      | None => Raise ValueError
      | Some counter =>
          if decide (kOffsetP < fType element < kOffsetP + 20) then
            let fType := fType element - kOffsetP in
            let dtypename := dtype_key (size (dtypes st) + 1)%nat in
            match pointer_dtype fType with
            | Some dt =>
                Ok (mkSynth (code' ++ [SArray name counter dtypename])
                      (bases st) formats' (<[dtypename := dt]> (dtypes st))
                      (basicnames st) (basicletters st))
            | None => Raise NotImplementedError
            end
          else Raise AssertionError
      end
  | StreamerBasicType =>
      if decide (fArrayLength element = 0) then
        let basicnames' := basicnames st ++ ["self." +:+ fName element] in
        match basic_letter (fType element) with
        | Some letter =>
            let basicletters' := basicletters st +:+ letter in
            if batch_closes elements elementi then
              let formatnum := (size (formats st) + 1)%nat in
              let formats' :=
                <[format_key formatnum := "!" +:+ basicletters']> (formats st) in
              let line :=
                match basicnames' with
                | [one] => SField one classname formatnum
                | _ => SFields basicnames' classname formatnum
                end in
              Ok (mkSynth (code st ++ [line]) (bases st) formats' (dtypes st)
                    [] EmptyString)
            else
              Ok (mkSynth (code st) (bases st) (formats st) (dtypes st)
                    basicnames' basicletters')
        | None => Raise NotImplementedError
        end
      else Raise NotImplementedError
  | StreamerLoop => Raise NotImplementedError
  | StreamerObjectAnyPointer => Raise NotImplementedError
  | StreamerObjectPointer =>
      if decide (fType element = kObjectp) then
        Ok (add_code st (SRead (fName element)
                           (str_rstrip_char "*" (fTypeName element))))
      else if decide (fType element = kObjectP) then
        Ok (add_code st (SReadAnyRef (fName element)))
      else Raise NotImplementedError
  | StreamerSTL => Raise NotImplementedError
  | StreamerSTLString => Raise NotImplementedError
  | StreamerObject | StreamerObjectAny | StreamerString =>
      Ok (add_code st (SRead (fName element) (fTypeName element)))
  | ElementPlain => Raise AssertionError
  end.

(** [for elementi, element in enumerate(streamerinfo.fElements)], from
    [elementi] on. *)
Fixpoint synth_loop (classname : string) (elements : list TStreamerElement.t)
    (elementi : nat) (rest : list TStreamerElement.t) (st : synth) : result synth :=
  match rest with
  | [] => Ok st
  | element :: rest' =>
      match synth_element classname elements elementi element st with
      | Ok st' => synth_loop classname elements (S elementi) rest' st'
      | Raise e => Raise e
      end
  end.

(** The body of the loop over the streamer infos in [_defineclasses], for
    a class that is not yet defined: the class it writes. *)
Definition synthesize (classname : string) (fElements : list TStreamerElement.t)
  : result generated :=
  match synth_loop classname fElements 0 fElements
          (mkSynth [SStartcheck] [] ∅ ∅ [] EmptyString) with
  | Ok st =>
      Ok (mkGenerated classname
            (match bases st with
             | [] => ["ROOTStreamedObject"%string]
             | bs => bs
             end)
            (code st ++ [SEndcheck]) (formats st) (dtypes st))
  | Raise e => Raise e
  end.

(** The reference the batching is measured against: every scalar basic
    type is decoded on its own, in order.  A [TStreamerBasicType] with
    [fArrayLength == 0] emits its single-field read at once; every other
    element is handled as in [synth_element]. *)
Definition synth_element_individual (classname : string)
    (element : TStreamerElement.t) (st : synth) : result synth :=
  match class element with
  | StreamerBasicType =>
      if decide (fArrayLength element = 0) then
        match basic_letter (fType element) with
        | Some letter =>
            let formatnum := (size (formats st) + 1)%nat in
            Ok (mkSynth
                  (code st ++ [SField ("self." +:+ fName element) classname formatnum])
                  (bases st)
                  (<[format_key formatnum := "!" +:+ letter]> (formats st))
                  (dtypes st) [] EmptyString)
        | None => Raise NotImplementedError
        end
      else Raise NotImplementedError
  | _ => synth_element classname [] 0 element st
  end.

Fixpoint synth_loop_individual (classname : string)
    (rest : list TStreamerElement.t) (st : synth) : result synth :=
  match rest with
  | [] => Ok st
  | element :: rest' =>
      match synth_element_individual classname element st with
      | Ok st' => synth_loop_individual classname rest' st'
      | Raise e => Raise e
      end
  end.

Definition synthesize_individual (classname : string)
    (fElements : list TStreamerElement.t) : result generated :=
  match synth_loop_individual classname fElements
          (mkSynth [SStartcheck] [] ∅ ∅ [] EmptyString) with
  | Ok st =>
      Ok (mkGenerated classname
            (match bases st with
             | [] => ["ROOTStreamedObject"%string]
             | bs => bs
             end)
            (code st ++ [SEndcheck]) (formats st) (dtypes st))
  | Raise e => Raise e
  end.

(** ** Running a synthesized [_readinto] *)

(** The receiver's attributes and the local variables of the call. *)
Record frame := mkFrame {
  self_attrs : gmap string pyval;
  locals : gmap string pyval
}.

Definition strip_self (target : string) : option string :=
  match target with
  | String "s" (String "e" (String "l" (String "f" (String "." attr)))) =>
      Some attr
  | _ => None
  end.

(** [target = v], the target being [self.<attr>] or a local name. *)
Definition assign (target : string) (v : pyval) (f : frame) : frame :=
  match strip_self target with
  | Some attr => mkFrame (<[attr := v]> (self_attrs f)) (locals f)
  | None => mkFrame (self_attrs f) (<[target := v]> (locals f))
  end.

(** [t1, t2, ... = vs], the targets assigned from left to right. *)
Fixpoint assign_all (targets : list string) (vs : list pyval) (f : frame) : frame :=
  match targets, vs with
  | t :: ts, v :: vs' => assign_all ts vs' (assign t v f)
  | _, _ => f
  end.

Section Reader.

(** The decompression layer is an external collaborator:
    [decompress compression bytes objlen] is the decompressed window. *)
Variable decompress : Z -> list byte -> Z -> list byte.

(** Modelled from the spec: the byte source gives random access to byte
    ranges by absolute offset; a range it does not hold is an error. *)
Fixpoint Source_content (s : Source) : result (list byte) :=
  match s with
  | FileSource bs => Ok bs
  | CompressedSource c s' cur n m =>
      match Source_content s' with
      | Ok bs =>
          match slice bs (index cur) (index cur + n) with
          | Ok w => Ok (decompress c w m)
          | Raise e => Raise e
          end
      | Raise e => Raise e
      end
  end.

Definition Source_data (s : Source) (start stop : Z) : result (list byte) :=
  match Source_content s with
  | Ok bs => slice bs start stop
  | Raise e => Raise e
  end.

(** Modelled from the spec: [cursor.fields(source, format)] reads the
    format's bytes in one piece, advances the cursor and unpacks them. *)
Definition Cursor_fields (src : Source) (fmt : list fcode) : reader (list pyval) :=
  fun c =>
    let start := index c in
    let stop := start + Z.of_nat (calcsize fmt) in
    match Source_data src start stop with
    | Ok bs => Ok (unpack fmt bs, set_index c stop)
    | Raise e => Raise e
    end.

(** Modelled from the spec: [cursor.field] is [fields] for a format of one
    value, which it returns unwrapped. *)
Definition Cursor_field (src : Source) (fmt : list fcode) : reader pyval :=
  vs ← Cursor_fields src fmt;
  match vs with
  | v :: _ => mret v
  | [] => raise StructError
  end.

(** Modelled from the spec: [cursor.skip(n)]. *)
Definition Cursor_skip (n : Z) : reader unit :=
  fun c => Ok (tt, set_index c (index c + n)).

(** Modelled from the spec: [cursor.bytes(source, n)]. *)
Definition Cursor_bytes (src : Source) (n : Z) : reader (list byte) :=
  fun c =>
    match Source_data src (index c) (index c + n) with
    | Ok bs => Ok (bs, set_index c (index c + n))
    | Raise e => Raise e
    end.

Definition as_int (v : pyval) : option Z :=
  match v with
  | PInt z => Some z
  | _ => None
  end.

Fixpoint as_ints (vs : list pyval) : option (list Z) :=
  match vs with
  | [] => Some []
  | v :: vs' =>
      match as_int v, as_ints vs' with
      | Some z, Some zs => Some (z :: zs)
      | _, _ => None
      end
  end.

(** Fields used as integers; any other value is a type error at its
    first use. *)
Definition int_fields (src : Source) (fmt : list fcode) : reader (list Z) :=
  vs ← Cursor_fields src fmt;
  match as_ints vs with
  | Some zs => mret zs
  | None => raise TypeError
  end.

Definition int_field (src : Source) (fmt : list fcode) : reader Z :=
  v ← Cursor_field src fmt;
  match as_int v with
  | Some z => mret z
  | None => raise TypeError
  end.

(** Modelled from the spec: [cursor.string(source)], a length-prefixed
    byte string: one length byte, or [0xFF] and a big-endian 32-bit
    length; the payload follows verbatim. *)
Definition Cursor_string (src : Source) : reader string :=
  n ← int_field src [c_B];
  n ← (if n =? 255 then int_field src [c_I] else mret n);
  bs ← Cursor_bytes src n;
  mret (string_of_list_byte bs).

Fixpoint chunks (sz : nat) (n : nat) (bs : list byte) : list (list byte) :=
  match n with
  | O => []
  | S n' => take sz bs :: chunks sz n' (drop sz bs)
  end.

(** Modelled from the spec: [cursor.array(source, n, dtype)] reads [n]
    elements of a big-endian dtype, given here by its format letter. *)
Definition Cursor_array (src : Source) (n : Z) (dt : fcode) : reader (list pyval) :=
  bs ← Cursor_bytes src (n * Z.of_nat (code_size dt));
  mret (map (decode dt) (chunks (code_size dt) (Z.to_nat n) bs)).

(** Modelled from the spec: [cursor.copied()] is a snapshot of the
    position; the reference table of the copy starts empty. *)
Definition Cursor_copied (c : Cursor) : Cursor :=
  Cursor_new (index c) (origin c).

(** ** Byte-count and version framing *)

Definition _format_cntvers : list fcode := [c_I; c_H].

Definition _startcheck (src : Source) : reader (Z * Z * Z) :=
  fun cursor =>
    let start := index cursor in
    match int_fields src _format_cntvers cursor with
    | Ok ([cnt; vers], cursor') =>
        let cnt := Z.land cnt (Z.lnot kByteCountMask) in
        Ok ((start, cnt + 4, vers), cursor')
    | Ok _ => Raise TypeError
    | Raise e => Raise e
    end.

Definition _endcheck (start : Z) (cnt : Z) : reader unit :=
  fun cursor =>
    let observed := index cursor - start in
    if decide (observed ≠ cnt) then Raise ValueError else Ok (tt, cursor).

(** ** Helper functions for common tasks *)

Definition get_cursor : reader Cursor := fun c => Ok (c, c).
Definition put_cursor (c' : Cursor) : reader unit := fun _ => Ok (tt, c').

Definition _skiptobj (src : Source) : reader unit :=
  version ← int_field src [c_h];
  (if decide (Z.land version kByteCountVMask ≠ 0) then Cursor_skip 4
   else mret tt);;
  fs ← int_fields src [c_I; c_I];
  match fs with
  | [fUniqueID; fBits] =>
      let fBits := Z.lor fBits kIsOnHeap in
      if decide (Z.land fBits kIsReferenced ≠ 0) then Cursor_skip 2
      else mret tt
  | _ => raise TypeError
  end.

Definition _nametitle (src : Source) : reader (string * string) :=
  '(start, cnt, vers) ← _startcheck src;
  _skiptobj src;;
  name ← Cursor_string src;
  title ← Cursor_string src;
  _endcheck start cnt;;
  mret (name, title).

Fixpoint until_nul (bs : list byte) : option (list byte) :=
  match bs with
  | [] => None
  | b :: bs' =>
      if decide (byte_val b = 0) then Some []
      else match until_nul bs' with
           | Some s => Some (b :: s)
           | None => None
           end
  end.

(** Modelled from the spec: [cursor.cstring(source)], the bytes up to a
    NUL, which is consumed and not returned. *)
Definition Cursor_cstring (src : Source) : reader string :=
  fun c =>
    match Source_content src with
    | Ok bs =>
        if (0 <=? index c) && (index c <=? Z.of_nat (length bs)) then
          match until_nul (drop (Z.to_nat (index c)) bs) with
          | Some s =>
              Ok (string_of_list_byte s,
                  set_index c (index c + Z.of_nat (length s) + 1))
          | None => Raise SourceError
          end
        else Raise SourceError
    | Raise e => Raise e
    end.

(** ** Classes *)

(** [ROOTObject.read]: a blank instance, [_readinto] on it, and the
    instance is returned; what [_readinto] returns is dropped. *)
Definition ROOTObject_read (cls : pyclass) (src : Source) (context : FileContext)
  : reader pyval :=
  '(out, _) ← cls_readinto cls (cls_new cls) src context;
  mret out.

(** [TString._readinto] leaves [self] alone and returns a new [TString]
    made of the string at the cursor. *)
Definition TString_readinto (self : pyval) (src : Source) (context : FileContext)
  : reader (pyval * pyval) :=
  s ← Cursor_string src;
  mret (self, PStr s).

(** [TString] is a [str]; [str.__new__(TString)] is the empty string. *)
Definition TString : pyclass := mkClass (PStr "") TString_readinto.

(** [Undefined._readinto(source, cursor, context)]: the function takes no
    [self]. *)
Definition Undefined_readinto (src : Source) : reader unit :=
  '(start, cnt, vers) ← _startcheck src;
  Cursor_skip (cnt - 2);;
  _endcheck start cnt.

(** [Undefined] as a factory: [ROOTObject.read] calls [_readinto] with
    four arguments and the function takes three, a [TypeError]. *)
Definition Undefined : pyclass :=
  mkClass (PInst "Undefined" ∅) (fun _ _ _ => raise TypeError).

(** The classes that exist at run time, by name: the hand-written ones of
    the module and those the synthesizer compiled. *)
Variable class_env : string -> pyclass.

(** ** The tagged-reference decoder *)

(** [cursor.refs[key] = v] when [vers > 0], and otherwise
    [cursor.refs[len(cursor.refs) + 1] = v]. *)
Definition register (vers key : Z) (v : pyval) : reader unit :=
  fun c =>
    if decide (vers > 0) then Ok (tt, set_refs c (<[key := v]> (refs c)))
    else Ok (tt, set_refs c (<[Z.of_nat (size (refs c)) + 1 := v]> (refs c))).

(** The head of [_readanyref]: it computes [beg], [vers], [start], [tag]
    and [bcnt]. *)
Definition _readanyref_tag (src : Source) : reader (Z * Z * Z * Z * Z) :=
  c0 ← get_cursor;
  let beg := index c0 - origin c0 in
  bcnt ← int_field src [c_I];
  if decide (Z.land bcnt kByteCountMask = 0 ∨ bcnt = kNewClassTag) then
    mret (beg, 0, 0, bcnt, 0)
  else
    c1 ← get_cursor;
    let start := index c1 - origin c1 in
    tag ← int_field src [c_I];
    mret (beg, 1, start, tag, bcnt).

(** [fct in context.classes.values()]. *)
Definition is_factory (context : FileContext) (fct : pyval) : bool :=
  match fct with
  | PClass n => bool_decide (n ∈ (map_to_list (classes context)).*2)
  | _ => false
  end.

Definition _readanyref (src : Source) (context : FileContext) : reader pyval :=
  '(beg, vers, start, tag, bcnt) ← _readanyref_tag src;
  if decide (Z.land tag kClassMask = 0) then
    if decide (tag = 0) then mret PNone
    else if decide (tag = 1) then raise NotImplementedError
    else
      c ← get_cursor;
      match refs c !! tag with
      | None =>
          put_cursor (set_index c (origin c + beg + bcnt + 4));;
          mret PNone
      | Some obj => mret obj
      end
  else if decide (tag = kNewClassTag) then
    cname ← Cursor_cstring src;
    let fct := default "Undefined"%string (classes context !! cname) in
    register vers (start + kMapOffset) (PClass fct);;
    obj ← ROOTObject_read (class_env fct) src context;
    register vers (beg + kMapOffset) obj;;
    mret obj
  else
    let ref := Z.land tag (Z.lnot kClassMask) in
    c ← get_cursor;
    match refs c !! ref with
    | None => raise IOError
    | Some fct =>
        if is_factory context fct then
          match fct with
          | PClass n =>
              obj ← ROOTObject_read (class_env n) src context;
              register vers (beg + kMapOffset) obj;;
              mret obj
          | _ => raise IOError
          end
        else raise IOError
    end.

(** ** TKey *)

Definition TKey_format1 : list fcode := [c_i; c_h; c_i; c_I; c_h; c_h].
Definition TKey_format2_small : list fcode := [c_i; c_i].
Definition TKey_format2_big : list fcode := [c_q; c_q].

(** [assert source.data(cursor.index, cursor.index + 1)[0] == 0] and
    [cursor.skip(1)]. *)
Definition nul_terminator (src : Source) : reader unit :=
  fun c =>
    match Source_data src (index c) (index c + 1) with
    | Ok [b] =>
        if decide (byte_val b = 0) then Cursor_skip 1 c
        else Raise AssertionError
    | Ok _ => Raise SourceError
    | Raise e => Raise e
    end.

Definition TKey_readinto (src : Source) (context : FileContext) : reader TKey.t :=
  fs ← int_fields src TKey_format1;
  match fs with
  | [fNbytes; fVersion; fObjlen; fDatime; fKeylen; fCycle] =>
      ss ← int_fields src (if decide (fVersion <= 1000)
                           then TKey_format2_small else TKey_format2_big);
      match ss with
      | [fSeekKey; fSeekPdir] =>
          fClassName ← Cursor_string src;
          fName ← Cursor_string src;
          (if decide (fSeekPdir = 0) then nul_terminator src else mret tt);;
          fTitle ← Cursor_string src;
          (if decide (fSeekPdir = 0) then nul_terminator src else mret tt);;
          let '(ksource, kcursor) :=
            if decide (fObjlen ≠ fNbytes - fKeylen) then
              (CompressedSource (compression context) src
                 (Cursor_new (fSeekKey + fKeylen) 0)
                 (fNbytes - fKeylen) fObjlen,
               Cursor_new 0 (- fKeylen))
            else
              (src, Cursor_new (fSeekKey + fKeylen) fSeekKey) in
          mret (TKey.mk fNbytes fVersion fObjlen fDatime fKeylen fCycle
                  fSeekKey fSeekPdir fClassName fName fTitle
                  ksource kcursor context)
      | _ => raise TypeError
      end
  | _ => raise TypeError
  end.

(** [TKey.read] is [ROOTObject.read] at [TKey]: the blank key filled in. *)
Definition TKey_read (src : Source) (context : FileContext) : reader TKey.t :=
  TKey_readinto src context.

(** ** ROOTDirectory *)

Definition ROOTDirectory_format3 : list fcode := [c_h; c_I; c_I; c_i; c_i].
Definition ROOTDirectory_format4_small : list fcode := [c_i; c_i; c_i].
Definition ROOTDirectory_format4_big : list fcode := [c_q; c_q; c_q].
Definition ROOTDirectory_format5 : list fcode := [c_i].

(** [[TKey.read(source, subcursor, context) for i in range(nkeys)]]. *)
Fixpoint read_keys (n : nat) (src : Source) (context : FileContext)
  : reader (list TKey.t) :=
  match n with
  | O => mret []
  | S n' =>
      k ← TKey_read src context;
      ks ← read_keys n' src context;
      mret (k :: ks)
  end.

(** [ROOTDirectory.read(source, cursor, context, mykey)], the branch that
    parses a directory record; the keys are read through a cursor of
    their own and [source.dismiss()] changes nothing that can be read. *)
Definition ROOTDirectory_read (src : Source) (context : FileContext)
    (mykey : TKey.t) : reader ROOTDirectory.t :=
  fs ← int_fields src ROOTDirectory_format3;
  match fs with
  | [fVersion; fDatimeC; fDatimeM; fNbytesKeys; fNbytesName] =>
      ss ← int_fields src (if decide (fVersion <= 1000)
                           then ROOTDirectory_format4_small
                           else ROOTDirectory_format4_big);
      match ss with
      | [fSeekDir; fSeekParent; fSeekKeys] =>
          fun cursor =>
            let subcursor := Cursor_new fSeekKeys 0 in
            match (headerkey ← TKey_read src context;
                   nkeys ← int_field src ROOTDirectory_format5;
                   read_keys (Z.to_nat nkeys) src context) subcursor with
            | Ok (keys, _) =>
                Ok (ROOTDirectory.mk (TKey.fName mykey) context keys, cursor)
            | Raise e => Raise e
            end
      | _ => raise TypeError
      end
  | _ => raise TypeError
  end.

(** [TKey.get].  A directory is read through the key's own cursor, which
    the read advances; a class of the context reads through a copy.  The
    returned key is the key after the call (after a failed read the model
    leaves it as it was).  [Undefined] declares no constructor, so calling
    it with three arguments is a [TypeError]. *)
Definition TKey_get (self : TKey.t) : result getobj * TKey.t :=
  if decide (TKey.fClassName self = "TDirectory"%string) then
    match ROOTDirectory_read (TKey._source self) (TKey._context self) self
            (TKey._cursor self) with
    | Ok (d, c') => (Ok (GDir d), TKey.set_cursor self c')
    | Raise e => (Raise e, self)
    end
  else
    match classes (TKey._context self) !! TKey.fClassName self with
    | Some cls =>
        match ROOTObject_read (class_env cls) (TKey._source self)
                (TKey._context self) (Cursor_copied (TKey._cursor self)) with
        | Ok (o, _) => (Ok (GObj o), self)
        | Raise e => (Raise e, self)
        end
    | None => (Raise TypeError, self)
    end.

(** The loop over the keys at the end of [ROOTDirectory.get]; the keys
    come back with the matching key as [get] left it. *)
Fixpoint scan_keys (keys : list TKey.t) (name : string) (cycle : option Z)
  : result getobj * list TKey.t :=
  match keys with
  | [] => (Raise KeyError, [])
  | key :: keys' =>
      if bool_decide (TKey.fName key = name)
         && match cycle with
            | None => true
            | Some c => bool_decide (TKey.fCycle key = c)
            end
      then let '(r, key') := TKey_get key in (r, key' :: keys')
      else let '(r, keys'') := scan_keys keys' name cycle in (r, key :: keys'')
  end.

(** The name and cycle the scan looks for: the name is cut at its last
    [;] when no cycle was passed. *)
Definition name_cycle (name : string) (cycle : option Z)
  : result (string * option Z) :=
  match cycle with
  | None =>
      if str_contains ";" name then
        match str_rindex ";" name with
        | Some at_ =>
            match py_int (str_drop (S at_) name) with
            | Ok c => Ok (str_take at_ name, Some c)
            | Raise e => Raise e
            end
        | None => Raise ValueError
        end
      else Ok (name, None)
  | Some _ => Ok (name, cycle)
  end.

(** [out = out.get(n, cycle)] for the segments after the first; only a
    directory has a [get]. *)
Fixpoint get_segments (get : ROOTDirectory.t -> string -> result getobj)
    (out : getobj) (ns : list string) : result getobj :=
  match ns with
  | [] => Ok out
  | n :: ns' =>
      match out with
      | GDir d =>
          match get d n with
          | Ok out' => get_segments get out' ns'
          | Raise e => Raise e
          end
      | GObj _ => Raise AttributeError
      end
  end.

(** [ROOTDirectory.get(name, cycle)] within [depth] nested calls; the
    directory comes back as the call left it. *)
Fixpoint ROOTDirectory_get_depth (depth : nat) (self : ROOTDirectory.t)
    (name : string) (cycle : option Z) : result getobj * ROOTDirectory.t :=
  match depth with
  | O => (Raise RuntimeError, self)
  | S depth' =>
      if str_contains "/" name then
        match str_split "/" name with
        | [] => (Ok (GDir self), self)
        | n :: ns =>
            let '(r, self') := ROOTDirectory_get_depth depth' self n cycle in
            match r with
            | Ok out =>
                (get_segments
                   (fun d n' => fst (ROOTDirectory_get_depth depth' d n' cycle))
                   out ns, self')
            | Raise e => (Raise e, self')
            end
        end
      else
        match name_cycle name cycle with
        | Ok (name', cycle') =>
            let '(r, keys') := scan_keys (ROOTDirectory._keys self) name' cycle' in
            (r, ROOTDirectory.mk (ROOTDirectory.name self)
                  (ROOTDirectory._context self) keys')
        | Raise e => (Raise e, self)
        end
  end.

(** A segment of a split name holds no [/], so two nested calls are all
    that [get] ever makes. *)
Definition ROOTDirectory_get := ROOTDirectory_get_depth 2.

(** ** TStreamerElement *)

Definition TStreamerElement_format1 : list fcode := [c_i; c_i; c_i; c_i].
Definition TStreamerElement_format2 : list fcode := [c_i].
Definition TStreamerElement_format3 : list fcode := [c_d; c_d; c_d].

(** [TStreamerElement._readinto]; [self] is the instance being filled,
    of whatever subclass, and [0.0] is the bit pattern zero. *)
Definition TStreamerElement_readinto (self : TStreamerElement.t) (src : Source)
  : reader TStreamerElement.t :=
  '(start, cnt, vers) ← _startcheck src;
  '(fName, fTitle) ← _nametitle src;
  fs ← int_fields src TStreamerElement_format1;
  match fs with
  | [fType; fSize; fArrayLength; fArrayDim] =>
      fMaxIndex ← (if decide (vers = 1) then
                     n ← int_field src TStreamerElement_format2;
                     Cursor_array src n c_i
                   else Cursor_array src 5 c_i);
      fTypeName ← Cursor_string src;
      let fType :=
        if bool_decide (fType = 11)
           && (bool_decide (fTypeName = "Bool_t"%string)
               || bool_decide (fTypeName = "bool"%string))
        then 18 else fType in
      xs ← (if decide (vers = 3) then Cursor_fields src TStreamerElement_format3
            else mret [PFloat64 0; PFloat64 0; PFloat64 0]);
      match xs with
      | [fXmin; fXmax; fFactor] =>
          _endcheck start cnt;;
          mret (TStreamerElement.mk (class self) 0 fName fTitle fType fSize
                  fArrayLength fArrayDim fMaxIndex fTypeName fXmin fXmax fFactor)
      | _ => raise ValueError
      end
  | _ => raise TypeError
  end.

(** ** The meaning of the generated statements *)

(** [Base._readinto(self, source, cursor, context)] for a base class
    named in a streamer info, acting on the receiver's attributes. *)
Variable base_readinto :
  string -> Source -> FileContext -> gmap string pyval -> reader (gmap string pyval).

Definition exec_stmt (fmts : gmap string string) (dts : gmap string dtype)
    (src : Source) (context : FileContext) (s : stmt) (f : frame) : reader frame :=
  match s with
  | SStartcheck =>
      '(start, cnt, vers) ← _startcheck src;
      mret (assign "vers" (PInt vers)
              (assign "cnt" (PInt cnt) (assign "start" (PInt start) f)))
  | SBaseReadinto base =>
      a ← base_readinto base src context (self_attrs f);
      mret (mkFrame a (locals f))
  | SField target _ formatnum =>
      match fmts !! format_key formatnum with
      | Some fmt =>
          match Struct fmt with
          | Some codes =>
              v ← Cursor_field src codes;
              mret (assign target v f)
          | None => raise StructError
          end
      | None => raise AttributeError
      end
  | SFields targets _ formatnum =>
      match fmts !! format_key formatnum with
      | Some fmt =>
          match Struct fmt with
          | Some codes =>
              vs ← Cursor_fields src codes;
              if decide (length vs = length targets)
              then mret (assign_all targets vs f)
              else raise ValueError
          | None => raise StructError
          end
      | None => raise AttributeError
      end
  | SArray name counter dtypename =>
      match self_attrs f !! counter with
      | Some (PInt n) =>
          match dts !! dtypename with
          | Some dt =>
              vs ← Cursor_array src n (dtype_code dt);
              mret (mkFrame (<[name := PList vs]> (self_attrs f)) (locals f))
          | None => raise AttributeError
          end
      | Some _ => raise TypeError
      | None => raise AttributeError
      end
  | SRead target typename =>
      v ← ROOTObject_read (class_env typename) src context;
      mret (assign target v f)
  | SReadAnyRef target =>
      v ← _readanyref src context;
      mret (assign target v f)
  | SEndcheck =>
      match locals f !! "start"%string, locals f !! "cnt"%string with
      | Some (PInt start), Some (PInt cnt) => _endcheck start cnt;; mret f
      | _, _ => raise TypeError
      end
  end.

Fixpoint exec_body (fmts : gmap string string) (dts : gmap string dtype)
    (src : Source) (context : FileContext) (body : list stmt) (f : frame)
  : reader frame :=
  match body with
  | [] => mret f
  | s :: body' =>
      f' ← exec_stmt fmts dts src context s f;
      exec_body fmts dts src context body' f'
  end.

(** The [_readinto] of a synthesized class on a receiver. *)
Definition generated_readinto (g : generated) (src : Source)
    (context : FileContext) (f : frame) : reader frame :=
  exec_body (g_formats g) (g_dtypes g) src context (g_body g) f.

(** The fields of a batch decoded one at a time, each assigned as soon
    as it is read. *)
Fixpoint read_each (src : Source) (targets : list string) (codes : list fcode)
    (f : frame) : reader frame :=
  match targets, codes with
  | t :: ts, c :: cs =>
      v ← Cursor_field src [c];
      read_each src ts cs (assign t v f)
  | _, _ => mret f
  end.

(** No format of a number beyond the size of the dictionary is in it:
    the next [_format] key is new. *)
Definition formats_fresh (F : gmap string string) : Prop :=
  forall k : nat, (size F < k)%nat -> F !! format_key k = None.

(** What relates the loop variables [sb] of the synthesizer to those
    [su] of the field-by-field reference after the same elements: the
    reference's body does what the synthesizer's body does followed by
    the decoding of the scalars still waiting in the batch, whose format
    codes are [pcodes]. *)
Definition batch_inv (sb su : synth) (pcodes : list fcode) : Prop :=
  bases sb = bases su
  /\ dtypes sb = dtypes su
  /\ formats_fresh (formats sb)
  /\ formats_fresh (formats su)
  /\ letters_codes (list_ascii_of_string (basicletters sb)) = Some pcodes
  /\ length (basicnames sb) = length pcodes
  /\ forall Fb Fu D src context f c,
       formats sb ⊆ Fb -> formats su ⊆ Fu ->
       exec_body Fu D src context (code su) f c
       = (f' ← exec_body Fb D src context (code sb) f;
          read_each src (basicnames sb) pcodes f') c.


End Reader.

(** Whether a key is the one [get] looks for. *)
Definition key_matches (name : string) (cycle : option Z) (k : TKey.t) : Prop :=
  TKey.fName k = name /\ forall c, cycle = Some c -> TKey.fCycle k = c.

(** ** Listing a directory *)

(** [str(n)] for an integer: its decimal digits, with a minus sign
    before a negative one.  [fuel] bounds the number of digits. *)
Definition digit_char (d : Z) : ascii := ascii_of_N (Z.to_N (48 + d)).

Fixpoint decimal_digits (fuel : nat) (n : Z) : string :=
  match fuel with
  | O => EmptyString
  | S fuel' =>
      if n <? 10 then String (digit_char n) EmptyString
      else decimal_digits fuel' (n / 10)
             +:+ String (digit_char (n mod 10)) EmptyString
  end.

Definition py_str_int (z : Z) : string :=
  if z <? 0 then String "-" (decimal_digits (S (Z.to_nat (- z))) (- z))
  else decimal_digits (S (Z.to_nat z)) z.

(** [s.decode("ascii")] on a byte string, and the [encode] back: the text
    itself when every byte is below 128, and otherwise a
    [UnicodeDecodeError], which is a [ValueError]. *)
Fixpoint is_ascii (s : string) : bool :=
  match s with
  | EmptyString => true
  | String c s' => (N_of_ascii c <? 128)%N && is_ascii s'
  end.

Definition decode_ascii (s : string) : result string :=
  if is_ascii s then Ok s else Raise ValueError.

(** [ROOTDirectory._withcycle]. *)
Definition _withcycle (key : TKey.t) : result string :=
  match decode_ascii (TKey.fName key) with
  | Ok name => Ok (name +:+ ";" +:+ py_str_int (TKey.fCycle key))
  | Raise e => Raise e
  end.

(** What a generator has yielded, and the exception that ended it if one
    did. *)
Definition yielded (A : Type) : Type := (list A * option exn)%type.

Section Listing.

Variable decompress : Z -> list byte -> Z -> list byte.
Variable class_env : string -> pyclass.

(** [ROOTDirectory.keys(recursive, filtername, filterclass)] run to its
    end over the keys of a directory, within [depth] nested directories.
    The keys come back as the iteration left them: the [get] of a
    subdirectory key moves that key's cursor. *)
Fixpoint ROOTDirectory_keys (depth : nat) (keys : list TKey.t) (recursive : bool)
    (filtername filterclass : string -> bool) {struct depth}
  : yielded string * list TKey.t :=
  match depth with
  | O => (([], Some RuntimeError), keys)
  | S depth' =>
      (fix loop (keys : list TKey.t) : yielded string * list TKey.t :=
         match keys with
         | [] => (([], None), [])
         | key :: keys' =>
             let own : yielded string :=
               if filtername (TKey.fName key) && filterclass (TKey.fClassName key)
               then match _withcycle key with
                    | Ok n => ([n], None)
                    | Raise e => ([], Some e)
                    end
               else ([], None) in
             match own with
             | (ys, Some e) => ((ys, Some e), key :: keys')
             | (ys, None) =>
                 if recursive
                    && bool_decide (TKey.fClassName key = "TDirectory"%string)
                 then
                   match TKey_get decompress class_env key with
                   | (Ok (GDir d), key') =>
                       let '((subs, err), _) :=
                         ROOTDirectory_keys depth' (ROOTDirectory._keys d)
                           recursive filtername filterclass in
                       match subs, _withcycle key with
                       | _ :: _, Raise e => ((ys, Some e), key' :: keys')
                       | _, prefix =>
                           let names :=
                             match prefix with
                             | Ok p => (fun n => p +:+ "/" +:+ n) <$> subs
                             | Raise _ => []
                             end in
                           match err with
                           | Some e => ((ys ++ names, Some e), key' :: keys')
                           | None =>
                               let '((rest, err'), keys'') := loop keys' in
                               ((ys ++ names ++ rest, err'), key' :: keys'')
                           end
                       end
                   | (Ok (GObj _), key') => ((ys, Some AttributeError), key' :: keys')
                   | (Raise e, key') => ((ys, Some e), key' :: keys')
                   end
                 else
                   let '((rest, err'), keys'') := loop keys' in
                   ((ys ++ rest, err'), key :: keys'')
             end
         end) keys
  end.

(** [ROOTDirectory.allkeys]. *)
Definition ROOTDirectory_allkeys (depth : nat) (keys : list TKey.t)
    (filtername filterclass : string -> bool) : yielded string * list TKey.t :=
  ROOTDirectory_keys depth keys true filtername filterclass.

End Listing.

(** The default filters, [lambda name: True]. *)
Definition accept_all : string -> bool := fun _ => true.

(** ** The file header *)

(** A field of a header format: [n] raw bytes ([ns]) or a value. *)
Inductive hfield :=
| h_bytes (n : nat)
| h_value (c : fcode).

Definition hfield_size (h : hfield) : nat :=
  match h with
  | h_bytes n => n
  | h_value c => code_size c
  end.

Definition hcalcsize (fmt : list hfield) : nat :=
  fold_right (fun h n => (hfield_size h + n)%nat) 0%nat fmt.

Fixpoint hunpack (fmt : list hfield) (bs : list byte) : list pyval :=
  match fmt with
  | [] => []
  | h :: fmt' =>
      (match h with
       | h_bytes n => PStr (string_of_list_byte (take n bs))
       | h_value c => decode c (take (code_size c) bs)
       end) :: hunpack fmt' (drop (hfield_size h) bs)
  end.

(** [ROOTDirectory._format1], [_format2_small] and [_format2_big]:
    [!4si], [!iiiiiiBiii18s] and [!iqqiiiBiqi18s]. *)
Definition ROOTDirectory_format1 : list hfield := [h_bytes 4; h_value c_i].
Definition ROOTDirectory_format2_small : list hfield :=
  [h_value c_i; h_value c_i; h_value c_i; h_value c_i; h_value c_i; h_value c_i;
   h_value c_B; h_value c_i; h_value c_i; h_value c_i; h_bytes 18].
Definition ROOTDirectory_format2_big : list hfield :=
  [h_value c_i; h_value c_q; h_value c_q; h_value c_i; h_value c_i; h_value c_i;
   h_value c_B; h_value c_i; h_value c_q; h_value c_i; h_bytes 18].

(** The fields of the file header that [ROOTDirectory.read] unpacks. *)
Record FileHeader := mkFileHeader {
  hdr_fVersion : Z;
  hdr_fBEGIN : Z;
  hdr_fEND : Z;
  hdr_fSeekFree : Z;
  hdr_fNbytesFree : Z;
  hdr_nfree : Z;
  hdr_fNbytesName : Z;
  hdr_fUnits : Z;
  hdr_fCompress : Z;
  hdr_fSeekInfo : Z;
  hdr_fNbytesInfo : Z;
  hdr_fUUID : string
}.

(** The classes needed to read the streamers, [streamerclasses] of
    [ROOTDirectory.read]. *)
Definition streamerclasses : gmap string string :=
  list_to_map
    ((fun n : string => (n, n))
       <$> ["TStreamerInfo"; "TStreamerElement"; "TStreamerBase";
            "TStreamerBasicType"; "TStreamerBasicPointer"; "TStreamerLoop";
            "TStreamerObject"; "TStreamerObjectPointer"; "TStreamerObjectAny";
            "TStreamerObjectAnyPointer"; "TStreamerString"; "TStreamerSTL";
            "TStreamerSTLString"; "TStreamerArtificial"; "TObjArray"]%string).

(** ** Streamer infos and the classes defined from them *)

Module TStreamerInfo.
Record t := mk {
  fName : string;
  fCheckSum : Z;
  fClassVersion : Z;
  fElements : list TStreamerElement.t
}.
End TStreamerInfo.

(** A class of the class map: one written in the module, or one made from
    the text the synthesizer wrote. *)
Inductive classdef :=
| Builtin (name : string)
| Made (g : generated).

(** The classes [_defineclasses] starts from. *)
Definition seed_classes : gmap string classdef :=
  list_to_map
    ((fun n : string => (n, Builtin n))
       <$> ["TObject"; "TNamed"; "TString"; "TObjArray"; "TList"; "TArrayC";
            "TArrayS"; "TArrayI"; "TArrayL"; "TArrayL64"; "TArrayF";
            "TArrayD"]%string).

Section DefineClasses.

(** [_makeclass] compiles and runs the class text in an environment made
    of the module and the classes so far; what it gives, or raises, is
    left open. *)
Variable _makeclass :
  string -> generated -> gmap string classdef -> result classdef.

(** The loop of [_defineclasses] over the streamer infos that are left,
    in the order the loop visits them.  The name of an info is a [str],
    so it is the class name as it is. *)
Fixpoint define_loop (infos : list TStreamerInfo.t) (classes : gmap string classdef)
  : result (gmap string classdef) :=
  match infos with
  | [] => Ok classes
  | streamerinfo :: infos' =>
      match classes !! TStreamerInfo.fName streamerinfo with
      | Some _ => define_loop infos' classes
      | None =>
          let classname := TStreamerInfo.fName streamerinfo in
          match synthesize classname (TStreamerInfo.fElements streamerinfo) with
          | Ok g =>
              match _makeclass classname g classes with
              | Ok cls => define_loop infos' (<[classname := cls]> classes)
              | Raise e => Raise e
              end
          | Raise e => Raise e
          end
      end
  end.

(** [_defineclasses(streamerinfos)]: the infos are visited from the last
    to the first. *)
Definition _defineclasses (streamerinfos : list TStreamerInfo.t)
  : result (gmap string classdef) :=
  define_loop (rev streamerinfos) seed_classes.

End DefineClasses.

(** ** The other readers of the module *)

Section MoreReaders.

Variable decompress : Z -> list byte -> Z -> list byte.
Variable class_env : string -> pyclass.

(** The head of [ROOTDirectory.read(source)]: the magic, the version and
    the layout the version selects.  [Cursor(0)] is the cursor. *)
Definition hfields (src : Source) (fmt : list hfield) : reader (list pyval) :=
  fun c =>
    let start := index c in
    let stop := start + Z.of_nat (hcalcsize fmt) in
    match Source_data decompress src start stop with
    | Ok bs => Ok (hunpack fmt bs, set_index c stop)
    | Raise e => Raise e
    end.

Definition ROOTDirectory_read_header (src : Source) : result FileHeader :=
  match hfields src ROOTDirectory_format1 (Cursor_new 0 0) with
  | Ok ([PStr magic; PInt fVersion], cursor) =>
      if decide (magic ≠ "root"%string) then Raise ValueError
      else
        match hfields src (if decide (fVersion < 1000000)
                           then ROOTDirectory_format2_small
                           else ROOTDirectory_format2_big) cursor with
        | Ok ([PInt fBEGIN; PInt fEND; PInt fSeekFree; PInt fNbytesFree;
               PInt nfree; PInt fNbytesName; PInt fUnits; PInt fCompress;
               PInt fSeekInfo; PInt fNbytesInfo; PStr fUUID], _) =>
            Ok (mkFileHeader fVersion fBEGIN fEND fSeekFree fNbytesFree nfree
                  fNbytesName fUnits fCompress fSeekInfo fNbytesInfo fUUID)
        | Ok _ => Raise TypeError
        | Raise e => Raise e
        end
  | Ok _ => Raise TypeError
  | Raise e => Raise e
  end.

(** [TObject._readinto]. *)
Definition TObject_readinto (src : Source) : reader unit :=
  _skiptobj decompress src.

(** [TNamed._readinto]: the name and the title it sets. *)
Definition TNamed_readinto (src : Source) : reader (string * string) :=
  '(start, cnt, vers) ← _startcheck decompress src;
  TObject_readinto src;;
  fName ← Cursor_string decompress src;
  fTitle ← Cursor_string decompress src;
  _endcheck start cnt;;
  mret (fName, fTitle).

(** [[_readanyref(source, cursor, context) for i in range(size)]]. *)
Fixpoint read_refs (n : nat) (src : Source) (context : FileContext)
  : reader (list pyval) :=
  match n with
  | O => mret []
  | S n' =>
      x ← _readanyref decompress class_env src context;
      xs ← read_refs n' src context;
      mret (x :: xs)
  end.

(** [TObjArray._readinto]: what the blank list is extended with. *)
Definition TObjArray_readinto (src : Source) (context : FileContext)
  : reader (list pyval) :=
  '(start, cnt, vers) ← _startcheck decompress src;
  _skiptobj decompress src;;
  name ← Cursor_string decompress src;
  sl ← int_fields decompress src [c_i; c_i];
  match sl with
  | [size; low] =>
      xs ← read_refs (Z.to_nat size) src context;
      _endcheck start cnt;;
      mret xs
  | _ => raise TypeError
  end.

(** [TList._readinto]. *)
Definition TList_readinto (src : Source) (context : FileContext)
  : reader (list pyval) :=
  '(start, cnt, vers) ← _startcheck decompress src;
  _skiptobj decompress src;;
  name ← Cursor_string decompress src;
  size ← int_field decompress src [c_i];
  xs ← read_refs (Z.to_nat size) src context;
  _endcheck start cnt;;
  mret xs.

(** [TArray._readinto] for a subclass whose [_dtype] decodes as [dt]. *)
Definition TArray_readinto (dt : fcode) (src : Source) : reader (list pyval) :=
  length ← int_field decompress src [c_i];
  Cursor_array decompress src length dt.

(** [self.<name> = v] on an instance. *)
Definition setattr (self : pyval) (name : string) (v : pyval) : pyval :=
  match self with
  | PInst cls attrs => PInst cls (<[name := v]> attrs)
  | _ => self
  end.

(** [TStreamerInfo._readinto]: the name out of a name and title, the
    checksum and the class version, and the elements, which must be a
    list. *)
Definition TStreamerInfo_format : list fcode := [c_I; c_i].

Definition TStreamerInfo_readinto (self : pyval) (src : Source)
    (context : FileContext) : reader (pyval * pyval) :=
  '(start, cnt, vers) ← _startcheck decompress src;
  '(fName, _) ← _nametitle decompress src;
  fs ← Cursor_fields decompress src TStreamerInfo_format;
  match fs with
  | [fCheckSum; fClassVersion] =>
      fElements ← _readanyref decompress class_env src context;
      match fElements with
      | PList _ =>
          _endcheck start cnt;;
          mret (setattr
                  (setattr
                     (setattr (setattr self "fName" (PStr fName))
                        "fCheckSum" fCheckSum)
                     "fClassVersion" fClassVersion)
                  "fElements" fElements,
                PNone)
      | _ => raise AssertionError
      end
  | _ => raise StructError
  end.

(** [TStreamerInfo], [TObjArray] and [TList] as factories: a [TObjArray]
    and a [TList] are lists, blank ones are empty, and [_readinto]
    extends them. *)
Definition TStreamerInfo_class : pyclass :=
  mkClass (PInst "TStreamerInfo" ∅) TStreamerInfo_readinto.

Definition extend (self : pyval) (xs : list pyval) : pyval :=
  match self with
  | PList l => PList (l ++ xs)
  | _ => self
  end.

Definition TObjArray_class : pyclass :=
  mkClass (PList [])
    (fun self src context =>
       xs ← TObjArray_readinto src context; mret (extend self xs, PNone)).

Definition TList_class : pyclass :=
  mkClass (PList [])
    (fun self src context =>
       xs ← TList_readinto src context; mret (extend self xs, PNone)).

(** [isinstance(x, TStreamerInfo)]: an instance is known by the name of
    its class, and no class of the module derives from
    [TStreamerInfo]. *)
Definition is_TStreamerInfo (x : pyval) : bool :=
  match x with
  | PInst cls _ => bool_decide (cls = "TStreamerInfo"%string)
  | _ => false
  end.

(** The loop of [_readstreamers]: a reference that must be a
    [TStreamerInfo], then the options, a length byte and that many bytes
    which are read and dropped. *)
Fixpoint read_streamerinfos (n : nat) (src : Source) (context : FileContext)
  : reader (list pyval) :=
  match n with
  | O => mret []
  | S n' =>
      x ← _readanyref decompress class_env src context;
      if is_TStreamerInfo x then
        n_ ← int_field decompress src [c_B];
        Cursor_bytes decompress src n_;;
        xs ← read_streamerinfos n' src context;
        mret (x :: xs)
      else raise AssertionError
  end.

Definition _readstreamers (src : Source) (context : FileContext)
  : reader (list pyval) :=
  '(start, cnt, vers) ← _startcheck decompress src;
  _skiptobj decompress src;;
  name ← Cursor_string decompress src;
  size ← int_field decompress src [c_i];
  streamerinfos ← read_streamerinfos (Z.to_nat size) src context;
  _endcheck start cnt;;
  mret streamerinfos.

(** ** The subclasses of TStreamerElement *)

(** A subclass that adds nothing: its own frame around the base class's
    record.  This is the [_readinto] of [TStreamerArtificial],
    [TStreamerObject], [TStreamerObjectAny], [TStreamerObjectAnyPointer],
    [TStreamerObjectPointer] and [TStreamerString]. *)
Definition TStreamerWrapped_readinto (self : TStreamerElement.t) (src : Source)
  : reader TStreamerElement.t :=
  '(start, cnt, vers) ← _startcheck decompress src;
  self ← TStreamerElement_readinto decompress self src;
  _endcheck start cnt;;
  mret self.

Definition TStreamerArtificial_readinto := TStreamerWrapped_readinto.
Definition TStreamerObject_readinto := TStreamerWrapped_readinto.
Definition TStreamerObjectAny_readinto := TStreamerWrapped_readinto.
Definition TStreamerObjectAnyPointer_readinto := TStreamerWrapped_readinto.
Definition TStreamerObjectPointer_readinto := TStreamerWrapped_readinto.
Definition TStreamerString_readinto := TStreamerWrapped_readinto.

(** [TStreamerBase._readinto]: the element and its [fBaseVersion], which
    is set only from version 3 on. *)
Definition TStreamerBase_readinto (self : TStreamerElement.t) (src : Source)
  : reader (TStreamerElement.t * option Z) :=
  '(start, cnt, vers) ← _startcheck decompress src;
  self ← TStreamerElement_readinto decompress self src;
  fBaseVersion ← (if decide (vers > 2)
                  then v ← int_field decompress src [c_i]; mret (Some v)
                  else mret None);
  _endcheck start cnt;;
  mret (self, fBaseVersion).

(** [TStreamerBasicPointer._readinto] and [TStreamerLoop._readinto], which
    are the same: the element, [fCountVersion], [fCountName] and
    [fCountClass]. *)
Definition TStreamerBasicPointer_readinto (self : TStreamerElement.t) (src : Source)
  : reader (TStreamerElement.t * (Z * string * string)) :=
  '(start, cnt, vers) ← _startcheck decompress src;
  self ← TStreamerElement_readinto decompress self src;
  fCountVersion ← int_field decompress src [c_i];
  fCountName ← Cursor_string decompress src;
  fCountClass ← Cursor_string decompress src;
  _endcheck start cnt;;
  mret (self, (fCountVersion, fCountName, fCountClass)).

Definition TStreamerLoop_readinto := TStreamerBasicPointer_readinto.

(** The size [TStreamerBasicType._readinto] gives a basic type, [None]
    where it leaves [fSize] alone; [intp] is
    [numpy.dtype(numpy.intp).itemsize]. *)
Definition basic_size (intp : Z) (fType : Z) : option Z :=
  if decide (fType = kBool \/ fType = kUChar \/ fType = kChar) then Some 1
  else if decide (fType = kUShort \/ fType = kShort) then Some 2
  else if decide (fType = kBits \/ fType = kUInt \/ fType = kInt
                  \/ fType = kCounter) then Some 4
  else if decide (fType = kULong \/ fType = kULong64 \/ fType = kLong
                  \/ fType = kLong64) then Some 8
  else if decide (fType = kFloat \/ fType = kFloat16) then Some 4
  else if decide (fType = kDouble \/ fType = kDouble32) then Some 8
  else if decide (fType = kCharStar) then Some intp
  else None.

(** What [TStreamerBasicType._readinto] does to the element once the
    base class has read it. *)
Definition basic_type_fixup (intp : Z) (el : TStreamerElement.t) : TStreamerElement.t :=
  let fType :=
    if decide (kOffsetL < fType el < kOffsetP) then fType el - kOffsetL
    else fType el in
  let fSize :=
    match basic_size intp fType with
    | Some sz => if decide (fArrayLength el > 0) then sz * fArrayLength el else sz
    | None => fSize el
    end in
  TStreamerElement.mk (class el) (fOffset el) (fName el) (fTitle el) fType fSize
    (fArrayLength el) (fArrayDim el) (fMaxIndex el) (fTypeName el)
    (fXmin el) (fXmax el) (fFactor el).

Definition TStreamerBasicType_readinto (intp : Z) (self : TStreamerElement.t)
    (src : Source) : reader TStreamerElement.t :=
  '(start, cnt, vers) ← _startcheck decompress src;
  self ← TStreamerElement_readinto decompress self src;
  let self := basic_type_fixup intp self in
  _endcheck start cnt;;
  mret self.

(** [s.startswith(p)]. *)
Fixpoint str_startswith (p s : string) : bool :=
  match p, s with
  | EmptyString, _ => true
  | String a p', String b s' => bool_decide (a = b) && str_startswith p' s'
  | String _ _, EmptyString => false
  end.

(** [TStreamerSTL._readinto]: the element, [fSTLtype] and [fCtype].  The
    values of [kSTLmultimap] and [kSTLset] are those of [uproot.const]. *)
Definition TStreamerSTL_readinto (kSTLmultimap kSTLset : Z)
    (self : TStreamerElement.t) (src : Source)
  : reader (TStreamerElement.t * (Z * Z)) :=
  '(start, cnt, vers) ← _startcheck decompress src;
  self ← TStreamerElement_readinto decompress self src;
  if decide (vers > 2) then raise NotImplementedError
  else
    fs ← int_fields decompress src [c_i; c_i];
    match fs with
    | [fSTLtype; fCtype] =>
        let fSTLtype :=
          if decide (fSTLtype = kSTLmultimap \/ fSTLtype = kSTLset) then
            if str_startswith "std::set" (fTypeName self)
               || str_startswith "set" (fTypeName self)
            then kSTLset
            else if str_startswith "std::multimap" (fTypeName self)
                    || str_startswith "multimap" (fTypeName self)
            then kSTLmultimap
            else fSTLtype
          else fSTLtype in
        _endcheck start cnt;;
        mret (self, (fSTLtype, fCtype))
    | _ => raise TypeError
    end.

(** [TStreamerSTLString._readinto]: its own frame around
    [TStreamerSTL._readinto]. *)
Definition TStreamerSTLString_readinto (kSTLmultimap kSTLset : Z)
    (self : TStreamerElement.t) (src : Source)
  : reader (TStreamerElement.t * (Z * Z)) :=
  '(start, cnt, vers) ← _startcheck decompress src;
  r ← TStreamerSTL_readinto kSTLmultimap kSTLset self src;
  _endcheck start cnt;;
  mret r.

End MoreReaders.

(** The context [ROOTDirectory.read] reads the streamers with. *)
Definition streamercontext (fCompress : Z) : FileContext :=
  mkFileContext None streamerclasses fCompress.

(** ** What a synthesized body assigns *)

(** The targets a statement assigns to, in the order it assigns them. *)
Definition assigned (s : stmt) : list string :=
  match s with
  | SField target _ _ => [target]
  | SFields targets _ _ => targets
  | SArray name _ _ => ["self." +:+ name]
  | SRead target _ => [target]
  | SReadAnyRef target => [target]
  | SStartcheck | SBaseReadinto _ | SEndcheck => []
  end.

(** The targets that stand for a streamer element: the attribute of a
    scalar, the length byte and the attribute of a counted array, the
    name of an object member; a base class has none. *)
Definition element_targets (element : TStreamerElement.t) : list string :=
  match class element with
  | StreamerBasicPointer => ["_" +:+ fName element; "self." +:+ fName element]
  | StreamerBasicType => ["self." +:+ fName element]
  | StreamerObjectPointer | StreamerObject | StreamerObjectAny | StreamerString =>
      [fName element]
  | _ => []
  end.

(** The names of the base-class elements, in order. *)
Definition base_names (elements : list TStreamerElement.t) : list string :=
  fName <$> List.filter (fun e => bool_decide (class e = StreamerBase)) elements.

(** A statement that finds what it names: the format of a field read is
    a class attribute that [struct] accepts and that has one value per
    target, and the dtype of an array read is a class attribute. *)
Definition stmt_ok (F : gmap string string) (D : gmap string dtype) (s : stmt) : Prop :=
  match s with
  | SField _ _ k =>
      exists fmt c, F !! format_key k = Some fmt /\ Struct fmt = Some [c]
  | SFields targets _ k =>
      exists fmt codes, F !! format_key k = Some fmt /\ Struct fmt = Some codes
                        /\ length codes = length targets
  | SArray _ _ dtypename => is_Some (D !! dtypename)
  | _ => True
  end.

(** No dtype of a number beyond the size of the dictionary is in it. *)
Definition dtypes_fresh (D : gmap string dtype) : Prop :=
  forall k : nat, (size D < k)%nat -> D !! dtype_key k = None.

(** The scalars that wait in the batch wait for a scalar: the batch is
    empty unless the element about to be visited is a basic type that is
    not an array. *)
Definition batch_waits (elements : list TStreamerElement.t) (i : nat) (st : synth)
  : Prop :=
  basicnames st ≠ [] ->
  exists e, elements !! i = Some e
            /\ class e = StreamerBasicType /\ fArrayLength e = 0.

(** What the loop keeps about its dictionaries and its batch. *)
Definition wellformed (st : synth) : Prop :=
  Forall (stmt_ok (formats st) (dtypes st)) (code st)
  /\ formats_fresh (formats st)
  /\ dtypes_fresh (dtypes st)
  /\ exists pcodes,
       letters_codes (list_ascii_of_string (basicletters st)) = Some pcodes
       /\ length (basicnames st) = length pcodes.

(** The body between the two checks. *)
Definition inner_code (st : synth) : Prop :=
  exists mid, code st = SStartcheck :: mid
              /\ Forall (fun s => s ≠ SStartcheck /\ s ≠ SEndcheck) mid.

(** The names the header of a synthesized [_readinto] and its first line
    bind. *)
Definition method_locals : list string :=
  ["self"; "source"; "cursor"; "context"; "start"; "cnt"; "vers"]%string.


(** ** Concrete inputs *)

(** A byte list written with numbers. *)
Definition bytes_of (l : list Z) : list byte :=
  map (fun z => default x00 (Byte.of_N (Z.to_N z))) l.

(** A decompression layer that stores the bytes as they are. *)
Definition stored : Z -> list byte -> Z -> list byte := fun _ bs _ => bs.

(** A run-time environment with the classes the examples name. *)
Definition example_env (n : string) : pyclass :=
  if decide (n = "TString"%string) then TString stored else Undefined.

Definition no_bases :
  string -> Source -> FileContext -> gmap string pyval -> reader (gmap string pyval) :=
  fun _ _ _ _ => raise NotImplementedError.

Definition framed_example : Source :=
  FileSource (bytes_of [0x40; 0; 0; 2; 0; 1; 9; 9; 9; 9; 9; 9]).

Definition empty_context : FileContext := mkFileContext None ∅ 0.

(** A key of a class the context does not know, over [framed_example]. *)
Definition unknown_key : TKey.t :=
  TKey.mk 12 4 12 0 0 1 0 100 "TUnknown" "thing" ""
    framed_example (Cursor_new 0 0) empty_context.

(** The string [abc] behind its length byte. *)
Definition abc_example : Source := FileSource (bytes_of [3; 97; 98; 99]).

(** A key header at offset 0: [fNbytes = 40], [fVersion = 4],
    [fObjlen = 10], [fKeylen = 30], [fCycle = 1], [fSeekKey = 100],
    [fSeekPdir = 64], class [TNamed], name [x], empty title.  The payload
    is as long as the object. *)
Definition key_example : Source :=
  FileSource (bytes_of
    [0; 0; 0; 40;  0; 4;  0; 0; 0; 10;  0; 0; 0; 0;  0; 30;  0; 1;
     0; 0; 0; 100;  0; 0; 0; 64;
     6; 84; 78; 97; 109; 101; 100;  1; 120;  0]).

(** A file context whose compression flag is set. *)
Definition compressing_context : FileContext := mkFileContext None ∅ 101.

(** What [TKey._readinto] makes of [key_example] under
    [compressing_context]. *)
Definition key_example_read : TKey.t :=
  TKey.mk 40 4 10 0 30 1 100 64 "TNamed" "x" ""
    key_example (Cursor_new 130 100) compressing_context.

(** A framed reference to tag 5, which no table holds: byte count
    [0x40000009], then the tag. *)
Definition dangling_ref_example : Source :=
  FileSource (bytes_of [0x40; 0; 0; 9; 0; 0; 0; 5; 1; 1]).

(** A [TStreamerElement] record of version 2: name [n], title [[k]],
    [fType = 11], [fSize = 1], five [fMaxIndex] values and the type name
    [bool]. *)
Definition element_example : Source :=
  FileSource (bytes_of
    [0x40; 0; 0; 65;  0; 2;
     0x40; 0; 0; 18;  0; 1;  0; 1;  0; 0; 0; 0;  3; 0; 0; 0;
     1; 110;  3; 91; 107; 93;
     0; 0; 0; 11;  0; 0; 0; 1;  0; 0; 0; 0;  0; 0; 0; 0;
     0; 0; 0; 1;  0; 0; 0; 2;  0; 0; 0; 3;  0; 0; 0; 4;  0xFF; 0xFF; 0xFF; 0xFB;
     4; 98; 111; 111; 108]).

(** What [TStreamerElement._readinto] makes of [element_example]. *)
Definition element_example_read : TStreamerElement.t :=
  TStreamerElement.mk StreamerBasicType 0 "n" "[k]" 18 1 0 0
    [PInt 1; PInt 2; PInt 3; PInt 4; PInt (-5)] "bool"
    (PFloat64 0) (PFloat64 0) (PFloat64 0).

(** A small file.  At offset 0 the record of a directory whose keys are
    listed at offset 30: a header key, the count 1, and one key named [b]
    of cycle 2 and class [TString] whose four payload bytes are at
    offset 100. *)
Definition file_example : Source :=
  FileSource (bytes_of
    [0; 5;  0; 0; 0; 0;  0; 0; 0; 0;  0; 0; 0; 70;  0; 0; 0; 0;
     0; 0; 0; 0;  0; 0; 0; 0;  0; 0; 0; 30;
     0; 0; 0; 0;  0; 4;  0; 0; 0; 0;  0; 0; 0; 0;  0; 0;  0; 0;
     0; 0; 0; 0;  0; 0; 0; 1;  0;  0;  0;
     0; 0; 0; 1;
     0; 0; 0; 4;  0; 4;  0; 0; 0; 4;  0; 0; 0; 0;  0; 0;  0; 2;
     0; 0; 0; 100;  0; 0; 0; 1;
     7; 84; 83; 116; 114; 105; 110; 103;  1; 98;  0;
     3; 120; 121; 122]).

Definition file_context : FileContext :=
  mkFileContext None {[ "TString"%string := "TString"%string ]} 0.

(** The key of the subdirectory [a], stored with cycle 1. *)
Definition key_a : TKey.t :=
  TKey.mk 30 4 30 0 0 1 0 1 "TDirectory" "a" ""
    file_example (Cursor_new 0 0) file_context.


(** Streamer elements: a base, two scalars, an array counted by [fN]
    and a last scalar. *)
Definition element_of (c : ElementClass) (name title : string) (ty len : Z)
    (tyname : string) : TStreamerElement.t :=
  TStreamerElement.mk c 0 name title ty 0 len 0 [] tyname PNone PNone PNone.

Definition event_elements : list TStreamerElement.t :=
  [ element_of StreamerBase "TNamed" "" 0 0 "BASE";
    element_of StreamerBasicType "fN" "" kInt 0 "Int_t";
    element_of StreamerBasicType "fX" "" kShort 0 "Short_t";
    element_of StreamerBasicPointer "fArr" "[fN]" (kOffsetP + kInt) 0 "Int_t*";
    element_of StreamerBasicType "fFlag" "" kBool 0 "Bool_t" ].

(** A basic pointer whose title has brackets with nothing between. *)
Definition empty_counter_element : TStreamerElement.t :=
  element_of StreamerBasicPointer "fArr" "[]" (kOffsetP + kInt) 0 "Int_t*".

(** The elements of [event_elements] after the base, and a record for
    them: [fN = 2], [fX = 7], the array marker, two array values and
    [fFlag = True]. *)
Definition counted_elements : list TStreamerElement.t := tl event_elements.

Definition counted_example : Source :=
  FileSource (bytes_of
    [0x40; 0; 0; 18;  0; 1;
     0; 0; 0; 2;  0; 7;  1;  0; 0; 0; 5;  0; 0; 0; 6;  1]).

(** The key of [b] as the directory record of [file_example] gives it,
    and the directory [a] that holds it. *)
Definition key_b : TKey.t :=
  TKey.mk 4 4 4 0 0 2 100 1 "TString" "b" ""
    file_example (Cursor_new 100 100) file_context.

Definition directory_a : ROOTDirectory.t :=
  ROOTDirectory.mk "a" file_context [key_b].

(** The bytes of a file source. *)
Definition content_of (s : Source) : list byte :=
  match s with
  | FileSource bs => bs
  | CompressedSource _ _ _ _ _ => []
  end.

(** A [TObject] header of version 1 whose [fBits] has [kIsReferenced]:
    two more bytes follow the bits. *)
Definition tobject_example : Source :=
  FileSource (bytes_of [0; 1;  0; 0; 0; 0;  0; 0; 0; 0x10;  0; 0;  9; 9]).

(** The record of [element_example] inside the frame of a subclass, of
    version 2; the same with version 3 and a 32-bit value after it. *)
Definition wrapped_example : Source :=
  FileSource (bytes_of [0x40; 0; 0; 71;  0; 2] ++ content_of element_example).

Definition base_example : Source :=
  FileSource (bytes_of [0x40; 0; 0; 75;  0; 3] ++ content_of element_example
              ++ bytes_of [0; 0; 0; 7]).

(** A framed reference that brings its class, [TString], and the
    string [xyz]; then a bare reference to tag 2. *)
Definition new_object_example : Source :=
  FileSource (bytes_of
    [0x40; 0; 0; 16;  0xFF; 0xFF; 0xFF; 0xFF;
     84; 83; 116; 114; 105; 110; 103; 0;
     3; 120; 121; 122;
     0; 0; 0; 2]).

(** A cursor at the bare reference of [new_object_example] whose table
    holds an object under tag 2. *)
Definition cursor_with_ref : Cursor :=
  mkCursor 20 0 {[ 2 := PStr "kept" ]}.

(** A [TList] with an empty name and one entry, a null reference; a
    [TObjArray] with the same entry and a lower bound; a list of no
    streamer infos. *)
Definition list_example : Source :=
  FileSource (bytes_of
    [0x40; 0; 0; 21;  0; 5;
     0; 1;  0; 0; 0; 0;  0; 0; 0; 0;
     0;  0; 0; 0; 1;
     0; 0; 0; 0]).

Definition objarray_example : Source :=
  FileSource (bytes_of
    [0x40; 0; 0; 25;  0; 3;
     0; 1;  0; 0; 0; 0;  0; 0; 0; 0;
     0;  0; 0; 0; 1;  0; 0; 0; 0;
     0; 0; 0; 0]).

Definition no_streamers_example : Source :=
  FileSource (bytes_of
    [0x40; 0; 0; 17;  0; 5;
     0; 1;  0; 0; 0; 0;  0; 0; 0; 0;
     0;  0; 0; 0; 0]).

(** A [TArrayS] of two values, 1 and 2. *)
Definition array_example : Source :=
  FileSource (bytes_of [0; 0; 0; 2;  0; 1;  0; 2]).

(** The header of a file of version 61400: [fBEGIN = 100],
    [fEND = 1000], [fSeekFree = 900], [fNbytesFree = 50], [nfree = 1],
    [fNbytesName = 60], [fUnits = 4], [fCompress = 101],
    [fSeekInfo = 500], [fNbytesInfo = 300] and a UUID of eighteen
    zero bytes. *)
Definition header_example : Source :=
  FileSource (bytes_of
    ([114; 111; 111; 116;  0; 0; 0xEF; 0xD8;
      0; 0; 0; 100;  0; 0; 3; 0xE8;  0; 0; 3; 0x84;  0; 0; 0; 50;
      0; 0; 0; 1;  0; 0; 0; 60;  4;  0; 0; 0; 101;
      0; 0; 1; 0xF4;  0; 0; 1; 0x2C]
     ++ repeat 0 18)).

(** A [_makeclass] that keeps the text it is given. *)
Definition keep_text : string -> generated -> gmap string classdef -> result classdef :=
  fun _ g _ => Ok (Made g).

(** Three streamer infos, two of them for [Event] and one with the name
    of a built-in class. *)
Definition infos_example : list TStreamerInfo.t :=
  [ TStreamerInfo.mk "Event" 0 1 counted_elements;
    TStreamerInfo.mk "TObject" 0 1 [];
    TStreamerInfo.mk "Event" 0 2 event_elements ].

(** A streamer info no class is written for: its second element is an
    array of a basic type. *)
Definition array_elements : list TStreamerElement.t :=
  [ element_of StreamerBasicType "fN" "" kInt 0 "Int_t";
    element_of StreamerBasicType "fV" "" kInt 3 "Int_t" ].

(** A list of one streamer info: the frame of the list, its one entry
    (a framed reference that brings the class [TStreamerInfo]), and the
    empty options.  The info is named [Event], has checksum 42 and class
    version 1, and its elements are an empty [TObjArray]. *)
Definition streamers_example : Source :=
  FileSource (bytes_of
    [0x40; 0; 0; 120;  0; 5;
     0; 1;  0; 0; 0; 0;  0; 0; 0; 0;
     0;  0; 0; 0; 1;
     0x40; 0; 0; 98;  0xFF; 0xFF; 0xFF; 0xFF;
     84; 83; 116; 114; 101; 97; 109; 101; 114; 73; 110; 102; 111; 0;
     0x40; 0; 0; 76;  0; 9;
     0x40; 0; 0; 19;  0; 1;
     0; 1;  0; 0; 0; 0;  0; 0; 0; 0;
     5; 69; 118; 101; 110; 116;  0;
     0; 0; 0; 42;  0; 0; 0; 1;
     0x40; 0; 0; 39;  0xFF; 0xFF; 0xFF; 0xFF;
     84; 79; 98; 106; 65; 114; 114; 97; 121; 0;
     0x40; 0; 0; 21;  0; 3;
     0; 1;  0; 0; 0; 0;  0; 0; 0; 0;
     0;  0; 0; 0; 0;  0; 0; 0; 0;
     0]).

(** What a computation gives when it does not raise. *)
Definition result_of {A : Type} (d : A) (r : result A) : A :=
  match r with
  | Ok a => a
  | Raise _ => d
  end.

(** The element [wrapped_example] holds, read as a [TStreamerObject],
    and the one [base_example] holds, read as a [TStreamerBase] and as
    a [TStreamerSTL]. *)
Definition wrapped_example_read : TStreamerElement.t :=
  TStreamerElement.mk StreamerObject 0 "n" "[k]" 18 1 0 0
    [PInt 1; PInt 2; PInt 3; PInt 4; PInt (-5)] "bool"
    (PFloat64 0) (PFloat64 0) (PFloat64 0).

Definition base_example_read : TStreamerElement.t :=
  TStreamerElement.mk StreamerBase 0 "n" "[k]" 18 1 0 0
    [PInt 1; PInt 2; PInt 3; PInt 4; PInt (-5)] "bool"
    (PFloat64 0) (PFloat64 0) (PFloat64 0).

Definition stl_example_read : TStreamerElement.t :=
  TStreamerElement.mk StreamerSTL 0 "n" "[k]" 18 1 0 0
    [PInt 1; PInt 2; PInt 3; PInt 4; PInt (-5)] "bool"
    (PFloat64 0) (PFloat64 0) (PFloat64 0).

(** The classes written for [event_elements] and [counted_elements],
    and what the second makes of [counted_example]. *)
Definition no_class : generated := mkGenerated "" [] [] ∅ ∅.

Definition event_class : generated :=
  result_of no_class (synthesize "Event" event_elements).

Definition counted_class : generated :=
  result_of no_class (synthesize "Event" counted_elements).

Definition counted_read : frame * Cursor :=
  result_of (mkFrame ∅ ∅, Cursor_new 0 0)
    (generated_readinto stored example_env no_bases counted_class counted_example
       empty_context (mkFrame ∅ ∅) (Cursor_new 0 0)).

(** The classes defined from [infos_example]. *)
Definition classes_example : gmap string classdef :=
  result_of ∅ (_defineclasses keep_text infos_example).

(** A run-time environment for [streamers_example]: [TStreamerInfo] and
    [TObjArray], which read what they hold through the same environment
    one level down; [depth] bounds the nesting. *)
Fixpoint streamer_env (depth : nat) (n : string) : pyclass :=
  match depth with
  | O => Undefined
  | S depth' =>
      if decide (n = "TStreamerInfo"%string)
      then TStreamerInfo_class stored (streamer_env depth')
      else if decide (n = "TObjArray"%string)
      then TObjArray_class stored (streamer_env depth')
      else Undefined
  end.

(** What the streamer classes make of [streamers_example]: the list, and
    the info read from offset 43, where its record begins. *)
Definition streamers_read : list pyval * Cursor :=
  result_of ([], Cursor_new 0 0)
    (_readstreamers stored (streamer_env 3) streamers_example
       (streamercontext 0) (Cursor_new 0 0)).

Definition info_read : pyval * pyval * Cursor :=
  result_of (PNone, PNone, Cursor_new 0 0)
    (TStreamerInfo_readinto stored (streamer_env 2)
       (PInst "TStreamerInfo" ∅) streamers_example (streamercontext 0)
       (Cursor_new 43 0)).

(** A framed reference that brings a class the context does not know,
    [TX]. *)
Definition unknown_class_example : Source :=
  FileSource (bytes_of
    [0x40; 0; 0; 7;  0xFF; 0xFF; 0xFF; 0xFF;  84; 88; 0;  9; 9]).

(** * Properties *)

Ltac unfold_reader :=
  unfold mbind, reader_bind, mret, reader_ret, raise, get_cursor, put_cursor in *.

(** *** Names with separators *)

Lemma str_contains_sep a ch r : str_contains ch (a +:+ String ch r) = true.
Proof.
  induction a as [|c a IH]; simpl.
  - destruct (decide (ch = ch)); [reflexivity|contradiction].
  - destruct (decide (c = ch)); [reflexivity|exact IH].
Qed.


Lemma str_split_segments ch s :
  Forall (fun n => str_contains ch n = false) (str_split ch s).
Proof.
  induction s as [|c s IH]; simpl.
  - repeat constructor.
  - destruct (decide (c = ch)) as [->|Hne].
    + constructor; [reflexivity|exact IH].
    + destruct (str_split ch s) as [|h t].
      * repeat constructor. simpl. destruct (decide (c = ch)); [contradiction|reflexivity].
      * inversion IH; subst. constructor; [|assumption].
        simpl. destruct (decide (c = ch)); [contradiction|assumption].
Qed.

Lemma str_rindex_none ch s : str_contains ch s = false -> str_rindex ch s = None.
Proof.
  induction s as [|c s IH]; simpl; intros H; [reflexivity|].
  destruct (decide (c = ch)); [discriminate|]. now rewrite (IH H).
Qed.

Lemma str_rindex_sep b ch cs :
  str_contains ch cs = false ->
  str_rindex ch (b +:+ String ch cs) = Some (String.length b).
Proof.
  intros H. induction b as [|c b IH]; simpl.
  - rewrite (str_rindex_none _ _ H).
    destruct (decide (ch = ch)); [reflexivity|contradiction].
  - now rewrite IH.
Qed.

Lemma str_take_prefix b r : str_take (String.length b) (b +:+ r) = b.
Proof.
  induction b as [|c b IH]; simpl.
  - now destruct r.
  - now rewrite IH.
Qed.

Lemma str_drop_prefix b ch cs :
  str_drop (S (String.length b)) (b +:+ String ch cs) = cs.
Proof. induction b as [|c b IH]; simpl; [reflexivity|exact IH]. Qed.



Lemma name_cycle_suffix b cs c :
  str_contains ";" cs = false -> py_int cs = Ok c ->
  name_cycle (b +:+ String ";" cs) None = Ok (b, Some c).
Proof.
  intros H Hc. unfold name_cycle.
  rewrite str_contains_sep, (str_rindex_sep _ _ _ H), str_drop_prefix, Hc.
  now rewrite str_take_prefix.
Qed.

Lemma str_contains_app ch x y :
  str_contains ch (x +:+ y) = str_contains ch x || str_contains ch y.
Proof.
  induction x as [|c x IH]; simpl; [reflexivity|].
  destruct (decide (c = ch)); [reflexivity|exact IH].
Qed.


(** *** The counter in a title *)







Section ReaderFacts.

#[local] Set Default Proof Using "Type".

Variable decompress : Z -> list byte -> Z -> list byte.
Variable class_env : string -> pyclass.
Variable base_readinto :
  string -> Source -> FileContext -> gmap string pyval -> reader (gmap string pyval).

(** *** Slices and fields *)

Lemma slice_length bs start stop l :
  slice bs start stop = Ok l -> Z.of_nat (length l) = stop - start.
Proof.
  unfold slice. intros H.
  destruct ((0 <=? start) && (start <=? stop) && (stop <=? Z.of_nat (length bs)))
    eqn:E; [|discriminate].
  inversion H; subst; clear H.
  apply andb_prop in E as [E E3]. apply andb_prop in E as [E1 E2].
  apply Z.leb_le in E1, E2, E3.
  rewrite length_take, length_drop. lia.
Qed.

Lemma Source_data_length src start stop l :
  Source_data decompress src start stop = Ok l -> Z.of_nat (length l) = stop - start.
Proof.
  unfold Source_data. destruct (Source_content decompress src); [|discriminate].
  apply slice_length.
Qed.

Lemma Cursor_fields_ok src fmt c bs :
  Source_data decompress src (index c) (index c + Z.of_nat (calcsize fmt)) = Ok bs ->
  Cursor_fields decompress src fmt c
  = Ok (unpack fmt bs, set_index c (index c + Z.of_nat (calcsize fmt))).
Proof. intros H. unfold Cursor_fields. now rewrite H. Qed.

Lemma startcheck_ok src c hdr :
  Source_data decompress src (index c) (index c + 6) = Ok hdr ->
  _startcheck decompress src c
  = Ok ((index c,
         Z.land (be_uint (take 4 hdr)) (Z.lnot kByteCountMask) + 4,
         be_uint (take 2 (drop 4 hdr))),
        set_index c (index c + 6)).
Proof.
  intros H. unfold _startcheck, int_fields. unfold_reader.
  rewrite (Cursor_fields_ok _ _ _ hdr) by exact H.
  reflexivity.
Qed.

Lemma endcheck_ok start cnt c :
  index c - start = cnt -> _endcheck start cnt c = Ok (tt, c).
Proof. intros H. unfold _endcheck. destruct (decide _); [contradiction|reflexivity]. Qed.

Lemma endcheck_raise start cnt c :
  index c - start ≠ cnt -> _endcheck start cnt c = Raise ValueError.
Proof. intros H. unfold _endcheck. destruct (decide _); [reflexivity|contradiction]. Qed.

(** C1. A record framed by the byte-count and version header: when the
    six header bytes [hdr] are there, [_startcheck] returns the index of
    the header's start, the byte count [(cnt & ~kByteCountMask) + 4] and
    the version, and leaves the cursor after the header; [_endcheck]
    raises its error exactly when the distance from the start is not the
    count; so a record whose reading left the cursor at the start plus
    the count passes [_endcheck]. *)
Theorem startcheck_endcheck_framing (src : Source) (cursor : Cursor) (hdr : list byte)
    (Hhdr : Source_data decompress src (index cursor) (index cursor + 6) = Ok hdr) :
  let start := index cursor in
  let cnt := Z.land (be_uint (take 4 hdr)) (Z.lnot kByteCountMask) + 4 in
  let vers := be_uint (take 2 (drop 4 hdr)) in
  _startcheck decompress src cursor = Ok ((start, cnt, vers), set_index cursor (start + 6))
  /\ (forall c start' cnt',
        _endcheck start' cnt' c = Raise ValueError <-> index c - start' ≠ cnt')
  /\ (forall c start' cnt',
        _endcheck start' cnt' c = Ok (tt, c) <-> index c - start' = cnt')
  /\ (forall c, index c = start + cnt -> _endcheck start cnt c = Ok (tt, c)).
Proof.
  intros start cnt vers. split; [|split; [|split]].
  - now apply startcheck_ok.
  - intros c s n. split.
    + intros H E. rewrite (endcheck_ok _ _ _ E) in H. discriminate.
    + apply endcheck_raise.
  - intros c s n. split.
    + intros H. destruct (decide (index c - s = n)) as [E|E]; [exact E|].
      rewrite (endcheck_raise _ _ _ E) in H. discriminate.
    + apply endcheck_ok.
  - intros c H. apply endcheck_ok. lia.
Qed.

(** *** Breaking a successful read into its steps *)

Ltac break_match_in H :=
  match type of H with
  | context [match ?x with _ => _ end] =>
      let E := fresh "E" in
      destruct x eqn:E; try discriminate H
  end.

Ltac break_ok H := unfold_reader; repeat break_match_in H.

Ltac break_hyps :=
  unfold_reader;
  repeat match goal with
    | H : context [match ?x with _ => _ end] |- _ =>
        match type of H with
        | _ = Ok _ => idtac
        | _ = (_, _) => idtac
        end;
        let E := fresh "E" in
        destruct x eqn:E; try discriminate H
    end.

(** *** Undefined and TString *)

Lemma skip_after_startcheck src c hdr n :
  Source_data decompress src (index c) (index c + 6) = Ok hdr ->
  ('(start, cnt, vers) ← _startcheck decompress src; Cursor_skip (cnt - n)) c
  = Ok (tt, set_index c
              (index c + 6
               + (Z.land (be_uint (take 4 hdr)) (Z.lnot kByteCountMask) + 4 - n))).
Proof.
  intros H. unfold_reader. rewrite (startcheck_ok _ _ _ H). reflexivity.
Qed.

(** Skipping [cnt - 6] bytes after the header is what reaches the end of
    a framed record and passes the end check. *)
Lemma framed_skip_passes src c hdr :
  Source_data decompress src (index c) (index c + 6) = Ok hdr ->
  ('(start, cnt, vers) ← _startcheck decompress src;
   Cursor_skip (cnt - 6);;
   _endcheck start cnt) c
  = Ok (tt, set_index c
              (index c + (Z.land (be_uint (take 4 hdr)) (Z.lnot kByteCountMask) + 4))).
Proof.
  intros H. unfold_reader. rewrite (startcheck_ok _ _ _ H). simpl.
  rewrite endcheck_ok by (simpl; lia).
  do 2 f_equal. unfold set_index. simpl. f_equal. lia.
Qed.

(** C5. A key whose class is neither [TDirectory] nor in the class map:
    [TKey.get] does not return a placeholder, the construction of
    [Undefined] with three arguments is a [TypeError]; as a factory
    [Undefined] fails the same way; and the body of
    [Undefined._readinto], run on any framed record, skips [cnt - 2]
    bytes after the six header bytes, stops four bytes past the record's
    end and fails the end check. *)
Theorem Undefined_read_overshoots (key : TKey.t) (src : Source)
    (context : FileContext) (cursor : Cursor) (hdr : list byte)
    (Hdir : TKey.fClassName key ≠ "TDirectory"%string)
    (Hunknown : classes (TKey._context key) !! TKey.fClassName key = None)
    (Hhdr : Source_data decompress src (index cursor) (index cursor + 6) = Ok hdr) :
  let start := index cursor in
  let cnt := Z.land (be_uint (take 4 hdr)) (Z.lnot kByteCountMask) + 4 in
  TKey_get decompress class_env key = (Raise TypeError, key)
  /\ ROOTObject_read Undefined src context cursor = Raise TypeError
  /\ ('(start, cnt, vers) ← _startcheck decompress src; Cursor_skip (cnt - 2)) cursor
     = Ok (tt, set_index cursor (start + cnt + 4))
  /\ Undefined_readinto decompress src cursor = Raise ValueError.
Proof.
  intros start cnt. repeat split.
  - unfold TKey_get. destruct (decide _); [contradiction|]. now rewrite Hunknown.
  - rewrite (skip_after_startcheck _ _ _ 2 Hhdr). do 2 f_equal.
    unfold set_index. f_equal. subst start cnt. lia.
  - unfold Undefined_readinto. unfold_reader.
    rewrite (startcheck_ok _ _ _ Hhdr). simpl.
    apply endcheck_raise. simpl. lia.
Qed.

(** C9. At a cursor where a length-prefixed string [s] is read,
    [TString._readinto] consumes exactly that string and returns a
    [TString] of it, but [TString.read] returns the blank instance, the
    empty string, whatever the payload. *)
Theorem TString_read_drops_payload (src : Source) (context : FileContext)
    (cursor cursor' : Cursor) (s : string)
    (Hs : Cursor_string decompress src cursor = Ok (s, cursor')) :
  TString_readinto decompress (PStr "") src context cursor
  = Ok ((PStr "", PStr s), cursor')
  /\ ROOTObject_read (TString decompress) src context cursor
     = Ok (PStr "", cursor').
Proof.
  split.
  - unfold TString_readinto. unfold_reader. now rewrite Hs.
  - unfold ROOTObject_read, TString, TString_readinto. simpl. unfold_reader.
    now rewrite Hs.
Qed.

(** *** The payload source of a key *)

(** C4. Whenever [TKey._readinto] succeeds: if [fObjlen] differs from
    [fNbytes - fKeylen] the key's source is a decompression window over
    the payload and its cursor is at 0 with origin [-fKeylen]; otherwise
    the source is the file itself and the cursor is at
    [fSeekKey + fKeylen] with origin [fSeekKey], whatever the context's
    compression flag is. *)
Theorem TKey_payload_source (src : Source) (context : FileContext)
    (cursor cursor' : Cursor) (key : TKey.t)
    (Hread : TKey_readinto decompress src context cursor = Ok (key, cursor')) :
  let payload := TKey.fNbytes key - TKey.fKeylen key in
  (TKey.fObjlen key ≠ payload ->
     TKey._source key
     = CompressedSource (compression context) src
         (Cursor_new (TKey.fSeekKey key + TKey.fKeylen key) 0)
         payload (TKey.fObjlen key)
     /\ TKey._cursor key = Cursor_new 0 (- TKey.fKeylen key))
  /\ (TKey.fObjlen key = payload ->
        TKey._source key = src
        /\ TKey._cursor key
           = Cursor_new (TKey.fSeekKey key + TKey.fKeylen key) (TKey.fSeekKey key)).
Proof.
  unfold TKey_readinto in Hread. break_ok Hread.
  all: inversion Hread; subst; clear Hread; simpl in *.
  all: match goal with
       | H : (if decide (?a ≠ ?b) then _ else _) = (_, _) |- _ =>
           destruct (decide (a ≠ b)); inversion H; subst; clear H
       end.
  all: split; intros Hp; try contradiction; try (split; reflexivity).
  all: exfalso; auto.
Qed.

(** *** The tagged-reference decoder *)

Lemma Cursor_fields_cursor src fmt c vs c' :
  Cursor_fields decompress src fmt c = Ok (vs, c') ->
  origin c' = origin c /\ refs c' = refs c.
Proof.
  unfold Cursor_fields. intros H. break_match_in H.
  inversion H; subst. now split.
Qed.

Lemma int_field_cursor src fmt c z c' :
  int_field decompress src fmt c = Ok (z, c') ->
  origin c' = origin c /\ refs c' = refs c.
Proof.
  unfold int_field, Cursor_field. intros H. break_hyps.
  inversion H; subst. inversion E; subst.
  eapply Cursor_fields_cursor; eassumption.
Qed.

Lemma readanyref_tag_cases src c beg vers start tag bcnt c' :
  _readanyref_tag decompress src c = Ok ((beg, vers, start, tag, bcnt), c') ->
  beg = index c - origin c
  /\ origin c' = origin c /\ refs c' = refs c
  /\ ((vers = 0 /\ bcnt = 0 /\ int_field decompress src [c_I] c = Ok (tag, c'))
      \/ (vers = 1
          /\ exists c1, int_field decompress src [c_I] c = Ok (bcnt, c1)
                        /\ int_field decompress src [c_I] c1 = Ok (tag, c'))).
Proof.
  unfold _readanyref_tag. intros H. break_ok H.
  all: inversion H; subst; clear H.
  all: repeat match goal with
         | E : int_field _ _ _ _ = Ok (_, ?k) |- _ =>
             lazymatch goal with
             | _ : origin k = _ |- _ => fail
             | _ => destruct (int_field_cursor _ _ _ _ _ E)
             end
         end.
  - repeat split; auto.
  - repeat split; try congruence.
    right. split; [reflexivity|]. eexists; split; eauto.
Qed.

(** C2. Let the head of [readAnyRef] decode [tag] and [bcnt] ([bcnt] is 0
    for a bare tag and the first word as read for a framed one).  If
    [kClassMask] is clear in the tag, the tag is neither 0 nor 1 and it
    is not in [cursor.refs], the call returns null without raising and
    leaves the cursor at [origin + beg + bcnt + 4], [beg] being
    [index - origin] at entry.  A null comes out of the reference branch
    in no other way than tag 0, a null stored in the table, or this skip;
    tag 1, a class tag missing from the table and a class tag that is not
    a factory of the context all raise. *)
Theorem readanyref_unresolved_skip (src : Source) (context : FileContext)
    (cursor c' : Cursor) (beg vers start tag bcnt : Z)
    (Htag : _readanyref_tag decompress src cursor
            = Ok ((beg, vers, start, tag, bcnt), c')) :
  let ref := Z.land tag (Z.lnot kClassMask) in
  let run := _readanyref decompress class_env src context cursor in
  beg = index cursor - origin cursor
  /\ (Z.land tag kClassMask = 0 -> tag ≠ 0 -> tag ≠ 1 ->
      refs cursor !! tag = None ->
      run = Ok (PNone, set_index c' (origin cursor + beg + bcnt + 4)))
  /\ (forall c'', Z.land tag kClassMask = 0 -> run = Ok (PNone, c'') ->
        tag = 0 \/ refs cursor !! tag = Some PNone
        \/ (tag ≠ 1 /\ refs cursor !! tag = None
            /\ c'' = set_index c' (origin cursor + beg + bcnt + 4)))
  /\ (Z.land tag kClassMask = 0 -> tag = 1 -> run = Raise NotImplementedError)
  /\ (Z.land tag kClassMask ≠ 0 -> tag ≠ kNewClassTag ->
      refs cursor !! ref = None -> run = Raise IOError)
  /\ (forall fct, Z.land tag kClassMask ≠ 0 -> tag ≠ kNewClassTag ->
        refs cursor !! ref = Some fct -> is_factory context fct = false ->
        run = Raise IOError).
Proof.
  intros ref run.
  destruct (readanyref_tag_cases _ _ _ _ _ _ _ _ Htag) as (Hbeg & Ho & Hr & _).
  subst run. unfold _readanyref. unfold_reader. rewrite Htag. cbv beta iota.
  split; [exact Hbeg|].
  split; [|split; [|split; [|split]]].
  - intros Hm H0 H1 Hn.
    destruct (decide _); [|contradiction].
    do 2 (destruct (decide _); [contradiction|]).
    cbv beta. rewrite Hr, Ho, Hn. reflexivity.
  - intros c'' Hm H.
    destruct (decide _); [|contradiction].
    destruct (decide (tag = 0)); [now left|].
    destruct (decide (tag = 1)); [discriminate|].
    cbv beta in H. rewrite Hr, Ho in H.
    destruct (refs cursor !! tag) as [obj|] eqn:El.
    + inversion H; subst. right; left; reflexivity.
    + inversion H; subst. right; right. auto.
  - intros Hm H1.
    destruct (decide _); [|contradiction].
    destruct (decide (tag = 0)); [lia|].
    destruct (decide (tag = 1)); [reflexivity|contradiction].
  - intros Hm Hk Hn.
    destruct (decide _); [contradiction|].
    destruct (decide _); [contradiction|].
    cbv beta. fold ref. rewrite Hr, Hn. reflexivity.
  - intros fct Hm Hk Hs Hf.
    destruct (decide _); [contradiction|].
    destruct (decide _); [contradiction|].
    cbv beta. fold ref. rewrite Hr, Hs, Hf. reflexivity.
Qed.

(** *** Arrays *)

Lemma slice_inv bs a b l :
  slice bs a b = Ok l ->
  0 <= a /\ a <= b /\ b <= Z.of_nat (length bs)
  /\ l = take (Z.to_nat (b - a)) (drop (Z.to_nat a) bs).
Proof.
  unfold slice. intros H.
  destruct ((0 <=? a) && (a <=? b) && (b <=? Z.of_nat (length bs))) eqn:E;
    [|discriminate].
  apply andb_prop in E as [E E3]. apply andb_prop in E as [E1 E2].
  apply Z.leb_le in E1, E2, E3. inversion H. auto.
Qed.

Lemma slice_intro bs a b :
  0 <= a -> a <= b -> b <= Z.of_nat (length bs) ->
  slice bs a b = Ok (take (Z.to_nat (b - a)) (drop (Z.to_nat a) bs)).
Proof.
  intros H1 H2 H3. unfold slice.
  apply Z.leb_le in H1, H2, H3. now rewrite H1, H2, H3.
Qed.

Lemma slice_slice bs a b l x y :
  slice bs a b = Ok l -> 0 <= x -> x <= y -> y <= b - a ->
  slice bs (a + x) (a + y)
  = Ok (take (Z.to_nat (y - x)) (drop (Z.to_nat x) l)).
Proof.
  intros H Hx Hxy Hy. apply slice_inv in H as (Ha & Hab & Hb & ->).
  rewrite slice_intro by lia. f_equal.
  rewrite skipn_firstn_comm, take_take, drop_drop.
  replace (a + y - (a + x)) with (y - x) by lia.
  f_equal; [lia|]. f_equal. lia.
Qed.


Lemma chunks_length sz n bs : length (chunks sz n bs) = n.
Proof. revert bs. induction n; intros bs; simpl; [reflexivity|]. now rewrite IHn. Qed.


Lemma Cursor_bytes_inv src n c bs c' :
  Cursor_bytes decompress src n c = Ok (bs, c') ->
  Source_data decompress src (index c) (index c + n) = Ok bs
  /\ c' = set_index c (index c + n).
Proof.
  unfold Cursor_bytes. intros H. break_match_in H. inversion H; subst. auto.
Qed.


(** *** TStreamerElement *)

Lemma Cursor_fields_index src fmt c vs c' :
  Cursor_fields decompress src fmt c = Ok (vs, c') ->
  index c' = index c + Z.of_nat (calcsize fmt).
Proof.
  unfold Cursor_fields. intros H. break_match_in H. now inversion H.
Qed.

Lemma int_field_index src fmt c z c' :
  int_field decompress src fmt c = Ok (z, c') ->
  index c' = index c + Z.of_nat (calcsize fmt).
Proof.
  unfold int_field, Cursor_field. intros H. break_hyps.
  inversion H; subst. inversion E; subst.
  eapply Cursor_fields_index; eassumption.
Qed.


(** *** Directory lookup *)

Lemma key_matches_test name cycle k :
  bool_decide (TKey.fName k = name)
  && match cycle with
     | None => true
     | Some c => bool_decide (TKey.fCycle k = c)
     end = true
  <-> key_matches name cycle k.
Proof.
  unfold key_matches. rewrite andb_true_iff, bool_decide_eq_true.
  destruct cycle as [c|].
  - rewrite bool_decide_eq_true. split.
    + intros [H1 H2]. split; [exact H1|]. intros c' Hc. now inversion Hc; subst.
    + intros [H1 H2]. split; [exact H1|]. now apply H2.
  - split; intros [H1 H2]; split; auto. intros c Hc. discriminate.
Qed.



(** A name without [/] takes the second branch of [get] at any depth. *)
Lemma get_depth_plain depth self name cycle :
  str_contains "/" name = false ->
  ROOTDirectory_get_depth decompress class_env (S depth) self name cycle
  = match name_cycle name cycle with
    | Ok (name', cycle') =>
        let '(r, keys') :=
          scan_keys decompress class_env (ROOTDirectory._keys self) name' cycle' in
        (r, ROOTDirectory.mk (ROOTDirectory.name self)
              (ROOTDirectory._context self) keys')
    | Raise e => (Raise e, self)
    end.
Proof. intros H. simpl. now rewrite H. Qed.

Lemma get_segments_ext f g out ns :
  Forall (fun n => forall d, f d n = g d n) ns ->
  get_segments f out ns = get_segments g out ns.
Proof.
  intros H. revert out. induction H as [|n ns Hn Hns IH]; intros out; simpl;
    [reflexivity|].
  destruct out as [d|o]; [|reflexivity].
  rewrite Hn. destruct (g d n); [apply IH|reflexivity].
Qed.

Lemma get_depth_S depth self name cycle :
  ROOTDirectory_get_depth decompress class_env (S depth) self name cycle
  = if str_contains "/" name then
      match str_split "/" name with
      | [] => (Ok (GDir self), self)
      | n :: ns =>
          let '(r, self') :=
            ROOTDirectory_get_depth decompress class_env depth self n cycle in
          match r with
          | Ok out =>
              (get_segments
                 (fun d n' =>
                    fst (ROOTDirectory_get_depth decompress class_env depth d n' cycle))
                 out ns, self')
          | Raise e => (Raise e, self')
          end
      end
    else
      match name_cycle name cycle with
      | Ok (name', cycle') =>
          let '(r, keys') :=
            scan_keys decompress class_env (ROOTDirectory._keys self) name' cycle' in
          (r, ROOTDirectory.mk (ROOTDirectory.name self)
                (ROOTDirectory._context self) keys')
      | Raise e => (Raise e, self)
      end.
Proof. reflexivity. Qed.

Lemma get_depth_plain_eq d1 d2 self name cycle :
  str_contains "/" name = false ->
  ROOTDirectory_get_depth decompress class_env (S d1) self name cycle
  = ROOTDirectory_get_depth decompress class_env (S d2) self name cycle.
Proof. intros H. now rewrite !(get_depth_plain _ _ _ _ H). Qed.

(** [get] never needs more than two nested calls. *)
Lemma get_depth_enough depth self name cycle :
  ROOTDirectory_get_depth decompress class_env (S (S depth)) self name cycle
  = ROOTDirectory_get decompress class_env self name cycle.
Proof.
  unfold ROOTDirectory_get.
  rewrite (get_depth_S (S depth)), (get_depth_S 1).
  destruct (str_contains "/" name) eqn:E; [|reflexivity].
  pose proof (str_split_segments "/" name) as Hseg.
  destruct (str_split "/" name) as [|n ns]; [reflexivity|].
  inversion Hseg as [|? ? Hn Hns]; subst.
  rewrite (get_depth_plain_eq depth 0 _ _ _ Hn).
  destruct (ROOTDirectory_get_depth decompress class_env 1 self n cycle) as [r self'].
  destruct r as [out|e]; [|reflexivity].
  f_equal. apply get_segments_ext.
  eapply Forall_impl; [exact Hns|].
  intros m Hm d. cbv beta in Hm. now rewrite (get_depth_plain_eq depth 0 _ _ _ Hm).
Qed.




(** *** One block read against field-by-field reads *)

Lemma slice_split bs a s1 s2 :
  0 <= s1 -> 0 <= s2 ->
  slice bs a (a + s1 + s2)
  = match slice bs a (a + s1) with
    | Ok b1 =>
        match slice bs (a + s1) (a + s1 + s2) with
        | Ok b2 => Ok (b1 ++ b2)
        | Raise e => Raise e
        end
    | Raise e => Raise e
    end.
Proof.
  intros H1 H2.
  destruct (slice bs a (a + s1 + s2)) as [l|e] eqn:E.
  - pose proof (slice_inv _ _ _ _ E) as (Ha & Hab & Hb & Hl).
    assert (E1 : slice bs (a + 0) (a + s1)
                 = Ok (take (Z.to_nat (s1 - 0)) (drop (Z.to_nat 0) l)))
      by (apply (slice_slice bs a (a + s1 + s2)); [exact E|lia..]).
    assert (E2 : slice bs (a + s1) (a + (s1 + s2))
                 = Ok (take (Z.to_nat (s1 + s2 - s1)) (drop (Z.to_nat s1) l)))
      by (apply (slice_slice bs a (a + s1 + s2)); [exact E|lia..]).
    replace (a + 0) with a in E1 by lia.
    replace (a + (s1 + s2)) with (a + s1 + s2) in E2 by lia.
    rewrite E1, E2. f_equal.
    rewrite Z.sub_0_r. change (Z.to_nat 0) with 0%nat. rewrite drop_0.
    replace (s1 + s2 - s1) with s2 by lia.
    pose proof (slice_length _ _ _ _ E) as Hlen.
    rewrite (take_ge (drop (Z.to_nat s1) l)) by (rewrite length_drop; lia).
    symmetry. apply take_drop.
  - unfold slice in *.
    destruct ((0 <=? a) && (a <=? a + s1 + s2) && (a + s1 + s2 <=? Z.of_nat (length bs)))
      eqn:C; [discriminate|].
    inversion E; subst.
    destruct ((0 <=? a) && (a <=? a + s1) && (a + s1 <=? Z.of_nat (length bs)))
      eqn:C1; [|reflexivity].
    destruct ((0 <=? a + s1) && (a + s1 <=? a + s1 + s2)
              && (a + s1 + s2 <=? Z.of_nat (length bs))) eqn:C2; [|reflexivity].
    exfalso.
    apply andb_prop in C1 as [C1 C13]. apply andb_prop in C1 as [C11 C12].
    apply andb_prop in C2 as [C2 C23].
    rewrite C11, C23 in C. simpl in C. rewrite andb_true_r in C.
    apply Z.leb_gt in C. lia.
Qed.

Lemma Source_data_split src a s1 s2 :
  0 <= s1 -> 0 <= s2 ->
  Source_data decompress src a (a + s1 + s2)
  = match Source_data decompress src a (a + s1) with
    | Ok b1 =>
        match Source_data decompress src (a + s1) (a + s1 + s2) with
        | Ok b2 => Ok (b1 ++ b2)
        | Raise e => Raise e
        end
    | Raise e => Raise e
    end.
Proof.
  intros H1 H2. unfold Source_data.
  destruct (Source_content decompress src); [|reflexivity].
  now apply slice_split.
Qed.

Lemma unpack_length fmt bs : length (unpack fmt bs) = length fmt.
Proof. revert bs. induction fmt; intros bs; simpl; [reflexivity|]. now rewrite IHfmt. Qed.

(** A format read in one block is its first field and then the rest. *)
Lemma Cursor_fields_cons src c fmt cur :
  Cursor_fields decompress src (c :: fmt) cur
  = (v ← Cursor_field decompress src [c];
     vs ← Cursor_fields decompress src fmt;
     mret (v :: vs)) cur.
Proof.
  unfold Cursor_field. unfold_reader. unfold Cursor_fields.
  simpl calcsize. rewrite Nat.add_0_r.
  replace (index cur + Z.of_nat (code_size c + calcsize fmt))
    with (index cur + Z.of_nat (code_size c) + Z.of_nat (calcsize fmt)) by lia.
  rewrite Source_data_split by lia.
  destruct (Source_data decompress src (index cur) (index cur + Z.of_nat (code_size c)))
    as [b1|e] eqn:E1; [|reflexivity].
  simpl. pose proof (Source_data_length _ _ _ _ E1) as Hlen.
  destruct (Source_data decompress src (index cur + Z.of_nat (code_size c))
              (index cur + Z.of_nat (code_size c) + Z.of_nat (calcsize fmt)))
    as [b2|e]; [|reflexivity].
  assert (Hb1 : length b1 = code_size c) by lia.
  rewrite take_app_length' by (symmetry; exact Hb1).
  rewrite drop_app_length' by (symmetry; exact Hb1).
  rewrite take_ge by lia. reflexivity.
Qed.

(** Assigning a batch from one block read is reading and assigning its
    fields one at a time. *)
Lemma fields_read_each src targets codes f cur :
  length targets = length codes -> codes ≠ [] ->
  (vs ← Cursor_fields decompress src codes;
   if decide (length vs = length targets)
   then mret (assign_all targets vs f)
   else raise ValueError) cur
  = read_each decompress src targets codes f cur.
Proof.
  revert targets f cur.
  induction codes as [|c codes IH]; intros targets f cur Hlen Hne; [contradiction|].
  destruct targets as [|t ts]; [discriminate|].
  simpl in Hlen. injection Hlen as Hlen.
  destruct codes as [|c2 cs].
  - destruct ts; [|discriminate]. simpl.
    unfold Cursor_field. unfold_reader.
    destruct (Cursor_fields decompress src [c] cur) as [[vs cur']|e] eqn:E;
      [|reflexivity].
    pose proof (unpack_length [c]) as Hl.
    unfold Cursor_fields in E. break_match_in E. inversion E; subst.
    reflexivity.
  - specialize (IH ts). simpl read_each.
    unfold_reader. rewrite Cursor_fields_cons. unfold_reader.
    destruct (Cursor_field decompress src [c] cur) as [[v cur1]|e]; [|reflexivity].
    rewrite <- (IH (assign t v f) cur1 Hlen ltac:(discriminate)).
    destruct (Cursor_fields decompress src (c2 :: cs) cur1) as [[vs cur2]|e];
      [|reflexivity].
    simpl. repeat destruct (decide _); try reflexivity; simpl in *; lia.
Qed.

Lemma read_each_snoc src targets codes t c f cur :
  length targets = length codes ->
  read_each decompress src (targets ++ [t]) (codes ++ [c]) f cur
  = (f' ← read_each decompress src targets codes f;
     v ← Cursor_field decompress src [c];
     mret (assign t v f')) cur.
Proof.
  revert codes f cur. induction targets as [|t0 ts IH]; intros codes f cur Hlen.
  - destruct codes; [|discriminate]. simpl. unfold_reader.
    now destruct (Cursor_field decompress src [c] cur) as [[v c']|e].
  - destruct codes as [|c0 cs]; [discriminate|]. simpl in *.
    unfold_reader.
    destruct (Cursor_field decompress src [c0] cur) as [[v c']|e]; [|reflexivity].
    apply IH. lia.
Qed.

(** *** Running generated bodies *)

Lemma exec_body_app F D src context b1 b2 f c :
  exec_body decompress class_env base_readinto F D src context (b1 ++ b2) f c
  = (f' ← exec_body decompress class_env base_readinto F D src context b1 f;
     exec_body decompress class_env base_readinto F D src context b2 f') c.
Proof.
  revert f c. induction b1 as [|s b1 IH]; intros f c; simpl; [reflexivity|].
  unfold_reader.
  destruct (exec_stmt decompress class_env base_readinto F D src context s f c)
    as [[f1 c1]|e]; [|reflexivity].
  apply IH.
Qed.

Lemma exec_body_one F D src context s f c :
  exec_body decompress class_env base_readinto F D src context [s] f c
  = exec_stmt decompress class_env base_readinto F D src context s f c.
Proof.
  simpl. unfold_reader.
  now destruct (exec_stmt decompress class_env base_readinto F D src context s f c)
    as [[f1 c1]|e].
Qed.

Lemma exec_field F D src context t cls k fmt codes f c :
  F !! format_key k = Some fmt -> Struct fmt = Some codes ->
  exec_stmt decompress class_env base_readinto F D src context (SField t cls k) f c
  = (v ← Cursor_field decompress src codes; mret (assign t v f)) c.
Proof. intros H1 H2. simpl. now rewrite H1, H2. Qed.

Lemma exec_fields F D src context ts cls k fmt codes f c :
  F !! format_key k = Some fmt -> Struct fmt = Some codes ->
  exec_stmt decompress class_env base_readinto F D src context (SFields ts cls k) f c
  = (vs ← Cursor_fields decompress src codes;
     if decide (length vs = length ts)
     then mret (assign_all ts vs f)
     else raise ValueError) c.
Proof. intros H1 H2. simpl. now rewrite H1, H2. Qed.

(** *** The dictionary of formats *)

Lemma format_key_inj a b : format_key a = format_key b -> a = b.
Proof.
  unfold format_key. intros H. simpl in H. inversion H as [H'].
  change (pretty a = pretty b) in H'. now apply pretty_nat_inj in H'.
Qed.

Lemma formats_fresh_empty : formats_fresh ∅.
Proof. intros k _. apply lookup_empty. Qed.

Lemma formats_fresh_next (F : gmap string string) :
  formats_fresh F -> F !! format_key (size F + 1) = None.
Proof. intros H. apply H. lia. Qed.

Lemma formats_fresh_insert (F : gmap string string) v :
  formats_fresh F -> formats_fresh (<[format_key (size F + 1) := v]> F).
Proof.
  intros H k Hk.
  rewrite map_size_insert_None in Hk by now apply formats_fresh_next.
  rewrite lookup_insert_ne.
  - apply H. lia.
  - intros E. apply format_key_inj in E. lia.
Qed.

Lemma formats_insert_subseteq (F : gmap string string) v :
  formats_fresh F -> F ⊆ <[format_key (size F + 1) := v]> F.
Proof. intros H. apply insert_subseteq. now apply formats_fresh_next. Qed.

Lemma formats_lookup_new (F F' : gmap string string) v :
  <[format_key (size F + 1) := v]> F ⊆ F' ->
  F' !! format_key (size F + 1) = Some v.
Proof.
  intros H. eapply lookup_weaken; [|exact H]. apply lookup_insert_eq.
Qed.

(** *** Format letters *)

Lemma basic_letter_code ty l :
  basic_letter ty = Some l ->
  exists a code, l = String a EmptyString /\ letter_code a = Some code.
Proof.
  unfold basic_letter. intros H.
  repeat match type of H with
         | (if decide ?P then _ else _) = _ => destruct (decide P)
         end;
    inversion H; subst; do 2 eexists; split; reflexivity.
Qed.

Lemma letters_codes_snoc l a cs code :
  letters_codes l = Some cs -> letter_code a = Some code ->
  letters_codes (l ++ [a]) = Some (cs ++ [code]).
Proof.
  revert cs. induction l as [|x l IH]; intros cs H Ha; simpl in *.
  - inversion H; subst. now rewrite Ha.
  - destruct (letter_code x); [|discriminate].
    destruct (letters_codes l) as [cs'|]; [|discriminate].
    inversion H; subst. now rewrite (IH cs' eq_refl Ha).
Qed.

Lemma list_ascii_of_string_snoc s a :
  list_ascii_of_string (s +:+ String a EmptyString)
  = list_ascii_of_string s ++ [a].
Proof. induction s as [|c s IH]; simpl; [reflexivity|]. now rewrite IH. Qed.

Lemma Struct_bang letters :
  Struct ("!" +:+ letters) = letters_codes (list_ascii_of_string letters).
Proof. reflexivity. Qed.

(** *** The batch and the field-by-field reference *)

Lemma line_read_each F D src context cls k letters names codes f c :
  F !! format_key k = Some ("!" +:+ letters) ->
  letters_codes (list_ascii_of_string letters) = Some codes ->
  length names = length codes -> codes ≠ [] ->
  exec_stmt decompress class_env base_readinto F D src context
    (match names with
     | [one] => SField one cls k
     | _ => SFields names cls k
     end) f c
  = read_each decompress src names codes f c.
Proof.
  intros HF Hcodes Hlen Hne.
  destruct names as [|n1 [|n2 ns]].
  - destruct codes; [contradiction|discriminate].
  - destruct codes as [|c1 [|c2 cs]]; try discriminate.
    rewrite (exec_field _ _ _ _ _ _ _ _ _ _ _ HF Hcodes). reflexivity.
  - rewrite (exec_fields _ _ _ _ _ _ _ _ _ _ _ HF Hcodes).
    now apply fields_read_each.
Qed.

(** Statements that do the same are appended to both bodies while no
    scalar is waiting. *)
Lemma batch_inv_append sb su pcodes stb stu Fb' Fu' bs ds nu lu :
  batch_inv decompress class_env base_readinto sb su pcodes ->
  basicnames sb = [] ->
  formats sb ⊆ Fb' -> formats su ⊆ Fu' ->
  formats_fresh Fb' -> formats_fresh Fu' ->
  (forall Fb Fu D src context f c, Fb' ⊆ Fb -> Fu' ⊆ Fu ->
     exec_body decompress class_env base_readinto Fu D src context stu f c
     = exec_body decompress class_env base_readinto Fb D src context stb f c) ->
  batch_inv decompress class_env base_readinto
    (mkSynth (code sb ++ stb) bs Fb' ds (basicnames sb) (basicletters sb))
    (mkSynth (code su ++ stu) bs Fu' ds nu lu) pcodes.
Proof.
  intros (Hb & Hd & Hfb & Hfu & Hl & Hlen & Hexec) Hnames Hsb Hsu Hfb' Hfu' Hst.
  unfold batch_inv. simpl.
  repeat split; try assumption.
  intros Fb Fu D src context f c HFb HFu.
  unfold_reader. rewrite !exec_body_app. unfold_reader.
  rewrite (Hexec Fb Fu D src context f c) by (etrans; eassumption).
  rewrite Hnames. simpl. unfold_reader.
  destruct (exec_body decompress class_env base_readinto Fb D src context (code sb) f c)
    as [[f1 c1]|e]; [|reflexivity].
  rewrite (Hst Fb Fu D src context f1 c1 HFb HFu).
  now destruct (exec_body decompress class_env base_readinto Fb D src context stb f1 c1)
    as [[f2 c2]|e].
Qed.

Lemma batch_closes_false elements i :
  batch_closes elements i = false ->
  exists next, elements !! (i + 1)%nat = Some next
               /\ class next = StreamerBasicType /\ fArrayLength next = 0.
Proof.
  unfold batch_closes. intros H.
  apply orb_false_elim in H as [_ H].
  destruct (elements !! (i + 1)%nat) as [next|]; [|discriminate].
  apply orb_false_elim in H as [H1 H2].
  apply negb_false_iff, bool_decide_eq_true in H1, H2.
  eauto.
Qed.

Lemma synth_element_equiv cls elements i e sb su pcodes :
  batch_inv decompress class_env base_readinto sb su pcodes ->
  (basicnames sb ≠ [] -> class e = StreamerBasicType /\ fArrayLength e = 0) ->
  match synth_element cls elements i e sb, synth_element_individual cls e su with
  | Ok sb', Ok su' =>
      exists pcodes',
        batch_inv decompress class_env base_readinto sb' su' pcodes'
        /\ (basicnames sb' ≠ [] ->
            exists next, elements !! (i + 1)%nat = Some next
                         /\ class next = StreamerBasicType
                         /\ fArrayLength next = 0)
  | Raise e1, Raise e2 => e1 = e2
  | _, _ => False
  end.
Proof.
  intros Hinv Hpend.
  pose proof Hinv as (Hb & Hd & Hfb & Hfu & Hl & Hlen & Hexec).
  assert (Hidle : class e ≠ StreamerBasicType -> basicnames sb = []).
  { intros Hc. destruct (basicnames sb); [reflexivity|].
    destruct Hpend as [Hp _]; [discriminate|contradiction]. }
  unfold synth_element_individual, synth_element, add_code.
  destruct (class e) eqn:Hc; try reflexivity.
  - (* TStreamerBase *)
    specialize (Hidle ltac:(discriminate)).
    exists pcodes. rewrite <- Hb, <- Hd. split; [|now rewrite Hidle].
    apply batch_inv_append; auto.
  - (* TStreamerBasicPointer *)
    specialize (Hidle ltac:(discriminate)).
    destruct (re_search_counter (fTitle e)) as [counter|]; [|reflexivity].
    destruct (decide _); [|reflexivity].
    destruct (pointer_dtype _) as [dt|]; [|reflexivity].
    exists pcodes. rewrite <- Hb, <- Hd. rewrite <- !(assoc_L (++)). simpl.
    split; [|now rewrite Hidle].
    apply batch_inv_append; auto using formats_insert_subseteq, formats_fresh_insert.
    intros Fb Fu D src context f c HFb HFu. simpl.
    rewrite (formats_lookup_new _ _ _ HFb), (formats_lookup_new _ _ _ HFu).
    reflexivity.
  - (* TStreamerBasicType *)
    destruct (decide (fArrayLength e = 0)); [|reflexivity].
    destruct (basic_letter (fType e)) as [l|] eqn:El; [|reflexivity].
    destruct (basic_letter_code _ _ El) as (a & cd & -> & Ha).
    assert (Hl' : letters_codes
                    (list_ascii_of_string (basicletters sb +:+ String a EmptyString))
                  = Some (pcodes ++ [cd])).
    { rewrite list_ascii_of_string_snoc. now apply letters_codes_snoc. }
    assert (Hlen' : length (basicnames sb ++ ["self." +:+ fName e])
                    = length (pcodes ++ [cd])).
    { rewrite !length_app. simpl. lia. }
    assert (Hone : Struct ("!" +:+ String a EmptyString) = Some [cd]).
    { rewrite Struct_bang. simpl. now rewrite Ha. }
    assert (Hstep : forall Fb Fu D src context f c,
               formats sb ⊆ Fb ->
               <[format_key (size (formats su) + 1) := "!" +:+ String a EmptyString]>
                 (formats su) ⊆ Fu ->
               exec_body decompress class_env base_readinto Fu D src context
                 (code su ++ [SField ("self." +:+ fName e) cls (size (formats su) + 1)])
                 f c
               = (f' ← exec_body decompress class_env base_readinto Fb D src context
                         (code sb) f;
                  read_each decompress src (basicnames sb ++ ["self." +:+ fName e])
                    (pcodes ++ [cd]) f') c).
    { intros Fb Fu D src context f c HFb HFu.
      rewrite exec_body_app. unfold_reader.
      rewrite (Hexec Fb Fu D src context f c HFb)
        by (etrans; [now apply formats_insert_subseteq|exact HFu]).
      unfold_reader.
      destruct (exec_body decompress class_env base_readinto Fb D src context
                  (code sb) f c) as [[f1 c1]|x0]; [|reflexivity].
      rewrite read_each_snoc by exact Hlen. unfold_reader.
      destruct (read_each decompress src (basicnames sb) pcodes f1 c1)
        as [[f2 c2]|x0]; [|reflexivity].
      rewrite exec_body_one.
      rewrite (exec_field _ _ _ _ _ _ _ _ _ _ _ (formats_lookup_new _ _ _ HFu) Hone).
      reflexivity. }
    destruct (batch_closes elements i) eqn:Hcl.
    + exists []. split; [|intros H; now contradiction H].
      unfold batch_inv. simpl.
      repeat split; auto using formats_fresh_insert.
      intros Fb Fu D src context f c HFb HFu.
      assert (HFb0 : formats sb ⊆ Fb)
        by (etrans; [now apply formats_insert_subseteq|exact HFb]).
      rewrite (Hstep Fb Fu D src context f c HFb0 HFu).
      unfold_reader. rewrite exec_body_app. unfold_reader.
      destruct (exec_body decompress class_env base_readinto Fb D src context
                  (code sb) f c) as [[f1 c1]|x0]; [|reflexivity].
      rewrite exec_body_one.
      assert (Hne : pcodes ++ [cd] ≠ []) by (now destruct pcodes).
      rewrite (line_read_each _ _ _ _ _ _ _ _ _ _ _ (formats_lookup_new _ _ _ HFb)
                 Hl' Hlen' Hne).
      now destruct (read_each decompress src _ _ f1 c1) as [[f2 c2]|x0].
    + exists (pcodes ++ [cd]). split; [|intros _; now apply batch_closes_false].
      unfold batch_inv. simpl.
      repeat split; auto using formats_fresh_insert.
  - (* TStreamerObject *)
    specialize (Hidle ltac:(discriminate)).
    exists pcodes. split; [|now rewrite Hidle].
    rewrite <- Hb, <- Hd. apply batch_inv_append; auto.
  - (* TStreamerObjectAny *)
    specialize (Hidle ltac:(discriminate)).
    exists pcodes. split; [|now rewrite Hidle].
    rewrite <- Hb, <- Hd. apply batch_inv_append; auto.
  - (* TStreamerObjectPointer *)
    specialize (Hidle ltac:(discriminate)).
    destruct (decide _); [|destruct (decide _); [|reflexivity]].
    + exists pcodes. split; [|now rewrite Hidle].
      rewrite <- Hb, <- Hd. apply batch_inv_append; auto.
    + exists pcodes. split; [|now rewrite Hidle].
      rewrite <- Hb, <- Hd. apply batch_inv_append; auto.
  - (* TStreamerString *)
    specialize (Hidle ltac:(discriminate)).
    exists pcodes. split; [|now rewrite Hidle].
    rewrite <- Hb, <- Hd. apply batch_inv_append; auto.
Qed.

Lemma synth_loop_equiv cls elements rest :
  forall i sb su pcodes,
    drop i elements = rest ->
    batch_inv decompress class_env base_readinto sb su pcodes ->
    (basicnames sb ≠ [] ->
     exists e, elements !! i = Some e
               /\ class e = StreamerBasicType /\ fArrayLength e = 0) ->
    match synth_loop cls elements i rest sb, synth_loop_individual cls rest su with
    | Ok sb', Ok su' =>
        batch_inv decompress class_env base_readinto sb' su' [] /\ basicnames sb' = []
    | Raise e1, Raise e2 => e1 = e2
    | _, _ => False
    end.
Proof.
  induction rest as [|e rest IH]; intros i sb su pcodes Hdrop Hinv Hpend; simpl.
  - assert (Hnames : basicnames sb = []).
    { destruct (basicnames sb) eqn:En; [reflexivity|].
      destruct Hpend as (e & He & _); [discriminate|].
      assert (Hd : drop i elements !! 0%nat = Some e)
        by (rewrite lookup_drop, Nat.add_0_r; exact He).
      rewrite Hdrop in Hd. discriminate. }
    split; [|exact Hnames].
    destruct Hinv as (Hb & Hd & Hfb & Hfu & Hl & Hlen & Hexec).
    rewrite Hnames in Hlen. destruct pcodes; [|discriminate].
    repeat split; try assumption. now rewrite Hnames.
  - assert (He : elements !! i = Some e).
    { rewrite <- (Nat.add_0_r i), <- lookup_drop, Hdrop. reflexivity. }
    assert (Hrest : drop (S i) elements = rest).
    { rewrite (drop_S _ _ _ He) in Hdrop. now inversion Hdrop. }
    assert (Hpend' : basicnames sb ≠ [] ->
                     class e = StreamerBasicType /\ fArrayLength e = 0).
    { intros Hn. destruct (Hpend Hn) as (e' & He' & H1 & H2).
      rewrite He in He'. inversion He'; subst. auto. }
    pose proof (synth_element_equiv cls elements i e sb su pcodes Hinv Hpend') as Hstep.
    destruct (synth_element cls elements i e sb) as [sb'|e1];
      destruct (synth_element_individual cls e su) as [su'|e2];
      try contradiction; [|exact Hstep].
    destruct Hstep as (pcodes' & Hinv' & Hnext).
    apply (IH (S i) sb' su' pcodes' Hrest Hinv').
    rewrite Nat.add_1_r in Hnext. exact Hnext.
Qed.

(** C8. The class the synthesizer writes, with its runs of scalar basic
    types coalesced into one multi-field decode each, and the class that
    decodes every scalar element on its own, in order: the two are
    written for the same element lists and fail with the same error on
    the others, they have the same name and bases, and their [_readinto]
    bodies leave the same attributes, locals and cursor, or raise the
    same error, on every source, receiver and cursor. *)
Theorem batching_preserves_decoding (classname : string)
    (fElements : list TStreamerElement.t) :
  match synthesize classname fElements, synthesize_individual classname fElements with
  | Ok batched, Ok individual =>
      g_name batched = g_name individual
      /\ g_bases batched = g_bases individual
      /\ g_dtypes batched = g_dtypes individual
      /\ forall src context f c,
           generated_readinto decompress class_env base_readinto batched src context f c
           = generated_readinto decompress class_env base_readinto individual
               src context f c
  | Raise e1, Raise e2 => e1 = e2
  | _, _ => False
  end.
Proof.
  unfold synthesize, synthesize_individual.
  set (st0 := mkSynth [SStartcheck] [] ∅ ∅ [] EmptyString).
  assert (Hinv0 : batch_inv decompress class_env base_readinto st0 st0 []).
  { unfold batch_inv. simpl.
    repeat split; auto using formats_fresh_empty.
    intros Fb Fu D src context f c _ _. unfold_reader.
    now destruct (_startcheck decompress src c) as [[[[start cnt] vers] c1]|e]. }
  pose proof (synth_loop_equiv classname fElements fElements 0 st0 st0 []
                eq_refl Hinv0 ltac:(intros H; now contradiction H)) as Hloop.
  destruct (synth_loop classname fElements 0 fElements st0) as [sb|e1];
    destruct (synth_loop_individual classname fElements st0) as [su|e2];
    try contradiction; [|exact Hloop].
  destruct Hloop as ((Hb & Hd & Hfb & Hfu & Hl & Hlen & Hexec) & Hnames).
  simpl. rewrite Hb, Hd.
  repeat split.
  intros src context f c. unfold generated_readinto. simpl.
  rewrite !exec_body_app. unfold_reader.
  rewrite (Hexec (formats sb) (formats su) (dtypes su) src context f c) by reflexivity.
  rewrite Hnames. unfold_reader.
  destruct (exec_body decompress class_env base_readinto (formats sb) (dtypes su)
              src context (code sb) f c) as [[f1 c1]|e]; reflexivity.
Qed.

End ReaderFacts.

Lemma startcheck_endcheck_framing_witness :
  _startcheck stored framed_example (Cursor_new 0 0)
  = Ok ((0, 6, 1), set_index (Cursor_new 0 0) 6).
Proof.
  exact (proj1 (startcheck_endcheck_framing stored framed_example (Cursor_new 0 0)
                  (bytes_of [0x40; 0; 0; 2; 0; 1]) eq_refl)).
Defined.

Lemma Undefined_read_overshoots_witness :
  TKey_get stored example_env unknown_key = (Raise TypeError, unknown_key)
  /\ Undefined_readinto stored framed_example (Cursor_new 0 0) = Raise ValueError.
Proof.
  pose proof (Undefined_read_overshoots stored example_env unknown_key
                framed_example empty_context (Cursor_new 0 0)
                (bytes_of [0x40; 0; 0; 2; 0; 1])
                ltac:(discriminate) eq_refl eq_refl) as H.
  exact (conj (proj1 H) (proj2 (proj2 (proj2 H)))).
Defined.

Lemma TString_read_drops_payload_witness :
  ROOTObject_read (TString stored) abc_example empty_context (Cursor_new 0 0)
  = Ok (PStr "", set_index (Cursor_new 0 0) 4).
Proof.
  exact (proj2 (TString_read_drops_payload stored abc_example empty_context
                  (Cursor_new 0 0) (set_index (Cursor_new 0 0) 4) "abc" eq_refl)).
Defined.

Lemma TKey_payload_source_witness :
  TKey._source key_example_read = key_example
  /\ TKey._cursor key_example_read = Cursor_new 130 100.
Proof.
  exact (proj2 (TKey_payload_source stored key_example compressing_context
                  (Cursor_new 0 0) (set_index (Cursor_new 0 0) 36)
                  key_example_read eq_refl) eq_refl).
Defined.

Lemma readanyref_unresolved_skip_witness :
  _readanyref stored example_env dangling_ref_example empty_context (Cursor_new 0 0)
  = Ok (PNone, set_index (Cursor_new 0 0) (0 + 0 + 0x40000009 + 4)).
Proof.
  pose proof (readanyref_unresolved_skip stored example_env dangling_ref_example
                empty_context (Cursor_new 0 0) (set_index (Cursor_new 0 0) 8)
                0 1 4 5 0x40000009 eq_refl) as H.
  apply (proj1 (proj2 H)); [reflexivity|discriminate|discriminate|reflexivity].
Defined.





(** The class text written for [event_elements]: the two leading scalars
    share one format, the scalar after the array has its own. *)
Example synthesize_event_text :
  (match synthesize "Event" event_elements with
   | Ok g => stmt_text <$> g_body g
   | Raise _ => []
   end)
  = [ "        start, cnt, vers = _startcheck(source, cursor)";
      "        TNamed._readinto(self, source, cursor, context)";
      "        self.fN, self.fX = cursor.fields(source, Event._format1)";
      "        _fArr = cursor.field(source, Event._format2)";
      "        self.fArr = cursor.array(source, self.fN, self._dtype1)";
      "        self.fFlag = cursor.field(source, Event._format3)";
      "        _endcheck(start, cursor, cnt)" ]%string.
Proof. vm_compute. reflexivity. Qed.

(** The formats of the hand-written readers, as the source spells them. *)
Example formats_as_written :
  Struct "!IH" = Some _format_cntvers
  /\ Struct "!ihiIhh" = Some TKey_format1
  /\ Struct "!ii" = Some TKey_format2_small
  /\ Struct "!qq" = Some TKey_format2_big
  /\ Struct "!hIIii" = Some ROOTDirectory_format3
  /\ Struct "!iii" = Some ROOTDirectory_format4_small
  /\ Struct "!qqq" = Some ROOTDirectory_format4_big
  /\ Struct "!iiii" = Some TStreamerElement_format1
  /\ Struct "!ddd" = Some TStreamerElement_format3.
Proof. repeat split. Qed.

(** Both the batched and the field-by-field class read [counted_example]
    to its end and find the same fields. *)
Example counted_example_read :
  forall g, In (Ok g) [synthesize "Event" counted_elements;
                       synthesize_individual "Event" counted_elements] ->
  exists f c,
    generated_readinto stored example_env no_bases g counted_example
      empty_context (mkFrame ∅ ∅) (Cursor_new 0 0) = Ok (f, c)
    /\ index c = 22
    /\ self_attrs f !! "fN"%string = Some (PInt 2)
    /\ self_attrs f !! "fX"%string = Some (PInt 7)
    /\ self_attrs f !! "fArr"%string = Some (PList [PInt 5; PInt 6])
    /\ self_attrs f !! "fFlag"%string = Some (PBool true).
Proof.
  intros g [H|[H|[]]]; vm_compute in H; inversion H; subst; clear H;
    do 2 eexists; (split; [vm_compute; reflexivity|]);
    repeat split; vm_compute; reflexivity.
Qed.

(** The class text for a basic pointer whose title is [[]]: the line that
    reads the array names no counter. *)
Example empty_counter_text :
  (match synthesize "Event" [empty_counter_element] with
   | Ok g => class_text g
   | Raise _ => []
   end)
  = [ "class Event(ROOTStreamedObject):";
      "    @staticmethod";
      "    def _readinto(self, source, cursor, context):";
      "        start, cnt, vers = _startcheck(source, cursor)";
      "        _fArr = cursor.field(source, Event._format1)";
      "        self.fArr = cursor.array(source, self., self._dtype1)";
      "        _endcheck(start, cursor, cnt)";
      "    _format1 = struct.Struct('!B')";
      "    _dtype1 = numpy.dtype('>i4')" ]%string.
Proof. vm_compute. reflexivity. Qed.

(** * Further properties *)

(** *** Decimal numbers *)

Lemma digit_cases d : 0 <= d < 10 ->
  d = 0 \/ d = 1 \/ d = 2 \/ d = 3 \/ d = 4 \/ d = 5 \/ d = 6 \/ d = 7 \/ d = 8 \/ d = 9.
Proof. lia. Qed.

Lemma digit_val_char d : 0 <= d < 10 -> digit_val (digit_char d) = Some d.
Proof.
  intros H. destruct (digit_cases d H) as [->|[->|[->|[->|[->|[->|[->|[->|[->| ->]]]]]]]]];
    reflexivity.
Qed.

Lemma digits_val_app s1 s2 acc :
  digits_val acc (s1 +:+ s2)
  = match digits_val acc s1 with
    | Some a => digits_val a s2
    | None => None
    end.
Proof.
  revert acc. induction s1 as [|c s1 IH]; intros acc; simpl; [reflexivity|].
  destruct (digit_val c); [apply IH|reflexivity].
Qed.

Lemma decimal_digits_val fuel n acc :
  0 <= n -> (Z.to_nat n < fuel)%nat ->
  exists k, 0 <= k /\ digits_val acc (decimal_digits fuel n) = Some (acc * 10 ^ k + n).
Proof.
  revert n acc. induction fuel as [|fuel IH]; intros n acc Hn Hf; [lia|].
  simpl. destruct (n <? 10) eqn:E.
  - apply Z.ltb_lt in E. exists 1. split; [lia|]. simpl.
    rewrite digit_val_char by lia. f_equal.
  - apply Z.ltb_ge in E.
    assert (Hq : 0 <= n / 10 < n).
    { split; [apply Z.div_pos; lia|apply Z.div_lt; lia]. }
    destruct (IH (n / 10) acc) as (k & Hk & Hv); [lia|lia|].
    exists (k + 1). split; [lia|].
    rewrite digits_val_app, Hv. simpl.
    rewrite digit_val_char by (apply Z.mod_pos_bound; lia).
    f_equal. rewrite Z.pow_add_r by lia.
    pose proof (Z.div_mod n 10). lia.
Qed.

Lemma str_contains_digit ch d :
  0 <= d < 10 -> digit_val ch = None -> digit_char d ≠ ch.
Proof. intros Hd Hc E. subst. rewrite digit_val_char in Hc by exact Hd. discriminate. Qed.

Lemma str_contains_app_false ch x y :
  str_contains ch x = false -> str_contains ch y = false ->
  str_contains ch (x +:+ y) = false.
Proof.
  induction x as [|c x IH]; simpl; intros Hx Hy; [exact Hy|].
  destruct (decide (c = ch)); [discriminate|auto].
Qed.

Lemma decimal_digits_contains ch fuel n :
  0 <= n -> digit_val ch = None -> str_contains ch (decimal_digits fuel n) = false.
Proof.
  intros Hn Hc. revert n Hn. induction fuel as [|fuel IH]; intros n Hn; [reflexivity|].
  simpl. destruct (n <? 10) eqn:E.
  - apply Z.ltb_lt in E. simpl.
    destruct (decide _) as [e|]; [|reflexivity].
    exfalso. eapply (str_contains_digit ch n); eauto; lia.
  - apply Z.ltb_ge in E. apply str_contains_app_false.
    + apply IH. apply Z.div_pos; lia.
    + simpl. destruct (decide _) as [e|]; [|reflexivity].
      exfalso. eapply (str_contains_digit ch (n mod 10)); eauto.
      apply Z.mod_pos_bound; lia.
Qed.

(** [str(n)] holds no character that is not a digit, the sign of a
    negative number apart. *)
Lemma py_str_int_contains ch z :
  digit_val ch = None -> ch ≠ "-"%char -> str_contains ch (py_str_int z) = false.
Proof.
  intros Hc Hm. unfold py_str_int. destruct (z <? 0) eqn:E.
  - apply Z.ltb_lt in E. cbn [str_contains].
    destruct (decide _) as [e|]; [congruence|].
    apply decimal_digits_contains; [lia|exact Hc].
  - apply Z.ltb_ge in E. apply decimal_digits_contains; [lia|exact Hc].
Qed.

Lemma str_rstrip_keeps s :
  (forall c, is_space c = true -> str_contains c s = false) -> str_rstrip s = s.
Proof.
  induction s as [|c s IH]; intros H; [reflexivity|].
  simpl. rewrite IH.
  - destruct s; [|reflexivity].
    destruct (is_space c) eqn:E; [|reflexivity].
    specialize (H c E). simpl in H. destruct (decide (c = c)); congruence.
  - intros c' Hc'. specialize (H c' Hc'). simpl in H.
    destruct (decide (c = c')); [discriminate|exact H].
Qed.

Lemma is_space_not_digit c : is_space c = true -> digit_val c = None.
Proof.
  unfold is_space, digit_val. intros H.
  destruct ((48 <=? Z.of_N (N_of_ascii c)) && (Z.of_N (N_of_ascii c) <=? 57)) eqn:E;
    [|reflexivity].
  exfalso. apply andb_prop in E as [E1 E2]. apply Z.leb_le in E1, E2.
  apply orb_prop in H as [H|H].
  - apply andb_prop in H as [_ H]. apply N.leb_le in H. lia.
  - apply N.eqb_eq in H. lia.
Qed.

Lemma decimal_digits_head fuel n :
  0 <= n -> exists c s, decimal_digits (S fuel) n = String c s /\ digit_val c <> None.
Proof.
  revert n. induction fuel as [|fuel IH]; intros n Hn.
  - simpl. destruct (n <? 10) eqn:E.
    + apply Z.ltb_lt in E. eexists _, _. split; [reflexivity|].
      rewrite digit_val_char by lia. discriminate.
    + apply Z.ltb_ge in E. simpl. eexists _, _. split; [reflexivity|].
      rewrite digit_val_char by (apply Z.mod_pos_bound; lia). discriminate.
  - change (decimal_digits (S (S fuel)) n)
      with (if n <? 10 then String (digit_char n) EmptyString
            else decimal_digits (S fuel) (n / 10)
                   +:+ String (digit_char (n mod 10)) EmptyString).
    destruct (n <? 10) eqn:E.
    + apply Z.ltb_lt in E. eexists _, _. split; [reflexivity|].
      rewrite digit_val_char by lia. discriminate.
    + apply Z.ltb_ge in E.
      destruct (IH (n / 10)) as (c & s & -> & Hc); [apply Z.div_pos; lia|].
      simpl. eexists _, _. split; [reflexivity|exact Hc].
Qed.

Lemma unsigned_int_decimal n :
  0 <= n -> unsigned_int (decimal_digits (S (Z.to_nat n)) n) = Ok n.
Proof.
  intros Hn. unfold unsigned_int.
  destruct (decimal_digits_head (Z.to_nat n) n Hn) as (c & s & E & _).
  destruct (decimal_digits_val (S (Z.to_nat n)) n 0 Hn) as (k & _ & Hv); [lia|].
  rewrite E in *. rewrite Hv. f_equal.
Qed.

(** [int(str(n)) == n]. *)
Lemma py_int_py_str_int z : py_int (py_str_int z) = Ok z.
Proof.
  unfold py_int. rewrite str_rstrip_keeps.
  2:{ intros c Hc. apply py_str_int_contains.
      - now apply is_space_not_digit.
      - intros ->. discriminate Hc. }
  unfold py_str_int. destruct (z <? 0) eqn:E.
  - apply Z.ltb_lt in E. cbn [str_lstrip is_space].
    change (is_space "-") with false. cbv iota.
    rewrite unsigned_int_decimal by lia. f_equal. lia.
  - apply Z.ltb_ge in E.
    destruct (decimal_digits_head (Z.to_nat z) z E) as (c & s & Es & Hc).
    pose proof (unsigned_int_decimal z E) as Hu. rewrite Es in *.
    assert (Hsp : is_space c = false).
    { destruct (is_space c) eqn:S; [|reflexivity].
      apply is_space_not_digit in S. contradiction. }
    simpl. rewrite Hsp.
    destruct (decide (c = "-"%char)) as [->|N1]; [exfalso; apply Hc; reflexivity|].
    destruct (decide (c = "+"%char)) as [->|N2]; [exfalso; apply Hc; reflexivity|].
    destruct c as [[] [] [] [] [] [] [] []]; try exact Hu; congruence.
Qed.

Section ListingFacts.

#[local] Set Default Proof Using "Type".

Variable decompress : Z -> list byte -> Z -> list byte.
Variable class_env : string -> pyclass.

Lemma scan_keys_found pre k post name cycle :
  Forall (fun k' => ¬ key_matches name cycle k') pre ->
  key_matches name cycle k ->
  scan_keys decompress class_env (pre ++ k :: post) name cycle
  = (fst (TKey_get decompress class_env k),
     pre ++ snd (TKey_get decompress class_env k) :: post).
Proof.
  intros Hpre Hk. induction Hpre as [|k' pre Hk' Hpre IH]; simpl.
  - apply key_matches_test in Hk. rewrite Hk.
    now destruct (TKey_get decompress class_env k).
  - destruct (_ && _) eqn:E.
    + apply key_matches_test in E. contradiction.
    + rewrite IH. reflexivity.
Qed.

Lemma withcycle_ok k n :
  _withcycle k = Ok n ->
  n = TKey.fName k +:+ String ";" (py_str_int (TKey.fCycle k))
  /\ is_ascii (TKey.fName k) = true.
Proof.
  unfold _withcycle, decode_ascii. destruct (is_ascii (TKey.fName k)); [|discriminate].
  intros H. inversion H. split; reflexivity.
Qed.

(** X1. Every name that [keys()] yields is found again by [get]: for a
    key whose name holds no [/], [get] on the key's [name;cycle] returns
    what the [get] of the first key with that name and that cycle
    returns, and only that key is touched. *)
Theorem keys_get_roundtrip (self : ROOTDirectory.t) (pre post : list TKey.t)
    (k : TKey.t) (n : string) :
  ROOTDirectory._keys self = pre ++ k :: post ->
  Forall (fun k' => ¬ (TKey.fName k' = TKey.fName k
                       /\ TKey.fCycle k' = TKey.fCycle k)) pre ->
  str_contains "/" (TKey.fName k) = false ->
  _withcycle k = Ok n ->
  ROOTDirectory_get decompress class_env self n None
  = (fst (TKey_get decompress class_env k),
     ROOTDirectory.mk (ROOTDirectory.name self) (ROOTDirectory._context self)
       (pre ++ snd (TKey_get decompress class_env k) :: post)).
Proof.
  intros Hkeys Hpre Hslash Hn.
  apply withcycle_ok in Hn as [-> _].
  assert (Hsemi : str_contains ";" (py_str_int (TKey.fCycle k)) = false)
    by (apply py_str_int_contains; [reflexivity|discriminate]).
  assert (Hsl : str_contains "/" (py_str_int (TKey.fCycle k)) = false)
    by (apply py_str_int_contains; [reflexivity|discriminate]).
  unfold ROOTDirectory_get. rewrite get_depth_plain.
  2:{ rewrite str_contains_app, Hslash. simpl. exact Hsl. }
  rewrite (name_cycle_suffix _ _ (TKey.fCycle k) Hsemi (py_int_py_str_int _)).
  rewrite Hkeys, scan_keys_found; [reflexivity| |].
  - eapply Forall_impl; [exact Hpre|]. intros k' Hk' [H1 H2]. apply Hk'.
    split; [exact H1|]. now apply H2.
  - split; [reflexivity|]. intros c Hc. now inversion Hc.
Qed.

Lemma keys_step depth key keys' recursive fn fc :
  ROOTDirectory_keys decompress class_env (S depth) (key :: keys') recursive fn fc
  = let own : yielded string :=
      if fn (TKey.fName key) && fc (TKey.fClassName key)
      then match _withcycle key with
           | Ok n => ([n], None)
           | Raise e => ([], Some e)
           end
      else ([], None) in
    match own with
    | (ys, Some e) => ((ys, Some e), key :: keys')
    | (ys, None) =>
        if recursive && bool_decide (TKey.fClassName key = "TDirectory"%string)
        then
          match TKey_get decompress class_env key with
          | (Ok (GDir d), key') =>
              let '((subs, err), _) :=
                ROOTDirectory_keys decompress class_env depth (ROOTDirectory._keys d)
                  recursive fn fc in
              match subs, _withcycle key with
              | _ :: _, Raise e => ((ys, Some e), key' :: keys')
              | _, prefix =>
                  let names :=
                    match prefix with
                    | Ok p => (fun n => p +:+ "/" +:+ n) <$> subs
                    | Raise _ => []
                    end in
                  match err with
                  | Some e => ((ys ++ names, Some e), key' :: keys')
                  | None =>
                      let '((rest, err'), keys'') :=
                        ROOTDirectory_keys decompress class_env (S depth) keys'
                          recursive fn fc in
                      ((ys ++ names ++ rest, err'), key' :: keys'')
                  end
              end
          | (Ok (GObj _), key') => ((ys, Some AttributeError), key' :: keys')
          | (Raise e, key') => ((ys, Some e), key' :: keys')
          end
        else
          let '((rest, err'), keys'') :=
            ROOTDirectory_keys decompress class_env (S depth) keys' recursive fn fc in
          ((ys ++ rest, err'), key :: keys'')
    end.
Proof. reflexivity. Qed.

(** X2. Without recursion, and with recursion over keys none of which is
    a [TDirectory], [keys] yields the [name;cycle] of every key that
    passes both filters, once and in stored order, raises nothing and
    reads nothing: the keys are left as they were. *)
Theorem keys_lists_in_order (depth : nat) (keys : list TKey.t) (recursive : bool)
    (filtername filterclass : string -> bool) :
  (recursive = true ->
   Forall (fun k => TKey.fClassName k ≠ "TDirectory"%string) keys) ->
  Forall (fun k => filtername (TKey.fName k) && filterclass (TKey.fClassName k) = true ->
                   is_ascii (TKey.fName k) = true) keys ->
  ROOTDirectory_keys decompress class_env (S depth) keys recursive
    filtername filterclass
  = ((map (fun k => TKey.fName k +:+ ";" +:+ py_str_int (TKey.fCycle k))
        (List.filter (fun k => filtername (TKey.fName k)
                               && filterclass (TKey.fClassName k)) keys),
      None), keys).
Proof.
  intros Hrec Hascii. induction keys as [|k keys IH]; [reflexivity|].
  rewrite keys_step.
  assert (Hflat : recursive && bool_decide (TKey.fClassName k = "TDirectory"%string)
                  = false).
  { destruct recursive; [|reflexivity]. simpl.
    specialize (Hrec eq_refl). inversion Hrec; subst.
    now apply bool_decide_eq_false. }
  rewrite Hflat.
  rewrite IH.
  2:{ intros Hr. specialize (Hrec Hr). now inversion Hrec. }
  2:{ now inversion Hascii. }
  cbn [List.filter].
  destruct (filtername (TKey.fName k) && filterclass (TKey.fClassName k)) eqn:E.
  - inversion Hascii as [|? ? Hk _]; subst. specialize (Hk E).
    unfold _withcycle, decode_ascii. rewrite Hk. reflexivity.
  - reflexivity.
Qed.


End ListingFacts.

Section FramingFacts.

#[local] Set Default Proof Using "Type".

Variable decompress : Z -> list byte -> Z -> list byte.
Variable class_env : string -> pyclass.

Ltac break_match_in H :=
  match type of H with
  | context [match ?x with _ => _ end] =>
      let E := fresh "E" in
      destruct x eqn:E; try discriminate H
  end.

Ltac break_ok H := unfold_reader; repeat break_match_in H.

Ltac break_hyps :=
  unfold_reader;
  repeat match goal with
    | H : context [match ?x with _ => _ end] |- _ =>
        match type of H with
        | _ = Ok _ => idtac
        | _ = (_, _) => idtac
        end;
        let E := fresh "E" in
        destruct x eqn:E; try discriminate H
    end.

(** A cursor is its three fields. *)
Lemma cursor_eq c c' :
  index c' = index c -> origin c' = origin c -> refs c' = refs c -> c' = c.
Proof. destruct c, c'. simpl. congruence. Qed.

Lemma Cursor_fields_inv src fmt c vs c' :
  Cursor_fields decompress src fmt c = Ok (vs, c') ->
  c' = set_index c (index c + Z.of_nat (calcsize fmt))
  /\ length vs = length fmt.
Proof.
  unfold Cursor_fields. intros H. break_match_in H. inversion H; subst.
  split; [reflexivity|apply unpack_length].
Qed.

Lemma as_ints_length vs zs : as_ints vs = Some zs -> length zs = length vs.
Proof.
  revert zs. induction vs as [|v vs IH]; simpl; intros zs H.
  - now inversion H.
  - destruct (as_int v); [|discriminate]. destruct (as_ints vs); [|discriminate].
    inversion H; subst. simpl. f_equal. now apply IH.
Qed.

Lemma int_fields_inv src fmt c zs c' :
  int_fields decompress src fmt c = Ok (zs, c') ->
  c' = set_index c (index c + Z.of_nat (calcsize fmt))
  /\ length zs = length fmt.
Proof.
  unfold int_fields. intros H. break_ok H. inversion H; subst.
  apply Cursor_fields_inv in E as [-> E]. split; [reflexivity|].
  erewrite as_ints_length by eassumption. exact E.
Qed.

Lemma int_field_inv src fmt c z c' :
  int_field decompress src fmt c = Ok (z, c') ->
  c' = set_index c (index c + Z.of_nat (calcsize fmt)).
Proof.
  intros H. destruct (int_field_cursor _ _ _ _ _ _ H) as [Ho Hr].
  apply int_field_index in H. apply cursor_eq; simpl; assumption.
Qed.

Lemma Cursor_bytes_ok src n c bs c' :
  Cursor_bytes decompress src n c = Ok (bs, c') ->
  c' = set_index c (index c + n) /\ Z.of_nat (length bs) = n.
Proof.
  unfold Cursor_bytes. intros H. break_match_in H. inversion H; subst.
  split; [reflexivity|]. apply Source_data_length in E. lia.
Qed.

(** A string is read forwards: the cursor only moves on, and only its
    index changes. *)
Lemma Cursor_string_inv src c s c' :
  Cursor_string decompress src c = Ok (s, c') ->
  index c < index c' /\ origin c' = origin c /\ refs c' = refs c.
Proof.
  unfold Cursor_string. intros H. unfold_reader.
  destruct (int_field decompress src [c_B] c) as [[n c1]|] eqn:E1; [|discriminate].
  apply int_field_inv in E1 as ->.
  match type of H with
  | context [(if ?b then ?f else ?g) ?k] =>
      destruct ((if b then f else g) k) as [[m c2]|] eqn:E2; [|discriminate]
  end.
  destruct (Cursor_bytes decompress src m c2) as [[bs c3]|] eqn:E3; [|discriminate].
  inversion H; subst; clear H.
  apply Cursor_bytes_ok in E3 as [-> Hm].
  destruct (n =? 255).
  - apply int_field_inv in E2 as ->. unfold calcsize. simpl. repeat split; lia.
  - inversion E2; subst. unfold calcsize. simpl. repeat split; lia.
Qed.

Lemma startcheck_inv src c start cnt vers c' :
  _startcheck decompress src c = Ok ((start, cnt, vers), c') ->
  start = index c /\ c' = set_index c (index c + 6).
Proof.
  unfold _startcheck. intros H. break_ok H. inversion H; subst.
  apply int_fields_inv in E as [-> _]. split; reflexivity.
Qed.

Lemma endcheck_inv start cnt c u c' :
  _endcheck start cnt c = Ok (u, c') -> c' = c /\ index c = start + cnt.
Proof.
  unfold _endcheck. intros H. destruct (decide _); [discriminate|].
  inversion H; subst. split; [reflexivity|].
  destruct (decide (index c' - start = cnt)); [lia|contradiction].
Qed.

Lemma land_lor_on_heap b :
  Z.land (Z.lor b kIsOnHeap) kIsReferenced = Z.land b kIsReferenced.
Proof.
  rewrite Z.land_lor_distr_l.
  change (Z.land kIsOnHeap kIsReferenced) with 0. apply Z.lor_0_r.
Qed.

Lemma skiptobj_eq src c :
  _skiptobj decompress src c
  = match int_field decompress src [c_h] c with
    | Ok (version, _) =>
        let k := index c + 2
                 + (if decide (Z.land version kByteCountVMask ≠ 0) then 4 else 0) in
        match int_fields decompress src [c_I; c_I] (set_index c k) with
        | Ok ([_; fBits], _) =>
            Ok (tt, set_index c
                      (k + 8 + (if decide (Z.land fBits kIsReferenced ≠ 0)
                                then 2 else 0)))
        | Ok _ => Raise TypeError
        | Raise e => Raise e
        end
    | Raise e => Raise e
    end.
Proof.
  unfold _skiptobj. unfold_reader.
  destruct (int_field decompress src [c_h] c) as [[version c1]|] eqn:E1;
    [|reflexivity].
  apply int_field_inv in E1 as ->. cbv zeta.
  assert (Hk : forall k,
             match int_fields decompress src [c_I; c_I] (set_index c k) with
             | Ok (fs, c3) =>
                 match fs with
                 | [_; fBits] =>
                     if decide (Z.land (Z.lor fBits kIsOnHeap) kIsReferenced ≠ 0)
                     then Cursor_skip 2
                     else fun c => Ok (tt, c)
                 | _ => fun _ => Raise TypeError
                 end c3
             | Raise e => Raise e
             end
             = match int_fields decompress src [c_I; c_I] (set_index c k) with
               | Ok ([_; fBits], _) =>
                   Ok (tt, set_index c
                             (k + 8 + (if decide (Z.land fBits kIsReferenced ≠ 0)
                                       then 2 else 0)))
               | Ok _ => Raise TypeError
               | Raise e => Raise e
               end).
  { intros k.
    destruct (int_fields decompress src [c_I; c_I] (set_index c k))
      as [[fs c3]|] eqn:E2; [|reflexivity].
    apply int_fields_inv in E2 as [-> _].
    destruct fs as [|u [|b [|? ?]]]; try reflexivity.
    rewrite land_lor_on_heap.
    destruct (decide (Z.land b kIsReferenced ≠ 0)).
    - reflexivity.
    - unfold set_index, calcsize. simpl. do 3 f_equal. lia. }
  destruct (decide (Z.land version kByteCountVMask ≠ 0)).
  - rewrite <- Hk. reflexivity.
  - rewrite <- Hk. replace (index c + 2 + 0) with (index c + 2) by lia. reflexivity.
Qed.

Lemma skiptobj_cursor src c u c' :
  _skiptobj decompress src c = Ok (u, c') ->
  index c + 10 <= index c' <= index c + 16
  /\ origin c' = origin c /\ refs c' = refs c.
Proof.
  rewrite skiptobj_eq. intros H.
  destruct (int_field decompress src [c_h] c) as [[version c1]|]; [|discriminate].
  cbv zeta in H.
  match type of H with
  | context [int_fields decompress src ?f ?k] =>
      destruct (int_fields decompress src f k) as [[fs c2]|]; [|discriminate]
  end.
  destruct fs as [|a [|b [|? ?]]]; try discriminate.
  inversion H; subst; clear H. simpl.
  repeat split; repeat destruct (decide _); lia.
Qed.

(** X4. What [_skiptobj] consumes: the two bytes of the version, four
    more when the version has [kByteCountVMask], the eight bytes of
    [fUniqueID] and [fBits], and two more when [fBits] as stored has
    [kIsReferenced]; setting [kIsOnHeap] first changes nothing.  Only
    the index of the cursor changes. *)
Theorem skiptobj_consumes (src : Source) (c c' : Cursor) :
  _skiptobj decompress src c = Ok (tt, c') ->
  exists version fUniqueID fBits c1 c2,
    int_field decompress src [c_h] c = Ok (version, c1)
    /\ int_fields decompress src [c_I; c_I]
         (set_index c (index c + 2
                       + (if decide (Z.land version kByteCountVMask ≠ 0)
                          then 4 else 0)))
       = Ok ([fUniqueID; fBits], c2)
    /\ c' = set_index c
              (index c + 10
               + (if decide (Z.land version kByteCountVMask ≠ 0) then 4 else 0)
               + (if decide (Z.land fBits kIsReferenced ≠ 0) then 2 else 0)).
Proof.
  rewrite skiptobj_eq. intros H.
  destruct (int_field decompress src [c_h] c) as [[version c1]|] eqn:E1;
    [|discriminate].
  cbv zeta in H.
  match type of H with
  | context [int_fields decompress src ?f ?k] =>
      destruct (int_fields decompress src f k) as [[fs c2]|] eqn:E2; [|discriminate]
  end.
  destruct fs as [|u [|b [|? ?]]]; try discriminate.
  inversion H; subst; clear H.
  exists version, u, b, c1, c2. split; [reflexivity|]. split; [exact E2|].
  f_equal. lia.
Qed.

(** A name and a title move the index of the cursor and nothing else. *)
Lemma nametitle_cursor src c nt c' :
  _nametitle decompress src c = Ok (nt, c') ->
  origin c' = origin c /\ refs c' = refs c.
Proof.
  unfold _nametitle. intros H. unfold_reader.
  destruct (_startcheck decompress src c) as [[[[start cnt] vers] c1]|] eqn:E1;
    [|discriminate].
  destruct (_skiptobj decompress src c1) as [[[] c2]|] eqn:E2; [|discriminate].
  destruct (Cursor_string decompress src c2) as [[n c3]|] eqn:E3; [|discriminate].
  destruct (Cursor_string decompress src c3) as [[t c4]|] eqn:E4; [|discriminate].
  destruct (_endcheck start cnt c4) as [[[] c5]|] eqn:E5; [|discriminate].
  inversion H; subst; clear H.
  destruct (startcheck_inv _ _ _ _ _ _ E1) as [_ ->].
  destruct (endcheck_inv _ _ _ _ _ E5) as [-> _].
  destruct (skiptobj_cursor _ _ _ _ E2) as (_ & Ho2 & Hr2).
  destruct (Cursor_string_inv _ _ _ _ E3) as (_ & Ho3 & Hr3).
  destruct (Cursor_string_inv _ _ _ _ E4) as (_ & Ho4 & Hr4).
  simpl in *. split; congruence.
Qed.

(** X5. A name and a title read by [_nametitle] fill their frame: when
    the call succeeds the cursor is [cnt] bytes past where the header
    began, [cnt] being what [_startcheck] made of the header, both
    strings lie inside the frame, and nothing but the index of the
    cursor changes. *)
Theorem nametitle_framed (src : Source) (c c' : Cursor) (name title : string) :
  _nametitle decompress src c = Ok ((name, title), c') ->
  exists cnt vers c1 c2 c3,
    _startcheck decompress src c = Ok ((index c, cnt, vers), c1)
    /\ _skiptobj decompress src c1 = Ok (tt, c2)
    /\ Cursor_string decompress src c2 = Ok (name, c3)
    /\ Cursor_string decompress src c3 = Ok (title, c')
    /\ c' = set_index c (index c + cnt)
    /\ 18 <= cnt.
Proof.
  unfold _nametitle. intros H. unfold_reader.
  destruct (_startcheck decompress src c) as [[[[start cnt] vers] c1]|] eqn:E1;
    [|discriminate].
  destruct (_skiptobj decompress src c1) as [[[] c2]|] eqn:E2; [|discriminate].
  destruct (Cursor_string decompress src c2) as [[n c3]|] eqn:E3; [|discriminate].
  destruct (Cursor_string decompress src c3) as [[t c4]|] eqn:E4; [|discriminate].
  destruct (_endcheck start cnt c4) as [[[] c5]|] eqn:E5; [|discriminate].
  inversion H; subst; clear H.
  destruct (startcheck_inv _ _ _ _ _ _ E1) as [-> Hc1].
  destruct (endcheck_inv _ _ _ _ _ E5) as [-> Hend].
  destruct (skiptobj_cursor _ _ _ _ E2) as (Hs & Ho2 & Hr2).
  destruct (Cursor_string_inv _ _ _ _ E3) as (H3 & Ho3 & Hr3).
  destruct (Cursor_string_inv _ _ _ _ E4) as (H4 & Ho4 & Hr4).
  exists cnt, vers, c1, c2, c3. repeat split; try assumption.
  - apply cursor_eq; simpl; subst c1; simpl in *; congruence.
  - subst c1. simpl in *. lia.
Qed.

End FramingFacts.

Section ElementFacts.

#[local] Set Default Proof Using "Type".

Variable decompress : Z -> list byte -> Z -> list byte.
Variable class_env : string -> pyclass.

Ltac step H a c E :=
  match type of H with
  | match ?t with _ => _ end = _ =>
      destruct t as [[a c]|] eqn:E; [|discriminate H]
  end.

Lemma Cursor_array_inv src n dt c vs c' :
  Cursor_array decompress src n dt c = Ok (vs, c') ->
  c' = set_index c (index c + n * Z.of_nat (code_size dt))
  /\ length vs = Z.to_nat n.
Proof.
  unfold Cursor_array. unfold_reader. intros H.
  destruct (Cursor_bytes decompress src _ c) as [[bs c1]|] eqn:E; [|discriminate].
  inversion H; subst; clear H.
  apply Cursor_bytes_inv in E as [_ ->].
  split; [reflexivity|]. now rewrite length_map, chunks_length.
Qed.

(** A streamer element is read inside its frame. *)
Lemma element_readinto_frame self src c el c' :
  TStreamerElement_readinto decompress self src c = Ok (el, c') ->
  exists cnt vers c1,
    _startcheck decompress src c = Ok ((index c, cnt, vers), c1)
    /\ c' = set_index c (index c + cnt).
Proof.
  unfold TStreamerElement_readinto. intros H. unfold_reader.
  destruct (_startcheck decompress src c) as [[[[start cnt] vers] c1]|] eqn:E1;
    [|discriminate].
  destruct (_nametitle decompress src c1) as [[[n t] c2]|] eqn:E2; [|discriminate].
  destruct (int_fields decompress src TStreamerElement_format1 c2)
    as [[fs c3]|] eqn:E3; [|discriminate].
  destruct fs as [|ty [|sz [|al [|ad [|? ?]]]]];
    try (cbv beta iota in H; discriminate H).
  cbv beta iota in H.
  step H mi c4 E4.
  destruct (Cursor_string decompress src c4) as [[tn c5]|] eqn:E5; [|discriminate].
  step H xs c6 E6.
  destruct xs as [|x1 [|x2 [|x3 [|? ?]]]]; try (cbv beta iota in H; discriminate H).
  cbv beta iota in H.
  destruct (_endcheck start cnt c6) as [[[] c7]|] eqn:E7; [|discriminate].
  inversion H; subst; clear H.
  pose proof E1 as T1. apply startcheck_inv in T1 as [-> ->].
  pose proof E7 as T2. apply endcheck_inv in T2 as [-> Hend].
  apply nametitle_cursor in E2 as [Ho2 Hr2].
  apply int_fields_inv in E3 as [-> _].
  apply Cursor_string_inv in E5 as (_ & Ho5 & Hr5).
  assert (H4 : origin c4 = origin c2 /\ refs c4 = refs c2).
  { destruct (decide (vers = 1)).
    - destruct (int_field decompress src TStreamerElement_format2 _)
        as [[k c3']|] eqn:E8; [|discriminate].
      apply int_field_inv in E8 as ->.
      apply Cursor_array_inv in E4 as [-> _]. split; reflexivity.
    - apply Cursor_array_inv in E4 as [-> _]. split; reflexivity. }
  assert (H6 : origin c6 = origin c5 /\ refs c6 = refs c5).
  { destruct (decide (vers = 3)).
    - apply Cursor_fields_inv in E6 as [-> _]. split; reflexivity.
    - inversion E6; subst. split; reflexivity. }
  destruct H4 as [Ho4 Hr4]. destruct H6 as [Ho6 Hr6].
  exists cnt, vers, (set_index c (index c + 6)). split; [reflexivity|].
  simpl in *. apply cursor_eq; simpl; congruence.
Qed.

(** X6. A streamer element fills its frame: when
    [TStreamerElement._readinto] succeeds, the cursor is [cnt] bytes past
    the start of the record's header and nothing else of the cursor has
    changed; the instance keeps its class, [fOffset] is 0, and the range
    [fXmin], [fXmax], [fFactor] is zero unless the record's version is
    3. *)
Theorem TStreamerElement_framed (self el : TStreamerElement.t) (src : Source)
    (c c' : Cursor) :
  TStreamerElement_readinto decompress self src c = Ok (el, c') ->
  exists cnt vers c1,
    _startcheck decompress src c = Ok ((index c, cnt, vers), c1)
    /\ c' = set_index c (index c + cnt)
    /\ class el = class self
    /\ fOffset el = 0
    /\ (vers ≠ 3 ->
        fXmin el = PFloat64 0 /\ fXmax el = PFloat64 0 /\ fFactor el = PFloat64 0).
Proof.
  intros H.
  destruct (element_readinto_frame _ _ _ _ _ H) as (cnt & vers & c1 & Hs & Hc).
  exists cnt, vers, c1. split; [exact Hs|]. split; [exact Hc|].
  unfold TStreamerElement_readinto in H. unfold_reader. rewrite Hs in H.
  step H nt c2 E2. destruct nt as [n t].
  step H fs c3 E3.
  destruct fs as [|ty [|sz [|al [|ad [|? ?]]]]];
    try (cbv beta iota in H; discriminate H).
  cbv beta iota in H.
  step H mi c4 E4. step H tn c5 E5. step H xs c6 E6.
  destruct xs as [|x1 [|x2 [|x3 [|? ?]]]]; try (cbv beta iota in H; discriminate H).
  cbv beta iota in H.
  destruct (_endcheck (index c) cnt c6) as [[[] c7]|]; [|discriminate].
  inversion H; subst; clear H. simpl.
  split; [reflexivity|]. split; [reflexivity|]. intros Hv.
  destruct (decide (vers = 3)); [contradiction|].
  inversion E6; subst. repeat split.
Qed.

(** X7. The subclasses that add no field of their own
    ([TStreamerArtificial], [TStreamerObject], [TStreamerObjectAny],
    [TStreamerObjectAnyPointer], [TStreamerObjectPointer],
    [TStreamerString]) read a frame of their own around the record of the
    base class: when the read succeeds, the base class's record starts
    six bytes in, the byte count of the outer frame is the inner one
    plus 6, and the element is the one the base class read. *)
Theorem TStreamerWrapped_frames (self el : TStreamerElement.t) (src : Source)
    (c c' : Cursor) :
  TStreamerWrapped_readinto decompress self src c = Ok (el, c') ->
  exists cnt vers c1 cnt' vers' c2,
    _startcheck decompress src c = Ok ((index c, cnt, vers), c1)
    /\ _startcheck decompress src c1 = Ok ((index c + 6, cnt', vers'), c2)
    /\ TStreamerElement_readinto decompress self src c1 = Ok (el, c')
    /\ cnt = cnt' + 6
    /\ c' = set_index c (index c + cnt).
Proof.
  unfold TStreamerWrapped_readinto. intros H. unfold_reader.
  destruct (_startcheck decompress src c) as [[[[start cnt] vers] c1]|] eqn:E1;
    [|discriminate].
  destruct (TStreamerElement_readinto decompress self src c1) as [[e c2]|] eqn:E2;
    [|discriminate].
  destruct (_endcheck start cnt c2) as [[[] c3]|] eqn:E3; [|discriminate].
  inversion H; subst; clear H.
  pose proof E1 as T5. apply startcheck_inv in T5 as [-> ->].
  pose proof E3 as T6. apply endcheck_inv in T6 as [-> Hend].
  pose proof E2 as T7. apply element_readinto_frame in T7 as (cnt' & vers' & k & Hs & Hc').
  exists cnt, vers, (set_index c (index c + 6)), cnt', vers', k.
  simpl in Hs. rewrite Hc' in Hend. simpl in Hend.
  repeat split; try assumption; try lia.
  rewrite Hc'. apply cursor_eq; simpl; try reflexivity. lia.
Qed.

(** X8. [TStreamerBase] reads [fBaseVersion] exactly when the version of
    its own frame is above 2: the attribute is set and the frame is ten
    bytes longer than the base class's record in that case, and the
    attribute is missing and the frame six bytes longer otherwise. *)
Theorem TStreamerBase_version (self el : TStreamerElement.t) (src : Source)
    (c c' : Cursor) (fBaseVersion : option Z) :
  TStreamerBase_readinto decompress self src c = Ok ((el, fBaseVersion), c') ->
  exists cnt vers c1 cnt' vers' c2,
    _startcheck decompress src c = Ok ((index c, cnt, vers), c1)
    /\ _startcheck decompress src c1 = Ok ((index c + 6, cnt', vers'), c2)
    /\ (if decide (vers > 2)
        then cnt = cnt' + 10
             /\ exists v c3,
                  int_field decompress src [c_i] (set_index c (index c + 6 + cnt'))
                  = Ok (v, c3)
                  /\ fBaseVersion = Some v
        else cnt = cnt' + 6 /\ fBaseVersion = None)
    /\ c' = set_index c (index c + cnt).
Proof.
  unfold TStreamerBase_readinto. intros H. unfold_reader.
  destruct (_startcheck decompress src c) as [[[[start cnt] vers] c1]|] eqn:E1;
    [|discriminate].
  destruct (TStreamerElement_readinto decompress self src c1) as [[e c2]|] eqn:E2;
    [|discriminate].
  step H bv c3 E3.
  destruct (_endcheck start cnt c3) as [[[] c4]|] eqn:E4; [|discriminate].
  inversion H; subst; clear H.
  pose proof E1 as T8. apply startcheck_inv in T8 as [-> ->].
  pose proof E4 as T9. apply endcheck_inv in T9 as [-> Hend].
  pose proof E2 as T10. apply element_readinto_frame in T10 as (cnt' & vers' & c5 & Hs & Hc2).
  simpl in Hs, Hc2.
  exists cnt, vers, (set_index c (index c + 6)), cnt', vers', c5.
  split; [reflexivity|]. split; [exact Hs|].
  destruct (decide (vers > 2)).
  - destruct (int_field decompress src [c_i] c2) as [[v c6]|] eqn:E5; [|discriminate].
    inversion E3; subst; clear E3.
    pose proof E5 as Hc'. apply int_field_inv in Hc'.
    rewrite Hc' in Hend |- *.
    unfold calcsize in *. simpl in *.
    split; [split; [lia|]|].
    + exists v. eexists. split; [|reflexivity]. exact E5.
    + apply cursor_eq; simpl; try reflexivity. lia.
  - inversion E3; subst; clear E3. simpl in *.
    split; [split; [lia|reflexivity]|].
    apply cursor_eq; simpl; try reflexivity. lia.
Qed.

(** X9. What [TStreamerBasicType._readinto] leaves in the element: an
    [fType] that is never strictly between [kOffsetL] and [kOffsetP] (a
    type read in that range has [kOffsetL] taken off), and for each of
    the basic types an [fSize] that is the size of the type, times
    [fArrayLength] when that is positive, whatever size the record
    held. *)
Theorem TStreamerBasicType_normalises (intp : Z) (self el : TStreamerElement.t)
    (src : Source) (c c' : Cursor) :
  TStreamerBasicType_readinto decompress intp self src c = Ok (el, c') ->
  exists read c1 cnt vers,
    _startcheck decompress src c = Ok ((index c, cnt, vers), c1)
    /\ TStreamerElement_readinto decompress self src c1 = Ok (read, c')
    /\ ¬ (kOffsetL < fType el < kOffsetP)
    /\ fType el = (if decide (kOffsetL < fType read < kOffsetP)
                   then fType read - kOffsetL else fType read)
    /\ fArrayLength el = fArrayLength read
    /\ (forall sz, basic_size intp (fType el) = Some sz ->
          fSize el = if decide (fArrayLength el > 0)
                     then sz * fArrayLength el else sz)
    /\ (basic_size intp (fType el) = None -> fSize el = fSize read).
Proof.
  unfold TStreamerBasicType_readinto. intros H. unfold_reader.
  destruct (_startcheck decompress src c) as [[[[start cnt] vers] c1]|] eqn:E1;
    [|discriminate].
  destruct (TStreamerElement_readinto decompress self src c1) as [[e c2]|] eqn:E2;
    [|discriminate].
  destruct (_endcheck start cnt c2) as [[[] c3]|] eqn:E3; [|discriminate].
  inversion H; subst; clear H.
  pose proof E1 as T11. apply startcheck_inv in T11 as [-> ->].
  pose proof E3 as T12. apply endcheck_inv in T12 as [-> _].
  exists e, (set_index c (index c + 6)), cnt, vers.
  split; [reflexivity|]. split; [exact E2|].
  unfold basic_type_fixup. simpl.
  repeat split.
  - unfold kOffsetL, kOffsetP. destruct (decide _); lia.
  - intros sz Hsz. now rewrite Hsz.
  - intros Hn. now rewrite Hn.
Qed.

(** X10. [TStreamerSTL] reads no record of a version above 2: whenever
    the frame's version is above 2 and the base class's record is read,
    the call raises [NotImplementedError]; and when the call succeeds the
    version is at most 2 and the frame is fourteen bytes longer than the
    base class's record, the header and the two 32-bit fields. *)
Theorem TStreamerSTL_versions (kSTLmultimap kSTLset : Z)
    (self : TStreamerElement.t) (src : Source) (c c1 : Cursor)
    (start cnt vers : Z) :
  _startcheck decompress src c = Ok ((start, cnt, vers), c1) ->
  (vers > 2 ->
   forall el c2,
     TStreamerElement_readinto decompress self src c1 = Ok (el, c2) ->
     TStreamerSTL_readinto decompress kSTLmultimap kSTLset self src c
     = Raise NotImplementedError)
  /\ (forall r c',
        TStreamerSTL_readinto decompress kSTLmultimap kSTLset self src c
        = Ok (r, c') ->
        vers <= 2
        /\ exists cnt' vers' c2,
             _startcheck decompress src c1 = Ok ((index c + 6, cnt', vers'), c2)
             /\ cnt = cnt' + 14
             /\ c' = set_index c (index c + cnt)).
Proof.
  intros H1. split.
  - intros Hv el c2 H2. unfold TStreamerSTL_readinto. unfold_reader.
    rewrite H1, H2. destruct (decide (vers > 2)); [reflexivity|contradiction].
  - intros r c' H. unfold TStreamerSTL_readinto in H. unfold_reader.
    rewrite H1 in H.
    destruct (TStreamerElement_readinto decompress self src c1) as [[e c2]|] eqn:E2;
      [|discriminate].
    destruct (decide (vers > 2)); [discriminate|].
    split; [lia|].
    destruct (int_fields decompress src [c_i; c_i] c2) as [[fs c3]|] eqn:E3;
      [|discriminate].
    destruct fs as [|st [|ct [|? ?]]]; try (cbv beta iota in H; discriminate H).
    cbv beta iota in H.
    destruct (_endcheck start cnt c3) as [[[] c4]|] eqn:E4; [|discriminate].
    inversion H; subst; clear H.
    pose proof H1 as T1. apply startcheck_inv in T1 as [-> ->].
    pose proof E4 as T2. apply endcheck_inv in T2 as [-> Hend].
    pose proof E2 as T3.
    apply element_readinto_frame in T3 as (cnt' & vers' & k & Hs & Hc2).
    apply int_fields_inv in E3 as [Hc3 _].
    exists cnt', vers', k. simpl in Hs. split; [exact Hs|].
    rewrite Hc3, Hc2 in Hend |- *. unfold calcsize in *. simpl in *.
    split; [lia|]. apply cursor_eq; simpl; try reflexivity. lia.
Qed.

End ElementFacts.

Section ObjectFacts.

#[local] Set Default Proof Using "Type".

Variable decompress : Z -> list byte -> Z -> list byte.
Variable class_env : string -> pyclass.

Ltac step H a c E :=
  match type of H with
  | match ?t with _ => _ end = _ =>
      destruct t as [[a c]|] eqn:E; [|discriminate H]
  end.

(** X11. What [TKey.get] does to the key.  A key of any class but
    [TDirectory] is left as it was, so its object can be read again; the
    [get] of a directory key reads through the key's own cursor and
    leaves it 30 or 42 bytes further on, past the directory record, and
    the directory it returns has the key's name and context. *)
Theorem TKey_get_cursor (k : TKey.t) :
  (TKey.fClassName k ≠ "TDirectory"%string ->
   snd (TKey_get decompress class_env k) = k)
  /\ (forall d k',
        TKey_get decompress class_env k = (Ok (GDir d), k') ->
        TKey.fClassName k = "TDirectory"%string
        /\ ROOTDirectory.name d = TKey.fName k
        /\ ROOTDirectory._context d = TKey._context k
        /\ exists n, (n = 30 \/ n = 42)
             /\ k' = TKey.set_cursor k
                       (set_index (TKey._cursor k) (index (TKey._cursor k) + n))).
Proof.
  split.
  - intros Hc. unfold TKey_get. destruct (decide _); [contradiction|].
    destruct (classes (TKey._context k) !! TKey.fClassName k); [|reflexivity].
    destruct (ROOTObject_read _ _ _ _) as [[o c]|]; reflexivity.
  - intros d k' H. unfold TKey_get in H.
    destruct (decide (TKey.fClassName k = "TDirectory"%string)) as [Hc|Hc].
    + split; [exact Hc|].
      destruct (ROOTDirectory_read decompress (TKey._source k) (TKey._context k) k
                  (TKey._cursor k)) as [[d' c']|] eqn:E; [|discriminate].
      inversion H; subst; clear H.
      unfold ROOTDirectory_read in E. unfold_reader.
      step E fs c1 E1.
      destruct fs as [|v [|dc [|dm [|nk [|nn [|? ?]]]]]];
        try (cbv beta iota in E; discriminate E).
      cbv beta iota in E.
      step E ss c2 E2.
      destruct ss as [|sd [|sp [|sk [|? ?]]]];
        try (cbv beta iota in E; discriminate E).
      cbv beta iota in E.
      match type of E with
      | match ?t with _ => _ end = _ =>
          destruct t as [[keys c3]|] eqn:E3; [|discriminate E]
      end.
      inversion E; subst; clear E.
      apply int_fields_inv in E1 as [-> _].
      apply int_fields_inv in E2 as [-> _].
      split; [reflexivity|]. split; [reflexivity|].
      destruct (decide (v <= 1000)).
      * exists 30. split; [left; reflexivity|]. unfold TKey.set_cursor. f_equal.
        apply cursor_eq; unfold calcsize; simpl; try reflexivity. lia.
      * exists 42. split; [right; reflexivity|]. unfold TKey.set_cursor. f_equal.
        apply cursor_eq; unfold calcsize; simpl; try reflexivity. lia.
    + destruct (classes (TKey._context k) !! TKey.fClassName k); [|discriminate].
      destruct (ROOTObject_read _ _ _ _) as [[o c]|]; discriminate.
Qed.

(** *** The reference table *)

Lemma register_refs vers key v c u c' :
  register vers key v c = Ok (u, c') ->
  index c' = index c /\ origin c' = origin c
  /\ exists key', refs c' !! key' = Some v /\ (vers > 0 -> key' = key).
Proof.
  unfold register. intros H. destruct (decide (vers > 0)).
  - inversion H; subst. simpl. repeat split. exists key.
    split; [apply lookup_insert_eq|auto].
  - inversion H; subst. simpl. repeat split. eexists.
    split; [apply lookup_insert_eq|]. intros; contradiction.
Qed.

(** X12. Every object that [_readanyref] makes is in the reference table
    when the call returns: if the tag has [kClassMask] and the call
    succeeds, the cursor's table holds the returned object, under
    [beg + kMapOffset] when the reference is framed. *)
Theorem readanyref_registers (src : Source) (context : FileContext)
    (c c1 c' : Cursor) (beg vers start tag bcnt : Z) (obj : pyval) :
  _readanyref_tag decompress src c = Ok ((beg, vers, start, tag, bcnt), c1) ->
  Z.land tag kClassMask ≠ 0 ->
  _readanyref decompress class_env src context c = Ok (obj, c') ->
  exists key, refs c' !! key = Some obj /\ (vers > 0 -> key = beg + kMapOffset).
Proof.
  intros Htag Hmask H. unfold _readanyref in H. unfold_reader.
  rewrite Htag in H.
  destruct (decide (Z.land tag kClassMask = 0)); [contradiction|].
  destruct (decide (tag = kNewClassTag)).
  - step H cname c2 E2.
    step H u1 c3 E3.
    step H o c4 E4.
    step H u2 c5 E5.
    inversion H; subst; clear H.
    apply register_refs in E5 as (_ & _ & key & Hk & Hv). eauto.
  - destruct (refs c1 !! Z.land tag (Z.lnot kClassMask)) as [fct|]; [|discriminate].
    destruct (is_factory context fct); [|discriminate].
    destruct fct; try discriminate.
    step H o c4 E4.
    step H u2 c5 E5.
    inversion H; subst; clear H.
    apply register_refs in E5 as (_ & _ & key & Hk & Hv). eauto.
Qed.

(** X13. A reference to an object of the table gives that object back:
    when the tag read has no [kClassMask], is neither 0 nor 1 and is a
    key of the cursor's table, [_readanyref] returns the object stored
    under it and consumes the tag and nothing more. *)
Theorem readanyref_back_reference (src : Source) (context : FileContext)
    (c c1 : Cursor) (beg vers start tag bcnt : Z) (obj : pyval) :
  _readanyref_tag decompress src c = Ok ((beg, vers, start, tag, bcnt), c1) ->
  Z.land tag kClassMask = 0 ->
  tag ≠ 0 -> tag ≠ 1 ->
  refs c !! tag = Some obj ->
  _readanyref decompress class_env src context c = Ok (obj, c1)
  /\ refs c1 = refs c.
Proof.
  intros Htag Hmask H0 H1 Hobj.
  pose proof Htag as T. apply readanyref_tag_cases in T as (_ & _ & Hr & _).
  split; [|exact Hr].
  unfold _readanyref. unfold_reader. rewrite Htag.
  destruct (decide (Z.land tag kClassMask = 0)); [|contradiction].
  destruct (decide (tag = 0)); [contradiction|].
  destruct (decide (tag = 1)); [contradiction|].
  rewrite Hr, Hobj. reflexivity.
Qed.

(** *** Lists of references *)

Lemma read_refs_length n src context c xs c' :
  read_refs decompress class_env n src context c = Ok (xs, c') ->
  length xs = n.
Proof.
  revert c xs c'. induction n as [|n IH]; intros c xs c' H; simpl in H.
  - unfold_reader. inversion H. reflexivity.
  - unfold_reader.
    step H x c1 E1. step H xs' c2 E2. inversion H; subst; clear H.
    simpl. f_equal. eapply IH; eassumption.
Qed.

(** X14. A [TList] that is read has as many entries as its size field
    says, none when the size is negative, and its frame is filled: the
    cursor ends [cnt] bytes after the start of the header. *)
Theorem TList_length (src : Source) (context : FileContext) (c c' : Cursor)
    (xs : list pyval) :
  TList_readinto decompress class_env src context c = Ok (xs, c') ->
  exists cnt vers c1 c2 name c3 nsize c4,
    _startcheck decompress src c = Ok ((index c, cnt, vers), c1)
    /\ _skiptobj decompress src c1 = Ok (tt, c2)
    /\ Cursor_string decompress src c2 = Ok (name, c3)
    /\ int_field decompress src [c_i] c3 = Ok (nsize, c4)
    /\ length xs = Z.to_nat nsize
    /\ index c' = index c + cnt.
Proof.
  unfold TList_readinto. intros H. unfold_reader.
  destruct (_startcheck decompress src c) as [[[[start cnt] vers] c1]|] eqn:E1;
    [|discriminate].
  destruct (_skiptobj decompress src c1) as [[[] c2]|] eqn:E2; [|discriminate].
  step H name c3 E3. step H nsize c4 E4. step H ys c5 E5.
  destruct (_endcheck start cnt c5) as [[[] c6]|] eqn:E6; [|discriminate].
  inversion H; subst; clear H.
  pose proof E1 as T1. apply startcheck_inv in T1 as [-> _].
  apply endcheck_inv in E6 as [-> Hend].
  apply read_refs_length in E5.
  exists cnt, vers, c1, c2, name, c3, nsize, c4. repeat split; try reflexivity; assumption.
Qed.

(** X15. A [TObjArray] that is read has as many entries as the first of
    its two size fields says, and its frame is filled. *)
Theorem TObjArray_length (src : Source) (context : FileContext) (c c' : Cursor)
    (xs : list pyval) :
  TObjArray_readinto decompress class_env src context c = Ok (xs, c') ->
  exists cnt vers c1 c2 name c3 nsize low c4,
    _startcheck decompress src c = Ok ((index c, cnt, vers), c1)
    /\ _skiptobj decompress src c1 = Ok (tt, c2)
    /\ Cursor_string decompress src c2 = Ok (name, c3)
    /\ int_fields decompress src [c_i; c_i] c3 = Ok ([nsize; low], c4)
    /\ length xs = Z.to_nat nsize
    /\ index c' = index c + cnt.
Proof.
  unfold TObjArray_readinto. intros H. unfold_reader.
  destruct (_startcheck decompress src c) as [[[[start cnt] vers] c1]|] eqn:E1;
    [|discriminate].
  destruct (_skiptobj decompress src c1) as [[[] c2]|] eqn:E2; [|discriminate].
  step H name c3 E3. step H sl c4 E4.
  destruct sl as [|nsize [|low [|? ?]]]; try (cbv beta iota in H; discriminate H).
  cbv beta iota in H.
  step H ys c5 E5.
  destruct (_endcheck start cnt c5) as [[[] c6]|] eqn:E6; [|discriminate].
  inversion H; subst; clear H.
  pose proof E1 as T1. apply startcheck_inv in T1 as [-> _].
  apply endcheck_inv in E6 as [-> Hend].
  apply read_refs_length in E5.
  exists cnt, vers, c1, c2, name, c3, nsize, low, c4. repeat split; try reflexivity; assumption.
Qed.

Lemma read_streamerinfos_all n src context c xs c' :
  read_streamerinfos decompress class_env n src context c = Ok (xs, c') ->
  length xs = n /\ Forall (fun x => is_TStreamerInfo x = true) xs.
Proof.
  revert c xs c'. induction n as [|n IH]; intros c xs c' H; simpl in H.
  - unfold_reader. inversion H. split; [reflexivity|constructor].
  - unfold_reader.
    step H x c1 E1.
    destruct (is_TStreamerInfo x) eqn:Ex; [|discriminate].
    step H k c2 E2. step H bs c3 E3. step H xs' c4 E4.
    inversion H; subst; clear H.
    apply IH in E4 as [Hl Hall]. split; [simpl; f_equal; exact Hl|].
    constructor; assumption.
Qed.

(** X16. What [_readstreamers] returns, when it returns: as many entries
    as the size field says, each of them a [TStreamerInfo] (a null
    reference or an object of another class stops the read with an
    [AssertionError]), read from a frame that is filled. *)
Theorem readstreamers_all_infos (src : Source) (context : FileContext)
    (c c' : Cursor) (xs : list pyval) :
  _readstreamers decompress class_env src context c = Ok (xs, c') ->
  exists cnt vers c1 c2 name c3 nsize c4,
    _startcheck decompress src c = Ok ((index c, cnt, vers), c1)
    /\ _skiptobj decompress src c1 = Ok (tt, c2)
    /\ Cursor_string decompress src c2 = Ok (name, c3)
    /\ int_field decompress src [c_i] c3 = Ok (nsize, c4)
    /\ length xs = Z.to_nat nsize
    /\ Forall (fun x => exists attrs, x = PInst "TStreamerInfo" attrs) xs
    /\ index c' = index c + cnt.
Proof.
  unfold _readstreamers. intros H. unfold_reader.
  destruct (_startcheck decompress src c) as [[[[start cnt] vers] c1]|] eqn:E1;
    [|discriminate].
  destruct (_skiptobj decompress src c1) as [[[] c2]|] eqn:E2; [|discriminate].
  step H name c3 E3. step H nsize c4 E4. step H ys c5 E5.
  destruct (_endcheck start cnt c5) as [[[] c6]|] eqn:E6; [|discriminate].
  inversion H; subst; clear H.
  pose proof E1 as T1. apply startcheck_inv in T1 as [-> _].
  apply endcheck_inv in E6 as [-> Hend].
  apply read_streamerinfos_all in E5 as [Hl Hall].
  exists cnt, vers, c1, c2, name, c3, nsize, c4. repeat split; try reflexivity; try assumption.
  eapply Forall_impl; [exact Hall|]. intros x Hx.
  destruct x; try discriminate. simpl in Hx.
  apply bool_decide_eq_true in Hx. subst. eauto.
Qed.

(** X17. A [TArray] is a count and that many elements: when the read
    succeeds the list has as many entries as the 32-bit count says and
    the cursor is past the count and the elements, four bytes and the
    count times the size of an element. *)
Theorem TArray_length (dt : fcode) (src : Source) (c c' : Cursor)
    (vs : list pyval) :
  TArray_readinto decompress dt src c = Ok (vs, c') ->
  exists n c1,
    int_field decompress src [c_i] c = Ok (n, c1)
    /\ length vs = Z.to_nat n
    /\ c' = set_index c (index c + 4 + n * Z.of_nat (code_size dt)).
Proof.
  unfold TArray_readinto. intros H. unfold_reader.
  step H n c1 E1.
  exists n, c1. split; [reflexivity|].
  apply int_field_inv in E1 as ->.
  apply Cursor_array_inv in H as [-> Hl]. split; [exact Hl|].
  apply cursor_eq; unfold calcsize; simpl; try reflexivity.
Qed.

(** X18. What [TStreamerInfo._readinto] leaves in the instance when it
    succeeds: [fName] is the name of the name and title that follow the
    header, the title being dropped, [fElements] is a list (anything
    else stops the read with an [AssertionError]), and the frame is
    filled. *)
Theorem TStreamerInfo_elements_list (cls : string) (attrs : gmap string pyval)
    (src : Source) (context : FileContext) (c c' : Cursor) (self' r : pyval) :
  TStreamerInfo_readinto decompress class_env (PInst cls attrs) src context c
  = Ok ((self', r), c') ->
  exists cnt vers c1 name title c2 attrs' elements,
    _startcheck decompress src c = Ok ((index c, cnt, vers), c1)
    /\ _nametitle decompress src c1 = Ok ((name, title), c2)
    /\ self' = PInst cls attrs'
    /\ attrs' !! "fName"%string = Some (PStr name)
    /\ attrs' !! "fElements"%string = Some (PList elements)
    /\ index c' = index c + cnt.
Proof.
  unfold TStreamerInfo_readinto. intros H. unfold_reader.
  destruct (_startcheck decompress src c) as [[[[start cnt] vers] c1]|] eqn:E1;
    [|discriminate].
  destruct (_nametitle decompress src c1) as [[[name title] c2]|] eqn:E2;
    [|discriminate].
  step H fs c3 E3.
  destruct fs as [|cs [|cv [|? ?]]]; try (cbv beta iota in H; discriminate H).
  cbv beta iota in H.
  step H els c4 E4.
  destruct els; try (cbv beta iota in H; discriminate H).
  cbv beta iota in H.
  destruct (_endcheck start cnt c4) as [[[] c5]|] eqn:E5; [|discriminate].
  inversion H; subst; clear H.
  pose proof E1 as T1. apply startcheck_inv in T1 as [-> _].
  apply endcheck_inv in E5 as [-> Hend].
  exists cnt, vers, c1, name, title, c2. eexists. exists l.
  split; [reflexivity|]. split; [exact E2|]. split; [reflexivity|].
  split; [|split; [apply lookup_insert_eq|exact Hend]].
  rewrite !lookup_insert_ne by discriminate. apply lookup_insert_eq.
Qed.

(** X19. Where a key's cursor stands.  In both branches of
    [TKey._readinto], payload stored and payload compressed, the key's
    cursor is [fKeylen] bytes past its origin, so offsets recorded in
    the payload count from the start of the key; its reference table is
    empty and the key carries the context it was read with. *)
Theorem TKey_cursor_offset (src : Source) (context : FileContext) (c c' : Cursor)
    (key : TKey.t) :
  TKey_read decompress src context c = Ok (key, c') ->
  index (TKey._cursor key) - origin (TKey._cursor key) = TKey.fKeylen key
  /\ refs (TKey._cursor key) = ∅
  /\ TKey._context key = context
  /\ (TKey._source key = src
      \/ exists cur, TKey._source key
                     = CompressedSource (compression context) src cur
                         (TKey.fNbytes key - TKey.fKeylen key) (TKey.fObjlen key)).
Proof.
  unfold TKey_read, TKey_readinto. intros H. unfold_reader.
  step H fs c1 E1.
  destruct fs as [|nb [|v [|ol [|dt [|kl [|cy [|? ?]]]]]]];
    try (cbv beta iota in H; discriminate H).
  cbv beta iota in H.
  step H ss c2 E2.
  destruct ss as [|sk [|sp [|? ?]]]; try (cbv beta iota in H; discriminate H).
  cbv beta iota in H.
  step H cn c3 E3. step H nm c4 E4. step H u1 c5 E5. step H ti c6 E6.
  step H u2 c7 E7.
  destruct (decide (ol ≠ nb - kl)); inversion H; subst; clear H; simpl.
  - repeat split; try lia. right. eauto.
  - repeat split; try lia. left. reflexivity.
Qed.

(** X20. A class the context does not know is never skipped: when the
    tag is [kNewClassTag] and the class name that follows is not a key
    of [context.classes], the factory is [Undefined], whose [read]
    fails, and [_readanyref] raises [TypeError] whatever the payload
    is. *)
Theorem readanyref_unknown_class (src : Source) (context : FileContext)
    (c c1 c2 : Cursor) (beg vers start bcnt : Z) (cname : string) :
  class_env "Undefined"%string = Undefined ->
  _readanyref_tag decompress src c = Ok ((beg, vers, start, kNewClassTag, bcnt), c1) ->
  Cursor_cstring decompress src c1 = Ok (cname, c2) ->
  classes context !! cname = None ->
  _readanyref decompress class_env src context c = Raise TypeError.
Proof.
  intros Henv Htag Hname Hnone. unfold _readanyref. unfold_reader.
  rewrite Htag.
  destruct (decide (Z.land kNewClassTag kClassMask = 0)) as [Hm|_];
    [discriminate Hm|].
  destruct (decide (kNewClassTag = kNewClassTag)) as [_|Hn]; [|contradiction].
  rewrite Hname, Hnone. simpl.
  unfold register. destruct (decide (vers > 0)); unfold ROOTObject_read;
    unfold_reader; rewrite Henv; reflexivity.
Qed.

End ObjectFacts.

Section HeaderFacts.

#[local] Set Default Proof Using "Type".

Variable decompress : Z -> list byte -> Z -> list byte.




Lemma read_header_eq src hd :
  Source_data decompress src 0 8 = Ok hd ->
  ROOTDirectory_read_header decompress src
  = if decide (string_of_list_byte (take 4 hd) ≠ "root"%string) then Raise ValueError
    else
      let fVersion := be_sint (take 4 (drop 4 hd)) in
      if decide (fVersion < 1000000) then
        match Source_data decompress src 8 63 with
        | Ok body =>
            Ok (mkFileHeader fVersion
                  (be_sint (take 4 body))
                  (be_sint (take 4 (drop 4 body)))
                  (be_sint (take 4 (drop 8 body)))
                  (be_sint (take 4 (drop 12 body)))
                  (be_sint (take 4 (drop 16 body)))
                  (be_sint (take 4 (drop 20 body)))
                  (be_uint (take 1 (drop 24 body)))
                  (be_sint (take 4 (drop 25 body)))
                  (be_sint (take 4 (drop 29 body)))
                  (be_sint (take 4 (drop 33 body)))
                  (string_of_list_byte (take 18 (drop 37 body))))
        | Raise e => Raise e
        end
      else
        match Source_data decompress src 8 75 with
        | Ok body =>
            Ok (mkFileHeader fVersion
                  (be_sint (take 4 body))
                  (be_sint (take 8 (drop 4 body)))
                  (be_sint (take 8 (drop 12 body)))
                  (be_sint (take 4 (drop 20 body)))
                  (be_sint (take 4 (drop 24 body)))
                  (be_sint (take 4 (drop 28 body)))
                  (be_uint (take 1 (drop 32 body)))
                  (be_sint (take 4 (drop 33 body)))
                  (be_sint (take 8 (drop 37 body)))
                  (be_sint (take 4 (drop 45 body)))
                  (string_of_list_byte (take 18 (drop 49 body))))
        | Raise e => Raise e
        end.
Proof.
  intros Hhd. unfold ROOTDirectory_read_header, hfields.
  change (index (Cursor_new 0 0)) with 0.
  change (0 + Z.of_nat (hcalcsize ROOTDirectory_format1)) with 8.
  rewrite Hhd.
  change (hunpack ROOTDirectory_format1 hd)
    with [PStr (string_of_list_byte (take 4 hd));
          PInt (be_sint (take 4 (drop 4 hd)))].
  cbv beta iota.
  destruct (decide (string_of_list_byte (take 4 hd) ≠ "root"%string)); [reflexivity|].
  cbv zeta.
  destruct (decide (be_sint (take 4 (drop 4 hd)) < 1000000)).
  - change (index (set_index (Cursor_new 0 0) 8)) with 8.
    change (8 + Z.of_nat (hcalcsize ROOTDirectory_format2_small)) with 63.
    destruct (Source_data decompress src 8 63) as [body|e]; [|reflexivity].
    unfold ROOTDirectory_format2_small, hunpack, hfield_size, decode, code_size.
    rewrite !drop_drop. reflexivity.
  - change (index (set_index (Cursor_new 0 0) 8)) with 8.
    change (8 + Z.of_nat (hcalcsize ROOTDirectory_format2_big)) with 75.
    destruct (Source_data decompress src 8 75) as [body|e]; [|reflexivity].
    unfold ROOTDirectory_format2_big, hunpack, hfield_size, decode, code_size.
    rewrite !drop_drop. reflexivity.
Qed.


(** X22. The two layouts of the file header.  After the magic [root],
    a version below 1000000 selects the layout of 32-bit seek positions,
    55 bytes that end at offset 63, and any other version the layout of
    64-bit ones, 67 bytes that end at offset 75.  When those bytes are
    there the header is read, and [fBEGIN], [fCompress], [fSeekInfo] and
    [fUUID] are the bytes at the offsets of the layout. *)
Theorem read_header_layout (src : Source) (hd body : list byte) :
  Source_data decompress src 0 8 = Ok hd ->
  string_of_list_byte (take 4 hd) = "root"%string ->
  Source_data decompress src 8
    (if decide (be_sint (take 4 (drop 4 hd)) < 1000000) then 63 else 75) = Ok body ->
  exists h,
    ROOTDirectory_read_header decompress src = Ok h
    /\ hdr_fVersion h = be_sint (take 4 (drop 4 hd))
    /\ hdr_fBEGIN h = be_sint (take 4 body)
    /\ hdr_fCompress h
       = be_sint (take 4 (drop (if decide (hdr_fVersion h < 1000000)
                                then 25 else 33) body))
    /\ hdr_fSeekInfo h
       = (if decide (hdr_fVersion h < 1000000)
          then be_sint (take 4 (drop 29 body))
          else be_sint (take 8 (drop 37 body)))
    /\ hdr_fUUID h
       = string_of_list_byte
           (take 18 (drop (if decide (hdr_fVersion h < 1000000)
                           then 37 else 49) body)).
Proof.
  intros Hhd Hroot Hbody. rewrite (read_header_eq _ _ Hhd).
  destruct (decide (string_of_list_byte (take 4 hd) ≠ "root"%string));
    [contradiction|].
  cbv zeta.
  destruct (decide (be_sint (take 4 (drop 4 hd)) < 1000000)) as [Hs|Hb].
  - rewrite Hbody. eexists. split; [reflexivity|]. simpl.
    destruct (decide _); [|contradiction]. repeat split.
  - rewrite Hbody. eexists. split; [reflexivity|]. simpl.
    destruct (decide _); [contradiction|]. repeat split.
Qed.

End HeaderFacts.

(** *** The loop of the synthesizer *)

(** What holds of the loop variables before the first element and is
    kept by every turn holds when the loop is over. *)
Lemma synth_loop_invariant (I : nat -> synth -> Prop) cls elements :
  (forall i e st st',
      elements !! i = Some e -> I i st ->
      synth_element cls elements i e st = Ok st' -> I (S i) st') ->
  forall rest i st st',
    drop i elements = rest -> (i <= length elements)%nat -> I i st ->
    synth_loop cls elements i rest st = Ok st' ->
    I (length elements) st'.
Proof.
  intros Hstep. induction rest as [|e rest IH]; intros i st st' Hdrop Hle Hi H;
    simpl in H.
  - inversion H; subst.
    apply (f_equal length) in Hdrop. rewrite length_drop in Hdrop. simpl in Hdrop.
    replace (length elements) with i by lia. exact Hi.
  - assert (He : elements !! i = Some e).
    { rewrite <- (Nat.add_0_r i), <- lookup_drop, Hdrop. reflexivity. }
    assert (Hrest : drop (S i) elements = rest).
    { rewrite (drop_S _ _ _ He) in Hdrop. now inversion Hdrop. }
    destruct (synth_element cls elements i e st) as [st1|] eqn:E; [|discriminate].
    apply (IH (S i) st1 st' Hrest); [|eapply Hstep; eassumption|exact H].
    apply lookup_lt_Some in He. lia.
Qed.

Lemma synthesize_inv (I : nat -> synth -> Prop) cls elements g :
  I 0%nat (mkSynth [SStartcheck] [] ∅ ∅ [] EmptyString) ->
  (forall i e st st',
      elements !! i = Some e -> I i st ->
      synth_element cls elements i e st = Ok st' -> I (S i) st') ->
  synthesize cls elements = Ok g ->
  exists st,
    I (length elements) st
    /\ g = mkGenerated cls
             (match bases st with
              | [] => ["ROOTStreamedObject"%string]
              | bs => bs
              end)
             (code st ++ [SEndcheck]) (formats st) (dtypes st).
Proof.
  intros H0 Hstep H. unfold synthesize in H.
  destruct (synth_loop cls elements 0 elements _) as [st|] eqn:E; [|discriminate].
  inversion H; subst; clear H. exists st. split; [|reflexivity].
  eapply (synth_loop_invariant I cls elements Hstep elements 0%nat);
    [reflexivity|lia|exact H0|exact E].
Qed.

Lemma flat_map_snoc {A B} (f : A -> list B) l x :
  flat_map f (l ++ [x]) = flat_map f l ++ f x.
Proof. rewrite flat_map_app. simpl. now rewrite app_nil_r. Qed.

Lemma batch_idle elements i e st :
  elements !! i = Some e -> batch_waits elements i st ->
  class e ≠ StreamerBasicType -> basicnames st = [].
Proof.
  intros He Hw Hc. destruct (basicnames st) eqn:E; [reflexivity|].
  destruct Hw as (e' & He' & Hc' & _); [rewrite E; discriminate|].
  rewrite He in He'. inversion He'; subst. contradiction.
Qed.

Lemma targets_step cls elements i e st st' :
  elements !! i = Some e ->
  (flat_map assigned (code st) ++ basicnames st
   = flat_map element_targets (take i elements)
   /\ batch_waits elements i st) ->
  synth_element cls elements i e st = Ok st' ->
  flat_map assigned (code st') ++ basicnames st'
  = flat_map element_targets (take (S i) elements)
  /\ batch_waits elements (S i) st'.
Proof.
  intros He [Heq Hw] H.
  rewrite (take_S_r _ _ _ He), flat_map_snoc, <- Heq.
  pose proof (batch_idle _ _ _ _ He Hw) as Hidle.
  unfold synth_element in H. unfold element_targets.
  destruct (class e) eqn:Ec; try discriminate.
  - (* TStreamerBase *)
    inversion H; subst; clear H. unfold add_code. simpl.
    rewrite Hidle by discriminate. split.
    + now rewrite flat_map_snoc, !app_nil_r.
    + intros Hn. unfold add_code in Hn. simpl in Hn.
      rewrite ?Hidle in Hn by (rewrite Ec; discriminate). contradiction.
  - (* TStreamerBasicPointer *)
    destruct (re_search_counter (fTitle e)) as [counter|]; [|discriminate].
    destruct (decide _); [|discriminate].
    destruct (pointer_dtype _) as [dt|]; [|discriminate].
    inversion H; subst; clear H. unfold add_code. simpl.
    rewrite Hidle by discriminate. split.
    + rewrite !flat_map_snoc, !app_nil_r. simpl. now rewrite <- app_assoc.
    + intros Hn. unfold add_code in Hn. simpl in Hn.
      rewrite ?Hidle in Hn by (rewrite Ec; discriminate). contradiction.
  - (* TStreamerBasicType *)
    destruct (decide (fArrayLength e = 0)); [|discriminate].
    destruct (basic_letter (fType e)) as [letter|]; [|discriminate].
    destruct (batch_closes elements i) eqn:Eb.
    + inversion H; subst; clear H. simpl. split.
      * rewrite flat_map_snoc, app_nil_r, <- app_assoc. f_equal.
        destruct (basicnames st ++ ["self." +:+ fName e]) as [|one [|two more]];
          reflexivity.
      * intros Hn. unfold add_code in Hn. simpl in Hn.
      rewrite ?Hidle in Hn by (rewrite Ec; discriminate). contradiction.
    + inversion H; subst; clear H. simpl. split.
      * now rewrite app_assoc.
      * intros _. apply batch_closes_false in Eb. rewrite Nat.add_1_r in Eb. exact Eb.
  - (* TStreamerObject *)
    inversion H; subst; clear H. unfold add_code. simpl.
    rewrite Hidle by discriminate. split.
    + now rewrite flat_map_snoc, !app_nil_r.
    + intros Hn. unfold add_code in Hn. simpl in Hn.
      rewrite ?Hidle in Hn by (rewrite Ec; discriminate). contradiction.
  - (* TStreamerObjectAny *)
    inversion H; subst; clear H. unfold add_code. simpl.
    rewrite Hidle by discriminate. split.
    + now rewrite flat_map_snoc, !app_nil_r.
    + intros Hn. unfold add_code in Hn. simpl in Hn.
      rewrite ?Hidle in Hn by (rewrite Ec; discriminate). contradiction.
  - (* TStreamerObjectPointer *)
    destruct (decide (fType e = kObjectp)).
    + inversion H; subst; clear H. unfold add_code. simpl.
      rewrite Hidle by discriminate. split.
      * now rewrite flat_map_snoc, !app_nil_r.
      * intros Hn. unfold add_code in Hn. simpl in Hn.
      rewrite ?Hidle in Hn by (rewrite Ec; discriminate). contradiction.
    + destruct (decide (fType e = kObjectP)); [|discriminate].
      inversion H; subst; clear H. unfold add_code. simpl.
      rewrite Hidle by discriminate. split.
      * now rewrite flat_map_snoc, !app_nil_r.
      * intros Hn. unfold add_code in Hn. simpl in Hn.
      rewrite ?Hidle in Hn by (rewrite Ec; discriminate). contradiction.
  - (* TStreamerString *)
    inversion H; subst; clear H. unfold add_code. simpl.
    rewrite Hidle by discriminate. split.
    + now rewrite flat_map_snoc, !app_nil_r.
    + intros Hn. unfold add_code in Hn. simpl in Hn.
      rewrite ?Hidle in Hn by (rewrite Ec; discriminate). contradiction.
Qed.

(** When the loop is over the batch is empty, and the lines written are
    all there is. *)
Lemma targets_done elements st :
  flat_map assigned (code st) ++ basicnames st
  = flat_map element_targets (take (length elements) elements) ->
  batch_waits elements (length elements) st ->
  flat_map assigned (code st ++ [SEndcheck]) = flat_map element_targets elements.
Proof.
  intros Heq Hw. rewrite firstn_all in Heq.
  assert (Hn : basicnames st = []).
  { destruct (basicnames st) eqn:E; [reflexivity|].
    destruct Hw as (e & He & _); [rewrite E; discriminate|].
    apply lookup_lt_Some in He. lia. }
  rewrite Hn, app_nil_r in Heq. now rewrite flat_map_snoc, app_nil_r.
Qed.

(** X23. The body of a synthesized [_readinto] assigns what the streamer
    elements stand for, each once and in the order of the elements: the
    attribute of every scalar, the length byte and the attribute of
    every counted array, the name of every object member.  Putting
    scalars into one multi-field read loses none and reorders none. *)
Theorem synthesize_targets (classname : string) (fElements : list TStreamerElement.t)
    (g : generated) :
  synthesize classname fElements = Ok g ->
  flat_map assigned (g_body g) = flat_map element_targets fElements.
Proof.
  intros H.
  apply (synthesize_inv
           (fun i st =>
              flat_map assigned (code st) ++ basicnames st
              = flat_map element_targets (take i fElements)
              /\ batch_waits fElements i st)) in H.
  - destruct H as (st & [Heq Hw] & ->). simpl. now apply targets_done.
  - split; [reflexivity|]. intros Hn. contradiction.
  - intros i e st st'. apply targets_step.
Qed.

Lemma bases_step cls elements i e st st' :
  elements !! i = Some e ->
  bases st = base_names (take i elements) ->
  synth_element cls elements i e st = Ok st' ->
  bases st' = base_names (take (S i) elements).
Proof.
  intros He Hb H. rewrite (take_S_r _ _ _ He). unfold base_names in *.
  rewrite List.filter_app, fmap_app, <- Hb. simpl.
  unfold synth_element in H.
  destruct (class e) eqn:Ec; try discriminate;
    rewrite ?bool_decide_eq_true_2 by reflexivity;
    rewrite ?bool_decide_eq_false_2 by discriminate; simpl.
  - now inversion H.
  - destruct (re_search_counter _); [|discriminate].
    destruct (decide _); [|discriminate].
    destruct (pointer_dtype _); [|discriminate].
    inversion H; subst. simpl. now rewrite app_nil_r.
  - destruct (decide _); [|discriminate].
    destruct (basic_letter _); [|discriminate].
    destruct (batch_closes _ _); inversion H; subst; simpl; now rewrite app_nil_r.
  - inversion H; subst. simpl. now rewrite app_nil_r.
  - inversion H; subst. simpl. now rewrite app_nil_r.
  - destruct (decide _); [inversion H; subst; simpl; now rewrite app_nil_r|].
    destruct (decide _); [|discriminate].
    inversion H; subst; simpl; now rewrite app_nil_r.
  - inversion H; subst. simpl. now rewrite app_nil_r.
Qed.

(** X24. The bases of a synthesized class are the names of the
    [TStreamerBase] elements, in the order of the elements; a class
    without such an element derives from [ROOTStreamedObject] alone.  So
    the list of bases is never empty. *)
Theorem synthesize_bases (classname : string) (fElements : list TStreamerElement.t)
    (g : generated) :
  synthesize classname fElements = Ok g ->
  g_name g = classname
  /\ g_bases g = match base_names fElements with
                 | [] => ["ROOTStreamedObject"%string]
                 | bs => bs
                 end
  /\ g_bases g ≠ [].
Proof.
  intros H.
  apply (synthesize_inv (fun i st => bases st = base_names (take i fElements))) in H.
  - destruct H as (st & Hb & ->). simpl. rewrite firstn_all in Hb. rewrite Hb.
    repeat split. destruct (base_names fElements); discriminate.
  - reflexivity.
  - intros i e st st'. apply bases_step.
Qed.

(** The classes of element the synthesizer has no code for. *)
Lemma synth_element_unsupported cls elements i e st :
  class e = StreamerArtificial \/ class e = StreamerLoop
  \/ class e = StreamerObjectAnyPointer \/ class e = StreamerSTL
  \/ class e = StreamerSTLString
  \/ (class e = StreamerBasicType /\ fArrayLength e ≠ 0) ->
  synth_element cls elements i e st = Raise NotImplementedError.
Proof.
  unfold synth_element.
  intros [->|[->|[->|[->|[->|[-> Hn]]]]]]; try reflexivity.
  destruct (decide _); [contradiction|reflexivity].
Qed.

Lemma synth_loop_fails cls elements e :
  forall rest i st,
    In e rest ->
    (forall i st, exists x, synth_element cls elements i e st = Raise x) ->
    exists x, synth_loop cls elements i rest st = Raise x.
Proof.
  induction rest as [|a rest IH]; intros i st Hin Hbad; [contradiction|].
  simpl. destruct Hin as [->|Hin].
  - destruct (Hbad i st) as [x ->]. eauto.
  - destruct (synth_element cls elements i a st); [|eauto].
    now apply IH.
Qed.

(** X25. What the synthesizer writes no class for: a streamer info with
    a [TStreamerArtificial], [TStreamerLoop], [TStreamerObjectAnyPointer],
    [TStreamerSTL] or [TStreamerSTLString] element, with a basic type
    that is an array, or with an element of the base class itself,
    anywhere among its elements, makes the synthesis raise, whatever the
    other elements are. *)
Theorem synthesize_unsupported (classname : string)
    (fElements : list TStreamerElement.t) (e : TStreamerElement.t) :
  In e fElements ->
  class e = StreamerArtificial \/ class e = StreamerLoop
  \/ class e = StreamerObjectAnyPointer \/ class e = StreamerSTL
  \/ class e = StreamerSTLString
  \/ (class e = StreamerBasicType /\ fArrayLength e ≠ 0)
  \/ class e = ElementPlain ->
  exists x, synthesize classname fElements = Raise x.
Proof.
  intros Hin Hc.
  assert (Hbad : forall i st, exists x,
             synth_element classname fElements i e st = Raise x).
  { intros i st.
    destruct (decide (class e = ElementPlain)) as [Hp|Hp].
    - unfold synth_element. rewrite Hp. eauto.
    - rewrite synth_element_unsupported by tauto. eauto. }
  unfold synthesize.
  destruct (synth_loop_fails classname fElements e fElements 0%nat
              (mkSynth [SStartcheck] [] ∅ ∅ [] EmptyString) Hin Hbad) as [x ->].
  eauto.
Qed.

Section DefineFacts.

#[local] Set Default Proof Using "Type".

Variable _makeclass : string -> generated -> gmap string classdef -> result classdef.

(** The loop only adds to the classes. *)
Lemma define_loop_grows infos classes classes' :
  define_loop _makeclass infos classes = Ok classes' -> classes ⊆ classes'.
Proof.
  revert classes. induction infos as [|info infos IH]; intros classes H; simpl in H.
  - now inversion H.
  - destruct (classes !! TStreamerInfo.fName info) eqn:E; [now apply IH|].
    destruct (synthesize _ _) as [g|]; [|discriminate].
    destruct (_makeclass _ g classes) as [cls|]; [|discriminate].
    etransitivity; [|apply IH; exact H].
    now apply insert_subseteq.
Qed.

Lemma define_loop_defines infos classes classes' info :
  define_loop _makeclass infos classes = Ok classes' ->
  In info infos ->
  is_Some (classes' !! TStreamerInfo.fName info).
Proof.
  revert classes. induction infos as [|a infos IH]; intros classes H Hin;
    [contradiction|].
  simpl in H. destruct Hin as [->|Hin].
  - destruct (classes !! TStreamerInfo.fName info) as [c|] eqn:E.
    + apply define_loop_grows in H. exists c. eapply lookup_weaken; eassumption.
    + destruct (synthesize _ _) as [g|]; [|discriminate].
      destruct (_makeclass _ g classes) as [cls|]; [|discriminate].
      apply define_loop_grows in H. exists cls.
      eapply lookup_weaken; [|exact H]. apply lookup_insert_eq.
  - destruct (classes !! TStreamerInfo.fName a).
    + eapply IH; eassumption.
    + destruct (synthesize _ _) as [g|]; [|discriminate].
      destruct (_makeclass _ g classes) as [cls|]; [|discriminate].
      eapply IH; eassumption.
Qed.

(** X26. [_defineclasses] never replaces a class it starts from: when it
    returns, each of the twelve built-in names still maps to the
    built-in class, also when a streamer info has that name; and every
    streamer info's name is a key of the result. *)
Theorem defineclasses_keeps_seeds (streamerinfos : list TStreamerInfo.t)
    (classes : gmap string classdef) :
  _defineclasses _makeclass streamerinfos = Ok classes ->
  (forall n cls, seed_classes !! n = Some cls -> classes !! n = Some cls)
  /\ (forall info, In info streamerinfos ->
        is_Some (classes !! TStreamerInfo.fName info)).
Proof.
  unfold _defineclasses. intros H. split.
  - intros n cls Hn. apply define_loop_grows in H.
    eapply lookup_weaken; eassumption.
  - intros info Hin. eapply define_loop_defines; [exact H|].
    now apply in_rev in Hin.
Qed.



End DefineFacts.

(** *** The class attributes a body names *)

Lemma dtype_key_inj a b : dtype_key a = dtype_key b -> a = b.
Proof.
  unfold dtype_key. intros H. simpl in H. inversion H as [H'].
  change (pretty a = pretty b) in H'. now apply pretty_nat_inj in H'.
Qed.

Lemma dtypes_fresh_next (D : gmap string dtype) :
  dtypes_fresh D -> D !! dtype_key (size D + 1) = None.
Proof. intros H. apply H. lia. Qed.

Lemma dtypes_fresh_insert (D : gmap string dtype) v :
  dtypes_fresh D -> dtypes_fresh (<[dtype_key (size D + 1) := v]> D).
Proof.
  intros H k Hk.
  rewrite map_size_insert_None in Hk by now apply dtypes_fresh_next.
  rewrite lookup_insert_ne.
  - apply H. lia.
  - intros E. apply dtype_key_inj in E. lia.
Qed.

Lemma stmt_ok_weaken F F' D D' s :
  F ⊆ F' -> D ⊆ D' -> stmt_ok F D s -> stmt_ok F' D' s.
Proof.
  intros HF HD. destruct s; simpl; auto.
  - intros (fmt & c & H1 & H2). exists fmt, c. split; [|exact H2].
    eapply lookup_weaken; eassumption.
  - intros (fmt & codes & H1 & H2). exists fmt, codes. split; [|exact H2].
    eapply lookup_weaken; eassumption.
  - intros [d Hd]. exists d. eapply lookup_weaken; eassumption.
Qed.

Lemma wellformed_step cls elements i e st st' :
  wellformed st ->
  synth_element cls elements i e st = Ok st' ->
  wellformed st'.
Proof.
  intros (Hcode & HF & HD & pcodes & Hl & Hlen) H.
  unfold synth_element in H.
  destruct (class e) eqn:Ec; try discriminate.
  - (* TStreamerBase *)
    inversion H; subst; clear H. unfold wellformed. simpl.
    split; [|eauto 6]. apply Forall_app. split; [exact Hcode|].
    repeat constructor.
  - (* TStreamerBasicPointer *)
    destruct (re_search_counter (fTitle e)) as [counter|]; [|discriminate].
    destruct (decide _); [|discriminate].
    destruct (pointer_dtype _) as [dt|]; [|discriminate].
    inversion H; subst; clear H. unfold wellformed. simpl.
    split; [|split; [now apply formats_fresh_insert|
                     split; [now apply dtypes_fresh_insert|eauto]]].
    rewrite <- app_assoc. apply Forall_app. split.
    + eapply Forall_impl; [exact Hcode|]. intros s. apply stmt_ok_weaken.
      * now apply formats_insert_subseteq.
      * apply insert_subseteq. now apply dtypes_fresh_next.
    + constructor; [|constructor; [|constructor]]; simpl.
      * exists "!B"%string, c_B. split; [apply lookup_insert_eq|reflexivity].
      * exists dt. apply lookup_insert_eq.
  - (* TStreamerBasicType *)
    destruct (decide (fArrayLength e = 0)); [|discriminate].
    destruct (basic_letter (fType e)) as [letter|] eqn:El; [|discriminate].
    destruct (basic_letter_code _ _ El) as (a & code & -> & Ha).
    assert (Hl' : letters_codes
                    (list_ascii_of_string (basicletters st +:+ String a EmptyString))
                  = Some (pcodes ++ [code])).
    { rewrite list_ascii_of_string_snoc. now apply letters_codes_snoc. }
    destruct (batch_closes elements i).
    + inversion H; subst; clear H. unfold wellformed. simpl.
      split; [|split; [now apply formats_fresh_insert|
                       split; [exact HD|exists []; split; reflexivity]]].
      apply Forall_app. split.
      * eapply Forall_impl; [exact Hcode|]. intros s. apply stmt_ok_weaken.
        -- now apply formats_insert_subseteq.
        -- reflexivity.
      * constructor; [|constructor].
        destruct (basicnames st) as [|n1 ns] eqn:En.
        -- destruct pcodes; [|discriminate]. simpl.
           exists ("!" +:+ (basicletters st +:+ String a EmptyString)), code.
           split; [apply lookup_insert_eq|]. rewrite Struct_bang. exact Hl'.
        -- assert (Hline :
                     match (n1 :: ns) ++ ["self." +:+ fName e] with
                     | [one] => SField one cls (size (formats st) + 1)
                     | _ => SFields ((n1 :: ns) ++ ["self." +:+ fName e]) cls
                              (size (formats st) + 1)
                     end
                     = SFields ((n1 :: ns) ++ ["self." +:+ fName e]) cls
                         (size (formats st) + 1)).
           { destruct ns; reflexivity. }
           rewrite Hline. simpl.
           exists ("!" +:+ (basicletters st +:+ String a EmptyString)),
                  (pcodes ++ [code]).
           split; [apply lookup_insert_eq|]. split; [rewrite Struct_bang; exact Hl'|].
           rewrite length_app. simpl in Hlen. rewrite <- Hlen.
           simpl. rewrite length_app. simpl. lia.
    + inversion H; subst; clear H. unfold wellformed. simpl.
      split; [exact Hcode|]. split; [exact HF|]. split; [exact HD|].
      exists (pcodes ++ [code]). split; [exact Hl'|].
      rewrite !length_app, Hlen. reflexivity.
  - (* TStreamerObject *)
    inversion H; subst; clear H. unfold wellformed, add_code. simpl.
    split; [|eauto 6]. apply Forall_app. split; [exact Hcode|]. repeat constructor.
  - (* TStreamerObjectAny *)
    inversion H; subst; clear H. unfold wellformed, add_code. simpl.
    split; [|eauto 6]. apply Forall_app. split; [exact Hcode|]. repeat constructor.
  - (* TStreamerObjectPointer *)
    destruct (decide (fType e = kObjectp)).
    + inversion H; subst; clear H. unfold wellformed, add_code. simpl.
      split; [|eauto 6]. apply Forall_app. split; [exact Hcode|]. repeat constructor.
    + destruct (decide (fType e = kObjectP)); [|discriminate].
      inversion H; subst; clear H. unfold wellformed, add_code. simpl.
      split; [|eauto 6]. apply Forall_app. split; [exact Hcode|]. repeat constructor.
  - (* TStreamerString *)
    inversion H; subst; clear H. unfold wellformed, add_code. simpl.
    split; [|eauto 6]. apply Forall_app. split; [exact Hcode|]. repeat constructor.
Qed.

(** X28. A synthesized class holds what its [_readinto] names: every
    [_formatN] a field read refers to is a class attribute whose format
    string [struct] accepts and which has exactly one value for each
    target of the read, and every [_dtypeN] an array read refers to is a
    class attribute. *)
Theorem synthesize_wellformed (classname : string)
    (fElements : list TStreamerElement.t) (g : generated) :
  synthesize classname fElements = Ok g ->
  Forall (stmt_ok (g_formats g) (g_dtypes g)) (g_body g).
Proof.
  intros H.
  apply (synthesize_inv (fun _ st => wellformed st)) in H.
  - destruct H as (st & (Hcode & _) & ->). simpl.
    apply Forall_app. split; [exact Hcode|]. repeat constructor.
  - unfold wellformed. simpl. split; [repeat constructor|].
    split; [apply formats_fresh_empty|]. split; [intros k _; apply lookup_empty|].
    exists []. split; reflexivity.
  - intros i e st st' _. apply wellformed_step.
Qed.

(** *** The frame of a synthesized body *)

Lemma assign_keeps t v f k :
  t ≠ k -> locals (assign t v f) !! k = locals f !! k.
Proof.
  intros Hne. unfold assign. destruct (strip_self t); simpl; [reflexivity|].
  now apply lookup_insert_ne.
Qed.

Lemma assign_all_keeps ts vs f k :
  Forall (fun t => t ≠ k) ts ->
  locals (assign_all ts vs f) !! k = locals f !! k.
Proof.
  intros H. revert vs f. induction H as [|t ts Ht Hts IH]; intros vs f;
    [reflexivity|].
  destruct vs as [|v vs]; [reflexivity|]. simpl.
  rewrite IH. now apply assign_keeps.
Qed.

Lemma inner_code_snoc st s :
  inner_code st -> s ≠ SStartcheck -> s ≠ SEndcheck -> inner_code (add_code st s).
Proof.
  intros (mid & Hc & Hm) H1 H2. exists (mid ++ [s]). unfold add_code. simpl.
  rewrite Hc. split; [reflexivity|]. apply Forall_app. split; [exact Hm|].
  repeat constructor; assumption.
Qed.

Lemma inner_code_step cls elements i e st st' :
  inner_code st -> synth_element cls elements i e st = Ok st' -> inner_code st'.
Proof.
  intros Hin H. unfold synth_element in H.
  destruct (class e) eqn:Ec; try discriminate.
  - inversion H; subst; clear H.
    apply (inner_code_snoc st (SBaseReadinto (fName e))) in Hin; try discriminate.
    exact Hin.
  - destruct (re_search_counter (fTitle e)) as [counter|]; [|discriminate].
    destruct (decide _); [|discriminate].
    destruct (pointer_dtype _) as [dt|]; [|discriminate].
    inversion H; subst; clear H.
    destruct Hin as (mid & Hc & Hm). eexists. simpl. rewrite Hc. simpl.
    split; [reflexivity|]. rewrite <- app_assoc. apply Forall_app. split; [exact Hm|].
    repeat constructor; discriminate.
  - destruct (decide (fArrayLength e = 0)); [|discriminate].
    destruct (basic_letter (fType e)) as [letter|]; [|discriminate].
    destruct (batch_closes elements i).
    + inversion H; subst; clear H.
      destruct Hin as (mid & Hc & Hm). eexists. simpl. rewrite Hc. simpl.
      split; [reflexivity|]. apply Forall_app. split; [exact Hm|].
      repeat constructor;
        destruct (basicnames st ++ ["self." +:+ fName e]) as [|? [|? ?]];
        discriminate.
    + inversion H; subst; clear H. exact Hin.
  - inversion H; subst; clear H. apply inner_code_snoc; [exact Hin| |]; discriminate.
  - inversion H; subst; clear H. apply inner_code_snoc; [exact Hin| |]; discriminate.
  - destruct (decide (fType e = kObjectp)).
    + inversion H; subst; clear H.
      apply inner_code_snoc; [exact Hin| |]; discriminate.
    + destruct (decide (fType e = kObjectP)); [|discriminate].
      inversion H; subst; clear H.
      apply inner_code_snoc; [exact Hin| |]; discriminate.
  - inversion H; subst; clear H. apply inner_code_snoc; [exact Hin| |]; discriminate.
Qed.

Lemma element_targets_keep e k :
  (k = "start" \/ k = "cnt")%string ->
  fName e ≠ k ->
  Forall (fun t => t ≠ k) (element_targets e).
Proof.
  intros Hk Hn. unfold element_targets.
  destruct (class e); repeat constructor; try exact Hn.
  all: destruct Hk as [->| ->]; discriminate.
Qed.

Section GeneratedFacts.

#[local] Set Default Proof Using "Type".

Variable decompress : Z -> list byte -> Z -> list byte.
Variable class_env : string -> pyclass.
Variable base_readinto :
  string -> Source -> FileContext -> gmap string pyval -> reader (gmap string pyval).

Ltac step H a c E :=
  match type of H with
  | match ?t with _ => _ end = _ =>
      destruct t as [[a c]|] eqn:E; [|discriminate H]
  end.

Lemma exec_stmt_keeps F D src context s f c f' c' k :
  exec_stmt decompress class_env base_readinto F D src context s f c = Ok (f', c') ->
  s ≠ SStartcheck ->
  Forall (fun t => t ≠ k) (assigned s) ->
  locals f' !! k = locals f !! k.
Proof.
  intros H Hs Hk. destruct s; simpl in H, Hk; unfold_reader.
  - contradiction.
  - step H a c1 E. now inversion H.
  - destruct (F !! format_key formatnum); [|discriminate].
    destruct (Struct s); [|discriminate].
    step H v c1 E. inversion H; subst. apply assign_keeps. now inversion Hk.
  - destruct (F !! format_key formatnum); [|discriminate].
    destruct (Struct s); [|discriminate].
    step H vs c1 E. destruct (decide _); [|discriminate].
    inversion H; subst. now apply assign_all_keeps.
  - destruct (self_attrs f !! counter) as [[]|]; try discriminate.
    destruct (D !! dtypename); [|discriminate].
    step H vs c1 E. now inversion H.
  - step H v c1 E. inversion H; subst. apply assign_keeps. now inversion Hk.
  - step H v c1 E. inversion H; subst. apply assign_keeps. now inversion Hk.
  - destruct (locals f !! "start"%string) as [[]|]; try discriminate.
    destruct (locals f !! "cnt"%string) as [[]|]; try discriminate.
    step H u c1 E. now inversion H.
Qed.

Lemma exec_body_keeps F D src context body k :
  Forall (fun s => s ≠ SStartcheck /\ s ≠ SEndcheck) body ->
  Forall (fun t => t ≠ k) (flat_map assigned body) ->
  forall f c f' c',
    exec_body decompress class_env base_readinto F D src context body f c
    = Ok (f', c') ->
    locals f' !! k = locals f !! k.
Proof.
  induction body as [|s body IH]; intros Hb Hk f c f' c' H; simpl in H.
  - unfold_reader. now inversion H.
  - unfold_reader. step H f1 c1 E.
    inversion Hb as [|? ? [Hs _] Hb']; subst.
    simpl in Hk. apply Forall_app in Hk as [Hk1 Hk2].
    rewrite (IH Hb' Hk2 _ _ _ _ H).
    eapply exec_stmt_keeps; eassumption.
Qed.

(** X29. The [_readinto] of a synthesized class fills its frame: for a
    class written from elements none of which has the name of a
    parameter or a local of the method, a call that succeeds leaves the
    cursor exactly [cnt] bytes after the start of the record's header,
    [cnt] being what [_startcheck] made of that header.  The lines
    written for the elements never assign to the two locals the end
    check reads. *)
Theorem generated_readinto_framed (classname : string)
    (fElements : list TStreamerElement.t) (g : generated) (src : Source)
    (context : FileContext) (f f' : frame) (c c' : Cursor) :
  synthesize classname fElements = Ok g ->
  Forall (fun e => ~ In (fName e) method_locals) fElements ->
  generated_readinto decompress class_env base_readinto g src context f c
  = Ok (f', c') ->
  exists cnt vers c1,
    _startcheck decompress src c = Ok ((index c, cnt, vers), c1)
    /\ index c' = index c + cnt.
Proof.
  intros Hg Hnames H.
  apply (synthesize_inv
           (fun i st =>
              inner_code st
              /\ flat_map assigned (code st) ++ basicnames st
                 = flat_map element_targets (take i fElements)
              /\ batch_waits fElements i st)) in Hg.
  2:{ split; [exists []; split; [reflexivity|constructor]|].
      split; [reflexivity|]. intros Hn. contradiction. }
  2:{ intros i e st st' He [Hin Ht] Hst. split.
      - eapply inner_code_step; eassumption.
      - eapply targets_step; eassumption. }
  destruct Hg as (st & ((mid & Hc & Hmid) & Heq & Hw) & ->).
  pose proof (targets_done _ _ Heq Hw) as Htargets.
  unfold generated_readinto in H. simpl in H.
  rewrite Hc in H, Htargets. simpl in H, Htargets.
  rewrite flat_map_app in Htargets. simpl in Htargets. rewrite app_nil_r in Htargets.
  assert (Hkeep : forall k, (k = "start" \/ k = "cnt")%string ->
                    Forall (fun t => t ≠ k) (flat_map assigned mid)).
  { intros k Hk. rewrite Htargets. clear -Hnames Hk.
    induction Hnames as [|e es He Hes IH]; simpl; [constructor|].
    apply Forall_app. split; [|exact IH].
    apply element_targets_keep; [exact Hk|].
    intros Hn. apply He. rewrite Hn. unfold method_locals.
    destruct Hk as [->| ->]; simpl; tauto. }
  unfold_reader.
  destruct (_startcheck decompress src c) as [[[[start cnt] vers] c1]|] eqn:E1;
    [|discriminate].
  pose proof E1 as T. apply startcheck_inv in T as [-> _].
  exists cnt, vers, c1. split; [reflexivity|].
  match type of H with
  | context [exec_body _ _ _ ?F ?D _ _ (mid ++ [SEndcheck]) ?f0 c1] =>
      change (exec_body decompress class_env base_readinto F D src context
                (mid ++ [SEndcheck]) f0 c1 = Ok (f', c')) in H;
      rewrite exec_body_app in H; unfold_reader;
      destruct (exec_body decompress class_env base_readinto F D src context
                  mid f0 c1) as [[f2 c2]|] eqn:E2; [|discriminate];
      pose proof (exec_body_keeps F D src context mid "start" Hmid
                    (Hkeep _ (or_introl eq_refl)) _ _ _ _ E2) as Hstart;
      pose proof (exec_body_keeps F D src context mid "cnt" Hmid
                    (Hkeep _ (or_intror eq_refl)) _ _ _ _ E2) as Hcnt
  end.
  rewrite exec_body_one in H. simpl in H.
  rewrite Hstart, Hcnt in H.
  change (locals (assign "vers" (PInt vers)
                    (assign "cnt" (PInt cnt) (assign "start" (PInt (index c)) f)))
          !! "start"%string)
    with ((<["vers"%string := PInt vers]>
             (<["cnt"%string := PInt cnt]>
                (<["start"%string := PInt (index c)]> (locals f))))
          !! "start"%string) in H.
  change (locals (assign "vers" (PInt vers)
                    (assign "cnt" (PInt cnt) (assign "start" (PInt (index c)) f)))
          !! "cnt"%string)
    with ((<["vers"%string := PInt vers]>
             (<["cnt"%string := PInt cnt]>
                (<["start"%string := PInt (index c)]> (locals f))))
          !! "cnt"%string) in H.
  rewrite lookup_insert_ne, lookup_insert_ne, lookup_insert_eq in H by discriminate.
  rewrite lookup_insert_ne, lookup_insert_eq in H by discriminate.
  unfold_reader.
  destruct (_endcheck (index c) cnt c2) as [[[] c3]|] eqn:E3; [|discriminate].
  inversion H; subst. apply endcheck_inv in E3 as [-> Hend]. lia.
Qed.

End GeneratedFacts.

(** ** The properties at the concrete inputs *)

Lemma keys_lists_in_order_witness :
  ROOTDirectory_keys stored example_env 1 [key_b] false accept_all accept_all
  = ((["b;2"%string], None), [key_b]).
Proof.
  rewrite (keys_lists_in_order stored example_env 0 [key_b] false
             accept_all accept_all).
  - reflexivity.
  - intros H. discriminate H.
  - repeat constructor.
Defined.

Lemma keys_get_roundtrip_witness :
  ROOTDirectory_get stored example_env directory_a "b;2" None
  = (Ok (GObj (PStr "")), directory_a).
Proof.
  assert (H : _withcycle key_b = Ok "b;2"%string) by (vm_compute; reflexivity).
  pose proof (keys_get_roundtrip stored example_env directory_a [] [] key_b
                "b;2"%string eq_refl (List.Forall_nil _) eq_refl H) as T.
  etransitivity; [exact T|]. vm_compute. reflexivity.
Defined.


Lemma skiptobj_consumes_witness :
  exists version fBits,
    Z.land version kByteCountVMask = 0
    /\ Z.land fBits kIsReferenced ≠ 0
    /\ set_index (Cursor_new 0 0) 12
       = set_index (Cursor_new 0 0)
           (0 + 10
            + (if decide (Z.land version kByteCountVMask ≠ 0) then 4 else 0)
            + (if decide (Z.land fBits kIsReferenced ≠ 0) then 2 else 0)).
Proof.
  assert (H : _skiptobj stored tobject_example (Cursor_new 0 0)
              = Ok (tt, set_index (Cursor_new 0 0) 12))
    by (vm_compute; reflexivity).
  destruct (skiptobj_consumes stored tobject_example (Cursor_new 0 0)
              (set_index (Cursor_new 0 0) 12) H)
    as (version & uid & fBits & c1 & c2 & H1 & H2 & H3).
  vm_compute in H1. inversion H1; subst version c1; clear H1.
  vm_compute in H2. inversion H2; subst uid fBits c2; clear H2.
  exists 1, 16. split; [reflexivity|]. split; [discriminate|exact H3].
Defined.

Lemma nametitle_framed_witness :
  exists cnt,
    set_index (Cursor_new 6 0) 28 = set_index (Cursor_new 6 0) (6 + cnt)
    /\ 18 <= cnt.
Proof.
  assert (H : _nametitle stored element_example (Cursor_new 6 0)
              = Ok (("n"%string, "[k]"%string), set_index (Cursor_new 6 0) 28))
    by (vm_compute; reflexivity).
  destruct (nametitle_framed stored element_example (Cursor_new 6 0)
              (set_index (Cursor_new 6 0) 28) "n"%string "[k]"%string H)
    as (cnt & vers & c1 & c2 & c3 & _ & _ & _ & _ & Hc & Hn).
  exists cnt. split; assumption.
Defined.

Lemma TStreamerElement_framed_witness :
  exists cnt,
    set_index (Cursor_new 0 0) 69 = set_index (Cursor_new 0 0) (0 + cnt)
    /\ fXmin element_example_read = PFloat64 0.
Proof.
  assert (H : TStreamerElement_readinto stored (blank StreamerBasicType)
                element_example (Cursor_new 0 0)
              = Ok (element_example_read, set_index (Cursor_new 0 0) 69))
    by (vm_compute; reflexivity).
  destruct (TStreamerElement_framed stored (blank StreamerBasicType)
              element_example_read element_example (Cursor_new 0 0)
              (set_index (Cursor_new 0 0) 69) H)
    as (cnt & vers & c1 & Hs & Hc & _ & _ & Hx).
  exists cnt. split; [exact Hc|].
  vm_compute in Hs. inversion Hs; subst cnt vers c1; clear Hs.
  apply Hx. discriminate.
Defined.

Lemma TStreamerWrapped_frames_witness :
  exists cnt cnt',
    cnt = cnt' + 6
    /\ set_index (Cursor_new 0 0) 75 = set_index (Cursor_new 0 0) (0 + cnt).
Proof.
  assert (H : TStreamerWrapped_readinto stored (blank StreamerObject)
                wrapped_example (Cursor_new 0 0)
              = Ok (wrapped_example_read, set_index (Cursor_new 0 0) 75))
    by (vm_compute; reflexivity).
  destruct (TStreamerWrapped_frames stored (blank StreamerObject)
              wrapped_example_read wrapped_example (Cursor_new 0 0)
              (set_index (Cursor_new 0 0) 75) H)
    as (cnt & vers & c1 & cnt' & vers' & c2 & _ & _ & _ & Hcnt & Hc).
  exists cnt, cnt'. split; assumption.
Defined.

Lemma TStreamerBase_version_witness :
  exists cnt cnt',
    cnt = cnt' + 10
    /\ set_index (Cursor_new 0 0) 79 = set_index (Cursor_new 0 0) (0 + cnt).
Proof.
  assert (H : TStreamerBase_readinto stored (blank StreamerBase)
                base_example (Cursor_new 0 0)
              = Ok ((base_example_read, Some 7), set_index (Cursor_new 0 0) 79))
    by (vm_compute; reflexivity).
  destruct (TStreamerBase_version stored (blank StreamerBase)
              base_example_read base_example (Cursor_new 0 0)
              (set_index (Cursor_new 0 0) 79) (Some 7) H)
    as (cnt & vers & c1 & cnt' & vers' & c2 & Hs & _ & Hv & Hc).
  vm_compute in Hs. inversion Hs; subst cnt vers c1; clear Hs.
  destruct (decide (3 > 2)) as [_|Hn]; [|exfalso; apply Hn; reflexivity].
  destruct Hv as [Hcnt _].
  exists 79, cnt'. split; assumption.
Defined.

Lemma TStreamerBasicType_normalises_witness :
  ¬ (kOffsetL < fType element_example_read < kOffsetP)
  /\ (forall sz, basic_size 8 (fType element_example_read) = Some sz ->
        fSize element_example_read
        = if decide (fArrayLength element_example_read > 0)
          then sz * fArrayLength element_example_read else sz).
Proof.
  assert (H : TStreamerBasicType_readinto stored 8 (blank StreamerBasicType)
                wrapped_example (Cursor_new 0 0)
              = Ok (element_example_read, set_index (Cursor_new 0 0) 75))
    by (vm_compute; reflexivity).
  destruct (TStreamerBasicType_normalises stored 8 (blank StreamerBasicType)
              element_example_read wrapped_example (Cursor_new 0 0)
              (set_index (Cursor_new 0 0) 75) H)
    as (read & c1 & cnt & vers & _ & _ & Hn & _ & _ & Hsz & _).
  split; assumption.
Defined.

Lemma TStreamerSTL_versions_witness :
  TStreamerSTL_readinto stored 5 6 (blank StreamerSTL) base_example (Cursor_new 0 0)
  = Raise NotImplementedError.
Proof.
  assert (H : _startcheck stored base_example (Cursor_new 0 0)
              = Ok ((0, 79, 3), set_index (Cursor_new 0 0) 6))
    by (vm_compute; reflexivity).
  assert (H2 : TStreamerElement_readinto stored (blank StreamerSTL) base_example
                 (set_index (Cursor_new 0 0) 6)
               = Ok (stl_example_read, set_index (Cursor_new 0 0) 75))
    by (vm_compute; reflexivity).
  apply (proj1 (TStreamerSTL_versions stored 5 6 (blank StreamerSTL) base_example
                  (Cursor_new 0 0) (set_index (Cursor_new 0 0) 6) 0 79 3 H)
           ltac:(lia) stl_example_read (set_index (Cursor_new 0 0) 75) H2).
Defined.

Lemma TKey_get_cursor_witness :
  exists n, (n = 30 \/ n = 42)
    /\ TKey.set_cursor key_a (set_index (Cursor_new 0 0) 30)
       = TKey.set_cursor key_a (set_index (Cursor_new 0 0) (0 + n)).
Proof.
  assert (H : TKey_get stored example_env key_a
              = (Ok (GDir directory_a),
                 TKey.set_cursor key_a (set_index (Cursor_new 0 0) 30)))
    by (vm_compute; reflexivity).
  destruct (proj2 (TKey_get_cursor stored example_env key_a) directory_a
              (TKey.set_cursor key_a (set_index (Cursor_new 0 0) 30)) H)
    as (_ & _ & _ & n & Hn & Hk).
  exists n. split; assumption.
Defined.

Lemma readanyref_registers_witness :
  exists key,
    refs (set_refs (set_index (Cursor_new 0 0) 20)
            (<[2 := PStr ""]> (<[6 := PClass "TString"]> ∅))) !! key
    = Some (PStr "")
    /\ (1 > 0 -> key = 0 + kMapOffset).
Proof.
  assert (H1 : _readanyref_tag stored new_object_example (Cursor_new 0 0)
               = Ok ((0, 1, 4, kNewClassTag, 0x40000010),
                     set_index (Cursor_new 0 0) 8))
    by (vm_compute; reflexivity).
  assert (H2 : _readanyref stored example_env new_object_example file_context
                 (Cursor_new 0 0)
               = Ok (PStr "",
                     set_refs (set_index (Cursor_new 0 0) 20)
                       (<[2 := PStr ""]> (<[6 := PClass "TString"]> ∅))))
    by (vm_compute; reflexivity).
  apply (readanyref_registers stored example_env new_object_example file_context
           (Cursor_new 0 0) (set_index (Cursor_new 0 0) 8) _ 0 1 4 kNewClassTag
           0x40000010 (PStr "") H1 ltac:(discriminate) H2).
Defined.

Lemma readanyref_back_reference_witness :
  _readanyref stored example_env new_object_example file_context cursor_with_ref
  = Ok (PStr "kept", set_index cursor_with_ref 24).
Proof.
  assert (H1 : _readanyref_tag stored new_object_example cursor_with_ref
               = Ok ((20, 0, 0, 2, 0), set_index cursor_with_ref 24))
    by (vm_compute; reflexivity).
  apply (proj1 (readanyref_back_reference stored example_env new_object_example
                  file_context cursor_with_ref (set_index cursor_with_ref 24)
                  20 0 0 2 0 (PStr "kept") H1 eq_refl ltac:(discriminate)
                  ltac:(discriminate) eq_refl)).
Defined.

Lemma TList_length_witness :
  exists nsize, length [PNone] = Z.to_nat nsize.
Proof.
  assert (H : TList_readinto stored example_env list_example empty_context
                (Cursor_new 0 0)
              = Ok ([PNone], set_index (Cursor_new 0 0) 25))
    by (vm_compute; reflexivity).
  destruct (TList_length stored example_env list_example empty_context
              (Cursor_new 0 0) (set_index (Cursor_new 0 0) 25) [PNone] H)
    as (cnt & vers & c1 & c2 & name & c3 & nsize & c4 & _ & _ & _ & _ & Hl & _).
  exists nsize. exact Hl.
Defined.

Lemma TObjArray_length_witness :
  exists nsize, length [PNone] = Z.to_nat nsize.
Proof.
  assert (H : TObjArray_readinto stored example_env objarray_example empty_context
                (Cursor_new 0 0)
              = Ok ([PNone], set_index (Cursor_new 0 0) 29))
    by (vm_compute; reflexivity).
  destruct (TObjArray_length stored example_env objarray_example empty_context
              (Cursor_new 0 0) (set_index (Cursor_new 0 0) 29) [PNone] H)
    as (cnt & vers & c1 & c2 & name & c3 & nsize & low & c4
        & _ & _ & _ & _ & Hl & _).
  exists nsize. exact Hl.
Defined.

Lemma readstreamers_all_infos_witness :
  length (fst streamers_read) = 1%nat
  /\ Forall (fun x => exists attrs, x = PInst "TStreamerInfo" attrs)
       (fst streamers_read).
Proof.
  assert (H : _readstreamers stored (streamer_env 3) streamers_example
                (streamercontext 0) (Cursor_new 0 0)
              = Ok (fst streamers_read, snd streamers_read))
    by (vm_compute; reflexivity).
  destruct (readstreamers_all_infos stored (streamer_env 3)
              streamers_example (streamercontext 0) (Cursor_new 0 0)
              (snd streamers_read) (fst streamers_read) H)
    as (cnt & vers & c1 & c2 & name & c3 & nsize & c4
        & _ & _ & _ & _ & _ & Hall & _).
  split; [vm_compute; reflexivity|exact Hall].
Defined.

Lemma TStreamerInfo_elements_list_witness :
  exists attrs' elements,
    fst (fst info_read) = PInst "TStreamerInfo" attrs'
    /\ attrs' !! "fElements"%string = Some (PList elements).
Proof.
  assert (H : TStreamerInfo_readinto stored (streamer_env 2)
                (PInst "TStreamerInfo" ∅) streamers_example (streamercontext 0)
                (Cursor_new 43 0)
              = Ok ((fst (fst info_read), snd (fst info_read)), snd info_read))
    by (vm_compute; reflexivity).
  destruct (TStreamerInfo_elements_list stored (streamer_env 2)
              "TStreamerInfo"%string ∅ streamers_example (streamercontext 0)
              (Cursor_new 43 0) (snd info_read) (fst (fst info_read))
              (snd (fst info_read)) H)
    as (cnt & vers & c1 & name & title & c2 & attrs' & elements
        & _ & _ & Hs & _ & He & _).
  exists attrs', elements. split; assumption.
Defined.

Lemma TArray_length_witness :
  exists n, length [PInt 1; PInt 2] = Z.to_nat n
    /\ set_index (Cursor_new 0 0) 8
       = set_index (Cursor_new 0 0) (0 + 4 + n * Z.of_nat (code_size c_h)).
Proof.
  assert (H : TArray_readinto stored c_h array_example (Cursor_new 0 0)
              = Ok ([PInt 1; PInt 2], set_index (Cursor_new 0 0) 8))
    by (vm_compute; reflexivity).
  destruct (TArray_length stored c_h array_example (Cursor_new 0 0)
              (set_index (Cursor_new 0 0) 8) [PInt 1; PInt 2] H)
    as (n & c1 & _ & Hl & Hc).
  exists n. split; assumption.
Defined.


Lemma read_header_layout_witness :
  exists h,
    ROOTDirectory_read_header stored header_example = Ok h
    /\ hdr_fVersion h = 61400
    /\ hdr_fBEGIN h = 100.
Proof.
  assert (H1 : Source_data stored header_example 0 8
               = Ok (take 8 (content_of header_example)))
    by (vm_compute; reflexivity).
  assert (H2 : string_of_list_byte (take 4 (take 8 (content_of header_example)))
               = "root"%string) by (vm_compute; reflexivity).
  assert (H3 : Source_data stored header_example 8
                 (if decide (be_sint (take 4 (drop 4 (take 8 (content_of
                                                               header_example))))
                             < 1000000)
                  then 63 else 75)
               = Ok (drop 8 (content_of header_example)))
    by (vm_compute; reflexivity).
  destruct (read_header_layout stored header_example
              (take 8 (content_of header_example))
              (drop 8 (content_of header_example)) H1 H2 H3)
    as (h & Hh & Hv & Hb & _).
  exists h. split; [exact Hh|]. split.
  - rewrite Hv. vm_compute. reflexivity.
  - rewrite Hb. vm_compute. reflexivity.
Defined.

Lemma synthesize_targets_witness :
  flat_map assigned (g_body event_class)
  = ["self.fN"; "self.fX"; "_fArr"; "self.fArr"; "self.fFlag"]%string.
Proof.
  assert (H : synthesize "Event" event_elements = Ok event_class)
    by (vm_compute; reflexivity).
  rewrite (synthesize_targets "Event" event_elements event_class H).
  reflexivity.
Defined.

Lemma synthesize_bases_witness :
  g_bases event_class = ["TNamed"%string].
Proof.
  assert (H : synthesize "Event" event_elements = Ok event_class)
    by (vm_compute; reflexivity).
  destruct (synthesize_bases "Event" event_elements event_class H)
    as (_ & Hb & _).
  rewrite Hb. reflexivity.
Defined.

Lemma synthesize_unsupported_witness :
  exists x, synthesize "V" array_elements = Raise x.
Proof.
  apply (synthesize_unsupported "V" array_elements
           (element_of StreamerBasicType "fV" "" kInt 3 "Int_t")).
  - right. left. reflexivity.
  - do 5 right. left. split; [reflexivity|discriminate].
Defined.

Lemma synthesize_wellformed_witness :
  Forall (stmt_ok (g_formats event_class) (g_dtypes event_class))
    (g_body event_class).
Proof.
  assert (H : synthesize "Event" event_elements = Ok event_class)
    by (vm_compute; reflexivity).
  exact (synthesize_wellformed "Event" event_elements event_class H).
Defined.

Lemma generated_readinto_framed_witness :
  exists cnt, index (snd counted_read) = 0 + cnt.
Proof.
  assert (H1 : synthesize "Event" counted_elements = Ok counted_class)
    by (vm_compute; reflexivity).
  assert (H2 : Forall (fun e => ~ In (fName e) method_locals) counted_elements).
  { repeat constructor; intros H; vm_compute in H; intuition discriminate. }
  assert (H3 : generated_readinto stored example_env no_bases counted_class
                 counted_example empty_context (mkFrame ∅ ∅) (Cursor_new 0 0)
               = Ok (fst counted_read, snd counted_read))
    by (vm_compute; reflexivity).
  destruct (generated_readinto_framed stored example_env no_bases "Event"
              counted_elements counted_class counted_example empty_context
              (mkFrame ∅ ∅) (fst counted_read) (Cursor_new 0 0) (snd counted_read)
              H1 H2 H3)
    as (cnt & vers & c1 & _ & Hc).
  exists cnt. exact Hc.
Defined.

Lemma defineclasses_keeps_seeds_witness :
  classes_example !! "TObject"%string = Some (Builtin "TObject")
  /\ is_Some (classes_example !! "Event"%string).
Proof.
  assert (H : _defineclasses keep_text infos_example = Ok classes_example)
    by (vm_compute; reflexivity).
  destruct (defineclasses_keeps_seeds keep_text infos_example classes_example H)
    as [Hseed Hall].
  split.
  - apply Hseed. vm_compute. reflexivity.
  - apply (Hall (TStreamerInfo.mk "Event" 0 1 counted_elements)).
    left. reflexivity.
Defined.


Lemma TKey_cursor_offset_witness :
  index (TKey._cursor key_example_read) - origin (TKey._cursor key_example_read)
  = 30.
Proof.
  assert (H : TKey_read stored key_example compressing_context (Cursor_new 0 0)
              = Ok (key_example_read, set_index (Cursor_new 0 0) 36))
    by (vm_compute; reflexivity).
  destruct (TKey_cursor_offset stored key_example compressing_context
              (Cursor_new 0 0) (set_index (Cursor_new 0 0) 36) key_example_read H)
    as (Ho & _).
  exact Ho.
Defined.

Lemma readanyref_unknown_class_witness :
  _readanyref stored example_env unknown_class_example empty_context
    (Cursor_new 0 0)
  = Raise TypeError.
Proof.
  assert (H1 : _readanyref_tag stored unknown_class_example (Cursor_new 0 0)
               = Ok ((0, 1, 4, kNewClassTag, 0x40000007),
                     set_index (Cursor_new 0 0) 8))
    by (vm_compute; reflexivity).
  assert (H2 : Cursor_cstring stored unknown_class_example
                 (set_index (Cursor_new 0 0) 8)
               = Ok ("TX"%string, set_index (Cursor_new 0 0) 11))
    by (vm_compute; reflexivity).
  apply (readanyref_unknown_class stored example_env unknown_class_example
           empty_context (Cursor_new 0 0) (set_index (Cursor_new 0 0) 8)
           (set_index (Cursor_new 0 0) 11) 0 1 4 0x40000007 "TX"%string
           eq_refl H1 H2 eq_refl).
Defined.
